(** * InvenSense ICM-426xx core driver: a shallow embedding and its properties

    Source: drivers/iio/imu/inv_icm42600/inv_icm42600_core.c

    The driver state [inv_icm42600_state] is threaded explicitly through a
    small state monad.  Every call that leaves the driver (a regmap
    transaction, a sleep, a clock read, a regulator or runtime-PM call, a
    push to the IIO buffers) is appended to a chronological trace, so that
    statements such as "no register write is issued" are statements about
    that trace.  What the outside world answers (return codes, register
    contents, the clock) is an arbitrary function of the trace so far: the
    [Platform] class.  The macros and enumerators of inv_icm42600.h, which the
    driver uses but does not define, are the fields of the [Header] class. *)

From Stdlib Require Import ZArith NArith List Bool String Lia.
Import ListNotations.
Local Open Scope Z_scope.

(** ** Machine integers *)

Definition to_uint (x : Z) : Z := x mod 2 ^ 32.
Definition to_u8 (x : Z) : Z := x mod 2 ^ 8.
Definition to_u64 (x : Z) : Z := x mod 2 ^ 64.
Definition to_s64 (x : Z) : Z := (x + 2 ^ 63) mod 2 ^ 64 - 2 ^ 63.
Definition to_s16 (x : Z) : Z := (x + 2 ^ 15) mod 2 ^ 16 - 2 ^ 15.

(** ** inv_icm42600.h: what the driver takes from its header *)

Inductive inv_icm42600_chip :=
| INV_CHIP_ICM42600
| INV_CHIP_ICM42602
| INV_CHIP_ICM42605
| INV_CHIP_ICM42622
| INV_CHIP_ICM42631
| INV_CHIP_ICM42670.

Class Header := {
  (* register addresses *)
  INV_ICM42600_REG_WHOAMI : Z;
  INV_ICM42600_REG_ACCEL_CONFIG0 : Z;
  INV_ICM42600_REG_GYRO_CONFIG0 : Z;
  INV_ICM42600_REG_GYRO_ACCEL_CONFIG0 : Z;
  INV_ICM42600_REG_FIFO_CONFIG : Z;
  INV_ICM42670_REG_PWR_MGMT0 : Z;
  INV_ICM42670_REG_GYRO_CONFIG0 : Z;
  INV_ICM42670_REG_ACCEL_CONFIG0 : Z;
  INV_ICM42670_REG_SIGNAL_PATH_RESET : Z;
  INV_ICM42670_REG_INT_STATUS : Z;
  INV_ICM42670_REG_INT_STATUS_DRDY : Z;
  INV_ICM42670_REG_INTF_CONFIG0 : Z;
  INV_ICM42670_REG_ACCEL_DATA_X : Z;
  (* register values and masks *)
  INV_ICM42670_SIGNAL_PATH_RESET_SOFT_RESET_DEVICE_CONFIG : Z;
  INV_ICM42600_INT_STATUS_RESET_DONE : Z;
  INV_ICM42600_INTF_CONFIG0_SENSOR_DATA_ENDIAN : Z;
  INV_ICM42600_FIFO_CONFIG_BYPASS : Z;
  INV_ICM42600_FIFO_CONFIG_STREAM : Z;
  (* field packing macros *)
  INV_ICM42600_PWR_MGMT0_GYRO : Z -> Z;
  INV_ICM42600_PWR_MGMT0_ACCEL : Z -> Z;
  INV_ICM42600_ACCEL_CONFIG0_FS : Z -> Z;
  INV_ICM42600_ACCEL_CONFIG0_ODR : Z -> Z;
  INV_ICM42600_GYRO_CONFIG0_FS : Z -> Z;
  INV_ICM42600_GYRO_CONFIG0_ODR : Z -> Z;
  INV_ICM42600_GYRO_ACCEL_CONFIG0_ACCEL_FILT : Z -> Z;
  INV_ICM42600_GYRO_ACCEL_CONFIG0_GYRO_FILT : Z -> Z;
  INV_ICM42670_GYRO_CONFIG0_FS : Z -> Z;
  INV_ICM42670_GYRO_CONFIG0_ODR : Z -> Z;
  INV_ICM42670_ACCEL_CONFIG0_FS : Z -> Z;
  INV_ICM42670_ACCEL_CONFIG0_ODR : Z -> Z;
  (* delays, in milliseconds *)
  INV_ICM42600_TEMP_STARTUP_TIME_MS : N;
  INV_ICM42600_ACCEL_STARTUP_TIME_MS : N;
  INV_ICM42600_GYRO_STARTUP_TIME_MS : N;
  INV_ICM42600_GYRO_STOP_TIME_MS : N;
  INV_ICM42600_RESET_TIME_MS : N;
  (* enumerators *)
  INV_ICM42600_SENSOR_MODE_OFF : Z;
  INV_ICM42600_SENSOR_MODE_LOW_NOISE : Z;
  INV_ICM42600_GYRO_FS_2000DPS : Z;
  INV_ICM42600_ACCEL_FS_16G : Z;
  INV_ICM42600_ODR_50HZ : Z;
  INV_ICM42670_ODR_200HZ : Z;
  INV_ICM42600_FILTER_BW_ODR_DIV_2 : Z;
  (* identity values *)
  INV_ICM42600_WHOAMI_ICM42600 : Z;
  INV_ICM42600_WHOAMI_ICM42602 : Z;
  INV_ICM42600_WHOAMI_ICM42605 : Z;
  INV_ICM42600_WHOAMI_ICM42622 : Z;
  INV_ICM42600_WHOAMI_ICM42631 : Z;
  INV_ICM42600_WHOAMI_ICM42670 : Z;
  (* errno *)
  ENODEV : Z
}.

(** ** Data model *)

(** [struct inv_icm42600_sensor_conf]: four [int] fields; a negative field
    in a request means "keep the current value". *)
Record inv_icm42600_sensor_conf := mk_sensor_conf {
  mode : Z;
  fs : Z;
  odr : Z;
  filter : Z
}.

Record inv_icm42600_conf := mk_conf {
  gyro : inv_icm42600_sensor_conf;
  accel : inv_icm42600_sensor_conf;
  temp_en : bool
}.

(** [st->suspended]; the C fields are [gyro], [accel] and [temp]. *)
Record inv_icm42600_suspended := mk_suspended {
  suspended_gyro : Z;
  suspended_accel : Z;
  suspended_temp : bool
}.

(** [st->timestamp]; the C fields are [gyro] and [accel], both 64-bit signed. *)
Record inv_icm42600_timestamp := mk_timestamp {
  timestamp_gyro : Z;
  timestamp_accel : Z
}.

(** The part of [struct inv_icm42600_state] that the core file reads or
    writes.  [fifo_on] is [st->fifo.on]; [indio_dev] tells whether
    [st->indio_dev] is a non-NULL pointer. *)
Record inv_icm42600_state := mk_state {
  chip : inv_icm42600_chip;
  name : string;
  conf : inv_icm42600_conf;
  suspended : inv_icm42600_suspended;
  fifo_on : bool;
  timestamp : inv_icm42600_timestamp;
  indio_dev : bool
}.

(** The anonymous [scan] struct pushed to the IIO buffers. *)
Record scan := mk_scan {
  channels : list Z;
  ts : Z
}.

Inductive supply := Vdd | Vddio.

(** Everything the driver asks of its environment, in program order. *)
Inductive event :=
| RegWrite (reg val : Z)
| RegRead (reg : Z)
| RegBulkRead (reg : Z) (len : nat)
| RegUpdateBits (reg mask val : Z)
| USleepRange (lo hi : N)
| MSleep (ms : N)
| GetTimeNs (t : Z)
| PushToBuffers (s : scan)
| DevErr
| MutexLock
| MutexUnlock
| RegulatorEnable (r : supply)
| RegulatorDisable (r : supply)
| PmRuntimeDisable
| PmRuntimeSetActive
| PmRuntimeEnable.

(** The environment: each answer may depend on everything that happened
    before. *)
Class Platform := {
  (* return code of the call [e] issued after the history [h] *)
  hw_ret : list event -> event -> Z;
  (* value delivered by a successful single-register read *)
  hw_val : list event -> Z -> Z;
  (* bytes delivered by a successful bulk read *)
  hw_bulk : list event -> Z -> nat -> list Z;
  (* the IIO clock *)
  hw_time_ns : list event -> Z;
  (* iio_buffer_enabled() *)
  hw_buffer_enabled : list event -> bool;
  (* pm_runtime_suspended() *)
  hw_rpm_suspended : list event -> bool
}.

Record world := mk_world {
  st : inv_icm42600_state;
  trace : list event
}.

(** ** The state monad of the driver *)

Definition M (A : Type) : Type := world -> A * world.

Definition ret {A} (a : A) : M A := fun w => (a, w).

Definition bind {A B} (m : M A) (k : A -> M B) : M B :=
  fun w => let (a, w') := m w in k a w'.

Notation "x <- m ;; k" := (bind m (fun x => k))
  (at level 61, m at next level, right associativity).
Notation "' p <- m ;; k" := (bind m (fun x => let p := x in k))
  (at level 61, p pattern, m at next level, right associativity).
Notation "m ;;; k" := (bind m (fun _ => k))
  (at level 61, right associativity).

Definition get_st : M inv_icm42600_state := fun w => (st w, w).

Definition put_st (s : inv_icm42600_state) : M unit :=
  fun w => (tt, mk_world s (trace w)).

Definition history : M (list event) := fun w => (trace w, w).

Definition emit (e : event) : M unit :=
  fun w => (tt, mk_world (st w) (trace w ++ [e])).

(** [if (ret)] on an [int] return code. *)
Definition failed (r : Z) : bool := negb (r =? 0).

(** Field updates of the state. *)
Definition with_conf (s : inv_icm42600_state) (c : inv_icm42600_conf) :=
  mk_state (chip s) (name s) c (suspended s) (fifo_on s) (timestamp s)
           (indio_dev s).
Definition with_name (s : inv_icm42600_state) (n : string) :=
  mk_state (chip s) n (conf s) (suspended s) (fifo_on s) (timestamp s)
           (indio_dev s).
Definition with_suspended (s : inv_icm42600_state) (x : inv_icm42600_suspended) :=
  mk_state (chip s) (name s) (conf s) x (fifo_on s) (timestamp s)
           (indio_dev s).
Definition with_timestamp (s : inv_icm42600_state) (t : inv_icm42600_timestamp) :=
  mk_state (chip s) (name s) (conf s) (suspended s) (fifo_on s) t
           (indio_dev s).

Definition with_mode (c : inv_icm42600_sensor_conf) (m : Z) :=
  mk_sensor_conf m (fs c) (odr c) (filter c).
Definition with_fs_odr (c : inv_icm42600_sensor_conf) (f o : Z) :=
  mk_sensor_conf (mode c) f o (filter c).
Definition with_filter (c : inv_icm42600_sensor_conf) (f : Z) :=
  mk_sensor_conf (mode c) (fs c) (odr c) f.

Definition is_bus_write (e : event) : bool :=
  match e with
  | RegWrite _ _ | RegUpdateBits _ _ _ => true
  | _ => false
  end.

(** The register writes of a trace, oldest first. *)
Definition bus_writes (l : list event) : list event := List.filter is_bus_write l.

Section Driver.

Context {H : Header} {P : Platform}.

(** ** Calls into the kernel *)

Definition call (e : event) : M Z :=
  h <- history ;; emit e ;;; ret (hw_ret h e).

Definition regmap_write (reg val : Z) : M Z := call (RegWrite reg val).

Definition regmap_update_bits (reg mask val : Z) : M Z :=
  call (RegUpdateBits reg mask val).

(** The second component is the value left in the [unsigned int] the caller
    passed; the driver looks at it only when the code is zero. *)
Definition regmap_read (reg : Z) : M (Z * Z) :=
  h <- history ;;
  r <- call (RegRead reg) ;;
  ret (r, to_uint (hw_val h reg)).

Definition regmap_bulk_read (reg : Z) (len : nat) : M (Z * list Z) :=
  h <- history ;;
  r <- call (RegBulkRead reg len) ;;
  ret (r, List.map to_u8 (hw_bulk h reg len)).

Definition usleep_range (lo hi : N) : M unit := emit (USleepRange lo hi).
Definition msleep (ms : N) : M unit := emit (MSleep ms).
Definition dev_err : M unit := emit DevErr.
Definition mutex_lock : M unit := emit MutexLock.
Definition mutex_unlock : M unit := emit MutexUnlock.

(** Returns an [s64]. *)
Definition iio_get_time_ns : M Z :=
  h <- history ;;
  let t := to_s64 (hw_time_ns h) in
  emit (GetTimeNs t) ;;; ret t.

Definition iio_buffer_enabled : M bool :=
  h <- history ;; ret (hw_buffer_enabled h).

Definition pm_runtime_suspended : M bool :=
  h <- history ;; ret (hw_rpm_suspended h).

Definition regulator_enable (r : supply) : M Z := call (RegulatorEnable r).
Definition regulator_disable (r : supply) : M Z := call (RegulatorDisable r).

(** ** Sensor mode controller *)

(** [if (sleepval < T) sleepval = T;] *)
Definition raise_to (sleepval T : N) : N :=
  if (sleepval <? T)%N then T else sleepval.

(** [sleep_ms] is [None] for a NULL pointer and [Some v] for a pointer to an
    [unsigned int] that holds [v] at the call; the second component of the
    result is that cell after the call. *)
Definition inv_icm42600_set_pwr_mgmt0 (gyro_mode accel_mode : Z) (temp : bool)
    (sleep_ms : option N) : M (Z * option N) :=
  s <- get_st ;;
  let oldgyro := mode (gyro (conf s)) in
  let oldaccel := mode (accel (conf s)) in
  let oldtemp := temp_en (conf s) in
  (* if nothing changed, exit *)
  if (gyro_mode =? oldgyro) && (accel_mode =? oldaccel) && Bool.eqb temp oldtemp
  then ret (0, sleep_ms)
  else
    let val := to_uint (Z.lor (INV_ICM42600_PWR_MGMT0_GYRO gyro_mode)
                              (INV_ICM42600_PWR_MGMT0_ACCEL accel_mode)) in
    r <- regmap_write INV_ICM42670_REG_PWR_MGMT0 val ;;
    if failed r then ret (r, sleep_ms)
    else
      put_st (with_conf s (mk_conf (with_mode (gyro (conf s)) gyro_mode)
                                   (with_mode (accel (conf s)) accel_mode)
                                   temp)) ;;;
      (* compute required wait time for sensors to stabilize *)
      let sleepval := 0%N in
      (* temperature stabilization time *)
      let sleepval :=
        if temp && negb oldtemp
        then raise_to sleepval INV_ICM42600_TEMP_STARTUP_TIME_MS
        else sleepval in
      (* accel startup time *)
      sleepval <-
        (if negb (accel_mode =? oldaccel) && (oldaccel =? INV_ICM42600_SENSOR_MODE_OFF)
         then usleep_range 200 300 ;;;
              ret (raise_to sleepval INV_ICM42600_ACCEL_STARTUP_TIME_MS)
         else ret sleepval) ;;
      sleepval <-
        (if negb (gyro_mode =? oldgyro)
         then
           (* gyro startup time *)
           if oldgyro =? INV_ICM42600_SENSOR_MODE_OFF
           then usleep_range 200 300 ;;;
                ret (raise_to sleepval INV_ICM42600_GYRO_STARTUP_TIME_MS)
           (* gyro stop time *)
           else if gyro_mode =? INV_ICM42600_SENSOR_MODE_OFF
           then ret (raise_to sleepval INV_ICM42600_GYRO_STOP_TIME_MS)
           else ret sleepval
         else ret sleepval) ;;
      (* deferred sleep value if sleep pointer is provided or direct sleep *)
      match sleep_ms with
      | Some _ => ret (0, Some sleepval)
      | None =>
          (if negb (sleepval =? 0)%N then msleep sleepval else ret tt) ;;;
          ret (0, None)
      end.


(** ** Sensor configuration manager *)

(** The request [conf] is passed by pointer and sanitized in place; the
    second component of the result is the caller's struct after the call.
    [oldconf] aliases [st->conf.accel], so it is read again from the state
    after each update. *)
Definition inv_icm42600_set_accel_conf (c : inv_icm42600_sensor_conf)
    (sleep_ms : option N) : M (Z * inv_icm42600_sensor_conf * option N) :=
  s <- get_st ;;
  let oldconf := accel (conf s) in
  (* Sanitize missing values with current values *)
  let c := if mode c <? 0 then mk_sensor_conf (mode oldconf) (fs c) (odr c) (filter c) else c in
  let c := if fs c <? 0 then mk_sensor_conf (mode c) (fs oldconf) (odr c) (filter c) else c in
  let c := if odr c <? 0 then mk_sensor_conf (mode c) (fs c) (odr oldconf) (filter c) else c in
  let c := if filter c <? 0 then mk_sensor_conf (mode c) (fs c) (odr c) (filter oldconf) else c in
  (* set ACCEL_CONFIG0 register (accel fullscale & odr) *)
  r <- (if negb (fs c =? fs oldconf) || negb (odr c =? odr oldconf)
        then
          let val := to_uint (Z.lor (INV_ICM42600_ACCEL_CONFIG0_FS (fs c))
                                    (INV_ICM42600_ACCEL_CONFIG0_ODR (odr c))) in
          r <- regmap_write INV_ICM42600_REG_ACCEL_CONFIG0 val ;;
          if failed r then ret r
          else
            put_st (with_conf s (mk_conf (gyro (conf s))
                                         (with_fs_odr oldconf (fs c) (odr c))
                                         (temp_en (conf s)))) ;;;
            ret 0
        else ret 0) ;;
  if failed r then ret (r, c, sleep_ms)
  else
    (* set GYRO_ACCEL_CONFIG0 register (accel filter) *)
    s <- get_st ;;
    let oldconf := accel (conf s) in
    r <- (if negb (filter c =? filter oldconf)
          then
            let val := to_uint
              (Z.lor (INV_ICM42600_GYRO_ACCEL_CONFIG0_ACCEL_FILT (filter c))
                     (INV_ICM42600_GYRO_ACCEL_CONFIG0_GYRO_FILT (filter (gyro (conf s))))) in
            r <- regmap_write INV_ICM42600_REG_GYRO_ACCEL_CONFIG0 val ;;
            if failed r then ret r
            else
              put_st (with_conf s (mk_conf (gyro (conf s))
                                           (with_filter oldconf (filter c))
                                           (temp_en (conf s)))) ;;;
              ret 0
          else ret 0) ;;
    if failed r then ret (r, c, sleep_ms)
    else
      (* set PWR_MGMT0 register (accel sensor mode) *)
      s <- get_st ;;
      '(r, sl) <- inv_icm42600_set_pwr_mgmt0 (mode (gyro (conf s))) (mode c)
                                            (temp_en (conf s)) sleep_ms ;;
      ret (r, c, sl).

Definition inv_icm42600_set_gyro_conf (c : inv_icm42600_sensor_conf)
    (sleep_ms : option N) : M (Z * inv_icm42600_sensor_conf * option N) :=
  s <- get_st ;;
  let oldconf := gyro (conf s) in
  (* sanitize missing values with current values *)
  let c := if mode c <? 0 then mk_sensor_conf (mode oldconf) (fs c) (odr c) (filter c) else c in
  let c := if fs c <? 0 then mk_sensor_conf (mode c) (fs oldconf) (odr c) (filter c) else c in
  let c := if odr c <? 0 then mk_sensor_conf (mode c) (fs c) (odr oldconf) (filter c) else c in
  let c := if filter c <? 0 then mk_sensor_conf (mode c) (fs c) (odr c) (filter oldconf) else c in
  (* set GYRO_CONFIG0 register (gyro fullscale & odr) *)
  r <- (if negb (fs c =? fs oldconf) || negb (odr c =? odr oldconf)
        then
          let val := to_uint (Z.lor (INV_ICM42600_GYRO_CONFIG0_FS (fs c))
                                    (INV_ICM42600_GYRO_CONFIG0_ODR (odr c))) in
          r <- regmap_write INV_ICM42600_REG_GYRO_CONFIG0 val ;;
          if failed r then ret r
          else
            put_st (with_conf s (mk_conf (with_fs_odr oldconf (fs c) (odr c))
                                         (accel (conf s))
                                         (temp_en (conf s)))) ;;;
            ret 0
        else ret 0) ;;
  if failed r then ret (r, c, sleep_ms)
  else
    (* set GYRO_ACCEL_CONFIG0 register (gyro filter) *)
    s <- get_st ;;
    let oldconf := gyro (conf s) in
    r <- (if negb (filter c =? filter oldconf)
          then
            let val := to_uint
              (Z.lor (INV_ICM42600_GYRO_ACCEL_CONFIG0_ACCEL_FILT (filter (accel (conf s))))
                     (INV_ICM42600_GYRO_ACCEL_CONFIG0_GYRO_FILT (filter c))) in
            r <- regmap_write INV_ICM42600_REG_GYRO_ACCEL_CONFIG0 val ;;
            if failed r then ret r
            else
              put_st (with_conf s (mk_conf (with_filter oldconf (filter c))
                                           (accel (conf s))
                                           (temp_en (conf s)))) ;;;
              ret 0
          else ret 0) ;;
    if failed r then ret (r, c, sleep_ms)
    else
      (* set PWR_MGMT0 register (gyro sensor mode) *)
      s <- get_st ;;
      '(r, sl) <- inv_icm42600_set_pwr_mgmt0 (mode c) (mode (accel (conf s)))
                                            (temp_en (conf s)) sleep_ms ;;
      ret (r, c, sl).

Definition inv_icm42600_set_temp_conf (enable : bool) (sleep_ms : option N)
    : M (Z * option N) :=
  s <- get_st ;;
  inv_icm42600_set_pwr_mgmt0 (mode (gyro (conf s))) (mode (accel (conf s)))
                             enable sleep_ms.

(** ** Device bring-up *)

Definition inv_icm42600_set_conf (c : inv_icm42600_conf) : M Z :=
  (* set PWR_MGMT0 register (gyro & accel sensor mode, temp enabled) *)
  let val := to_uint (Z.lor (INV_ICM42600_PWR_MGMT0_GYRO (mode (gyro c)))
                            (INV_ICM42600_PWR_MGMT0_ACCEL (mode (accel c)))) in
  r <- regmap_write INV_ICM42670_REG_PWR_MGMT0 val ;;
  if failed r then ret r
  else
    (* set GYRO_CONFIG0 register (gyro fullscale & odr) *)
    let val := to_uint (Z.lor (INV_ICM42670_GYRO_CONFIG0_FS (fs (gyro c)))
                              (INV_ICM42670_GYRO_CONFIG0_ODR (odr (gyro c)))) in
    r <- regmap_write INV_ICM42670_REG_GYRO_CONFIG0 val ;;
    if failed r then ret r
    else
      (* set ACCEL_CONFIG0 register (accel fullscale & odr) *)
      let val := to_uint (Z.lor (INV_ICM42670_ACCEL_CONFIG0_FS (fs (accel c)))
                                (INV_ICM42670_ACCEL_CONFIG0_ODR (odr (accel c)))) in
      r <- regmap_write INV_ICM42670_REG_ACCEL_CONFIG0 val ;;
      if failed r then ret r
      else
        (* update internal conf *)
        s <- get_st ;;
        put_st (with_conf s c) ;;;
        ret 0.

Record inv_icm42600_hw_entry := mk_hw {
  whoami : Z;
  hw_name : string;
  hw_conf : inv_icm42600_conf
}.

(* chip initial default configuration *)
Definition inv_icm42600_default_conf : inv_icm42600_conf :=
  mk_conf
    (mk_sensor_conf INV_ICM42600_SENSOR_MODE_OFF INV_ICM42600_GYRO_FS_2000DPS
                    INV_ICM42600_ODR_50HZ INV_ICM42600_FILTER_BW_ODR_DIV_2)
    (mk_sensor_conf INV_ICM42600_SENSOR_MODE_OFF INV_ICM42600_ACCEL_FS_16G
                    INV_ICM42600_ODR_50HZ INV_ICM42600_FILTER_BW_ODR_DIV_2)
    false.

Definition inv_icm42670_default_conf : inv_icm42600_conf :=
  mk_conf
    (mk_sensor_conf INV_ICM42600_SENSOR_MODE_LOW_NOISE INV_ICM42600_GYRO_FS_2000DPS
                    INV_ICM42670_ODR_200HZ INV_ICM42600_FILTER_BW_ODR_DIV_2)
    (mk_sensor_conf INV_ICM42600_SENSOR_MODE_LOW_NOISE INV_ICM42600_ACCEL_FS_16G
                    INV_ICM42670_ODR_200HZ INV_ICM42600_FILTER_BW_ODR_DIV_2)
    false.

(** The table [inv_icm42600_hw[INV_CHIP_NB]]; [whoami] is a [uint8_t]. *)
Definition inv_icm42600_hw (c : inv_icm42600_chip) : inv_icm42600_hw_entry :=
  match c with
  | INV_CHIP_ICM42600 =>
      mk_hw (to_u8 INV_ICM42600_WHOAMI_ICM42600) "icm42600" inv_icm42600_default_conf
  | INV_CHIP_ICM42602 =>
      mk_hw (to_u8 INV_ICM42600_WHOAMI_ICM42602) "icm42602" inv_icm42600_default_conf
  | INV_CHIP_ICM42605 =>
      mk_hw (to_u8 INV_ICM42600_WHOAMI_ICM42605) "icm42605" inv_icm42600_default_conf
  | INV_CHIP_ICM42622 =>
      mk_hw (to_u8 INV_ICM42600_WHOAMI_ICM42622) "icm42622" inv_icm42600_default_conf
  | INV_CHIP_ICM42631 =>
      mk_hw (to_u8 INV_ICM42600_WHOAMI_ICM42631) "icm42631" inv_icm42600_default_conf
  | INV_CHIP_ICM42670 =>
      mk_hw (to_u8 INV_ICM42600_WHOAMI_ICM42670) "icm42670" inv_icm42670_default_conf
  end.

(** The [bus_setup] callback is commented out in the source and is not
    called. *)
Definition inv_icm42600_setup : M Z :=
  s <- get_st ;;
  let hw := inv_icm42600_hw (chip s) in
  (* check chip self-identification value *)
  '(r, val) <- regmap_read INV_ICM42600_REG_WHOAMI ;;
  if failed r then ret r
  else if negb (val =? whoami hw) then dev_err ;;; ret (- ENODEV)
  else
    put_st (with_name s (hw_name hw)) ;;;
    (* reset to make sure previous state are not there *)
    r <- regmap_write INV_ICM42670_REG_SIGNAL_PATH_RESET
                      INV_ICM42670_SIGNAL_PATH_RESET_SOFT_RESET_DEVICE_CONFIG ;;
    if failed r then ret r
    else
      msleep INV_ICM42600_RESET_TIME_MS ;;;
      '(r, val) <- regmap_read INV_ICM42670_REG_INT_STATUS ;;
      if failed r then ret r
      else if Z.land val INV_ICM42600_INT_STATUS_RESET_DONE =? 0
      then dev_err ;;; ret (- ENODEV)
      else
        (* sensor data in little-endian *)
        r <- regmap_update_bits INV_ICM42670_REG_INTF_CONFIG0
                                INV_ICM42600_INTF_CONFIG0_SENSOR_DATA_ENDIAN 0 ;;
        if failed r then ret r
        else inv_icm42600_set_conf (hw_conf hw).
(** ** Interrupt and timestamp pipeline *)

Inductive irqreturn_t := IRQ_NONE | IRQ_HANDLED | IRQ_WAKE_THREAD.

(** The fast phase: both slots are stored from their own clock read. *)
Definition inv_icm42600_irq_timestamp : M irqreturn_t :=
  t <- iio_get_time_ns ;;
  s <- get_st ;;
  put_st (with_timestamp s (mk_timestamp t (timestamp_accel (timestamp s)))) ;;;
  t <- iio_get_time_ns ;;
  s <- get_st ;;
  put_st (with_timestamp s (mk_timestamp (timestamp_gyro (timestamp s)) t)) ;;;
  ret IRQ_WAKE_THREAD.

(** [((int16_t)lo) | (((int16_t)hi) << 8)] stored into an [int16_t]. *)
Definition sample16 (data : list Z) (i : nat) : Z :=
  to_s16 (Z.lor (nth i data 0) (Z.shiftl (nth (S i) data 0) 8)).

(** The deferred phase.  The local [timestamp] is a [uint64_t] initialised
    from the slot before the lock is taken; [scan.ts] is an [int64_t]. *)
Definition inv_icm42600_irq_handler : M irqreturn_t :=
  s <- get_st ;;
  let indio := indio_dev s in
  let timestamp := to_u64 (timestamp_accel (timestamp s)) in
  mutex_lock ;;;
  '(r, status) <- regmap_read INV_ICM42670_REG_INT_STATUS_DRDY ;;
  (if failed r then ret tt
   (* DATA ready interrupt *)
   else if negb (status =? 0)
   then
     '(r, data) <- regmap_bulk_read INV_ICM42670_REG_ACCEL_DATA_X 12 ;;
     if failed r then dev_err
     else
       let accel_data := [sample16 data 0; sample16 data 2; sample16 data 4] in
       let gyro_data := [sample16 data 6; sample16 data 8; sample16 data 10] in
       enabled <- (if indio then iio_buffer_enabled else ret false) ;;
       if enabled
       then emit (PushToBuffers (mk_scan (accel_data ++ gyro_data)
                                         (to_s64 timestamp)))
       else ret tt
   else ret tt) ;;;
  mutex_unlock ;;;
  ret IRQ_HANDLED.

(** ** Power lifecycle *)

Definition inv_icm42600_enable_regulator_vddio : M Z :=
  r <- regulator_enable Vddio ;;
  if failed r then ret r
  else
    (* wait a little for supply ramp *)
    usleep_range 3000 4000 ;;;
    ret 0.

(** Suspend saves sensors state and turns everything off.  Check first if
    runtime suspend has not already done the job. *)
Definition inv_icm42600_suspend : M Z :=
  mutex_lock ;;;
  s <- get_st ;;
  put_st (with_suspended s (mk_suspended (mode (gyro (conf s)))
                                         (mode (accel (conf s)))
                                         (temp_en (conf s)))) ;;;
  rs <- pm_runtime_suspended ;;
  r <- (if rs then ret 0
        else
          let power_off :=
            '(r, _) <- inv_icm42600_set_pwr_mgmt0 INV_ICM42600_SENSOR_MODE_OFF
                                                 INV_ICM42600_SENSOR_MODE_OFF
                                                 false None ;;
            if failed r then ret r
            else regulator_disable Vddio ;;; ret r in
          (* disable FIFO data streaming *)
          if fifo_on s
          then
            r <- regmap_write INV_ICM42600_REG_FIFO_CONFIG
                              INV_ICM42600_FIFO_CONFIG_BYPASS ;;
            if failed r then ret r else power_off
          else power_off) ;;
  mutex_unlock ;;;
  ret r.

(** System resume gets the system back on and restores the sensors state. *)
Definition inv_icm42600_resume : M Z :=
  mutex_lock ;;;
  r <- inv_icm42600_enable_regulator_vddio ;;
  r <- (if failed r then ret r
        else
          emit PmRuntimeDisable ;;;
          emit PmRuntimeSetActive ;;;
          emit PmRuntimeEnable ;;;
          (* restore sensors state *)
          s <- get_st ;;
          '(r, _) <- inv_icm42600_set_pwr_mgmt0 (suspended_gyro (suspended s))
                                               (suspended_accel (suspended s))
                                               (suspended_temp (suspended s))
                                               None ;;
          if failed r then ret r
          else
            (* restore FIFO data streaming *)
            s <- get_st ;;
            if fifo_on s
            then regmap_write INV_ICM42600_REG_FIFO_CONFIG
                              INV_ICM42600_FIFO_CONFIG_STREAM
            else ret r) ;;
  mutex_unlock ;;;
  ret r.

(** Runtime suspend will turn off sensors that are enabled by iio devices. *)
Definition inv_icm42600_runtime_suspend : M Z :=
  mutex_lock ;;;
  (* disable all sensors *)
  '(r, _) <- inv_icm42600_set_pwr_mgmt0 INV_ICM42600_SENSOR_MODE_OFF
                                       INV_ICM42600_SENSOR_MODE_OFF
                                       false None ;;
  (if failed r then ret tt else regulator_disable Vddio ;;; ret tt) ;;;
  mutex_unlock ;;;
  ret r.

(** Sensors are enabled by iio devices, no need to turn them back on here. *)
Definition inv_icm42600_runtime_resume : M Z :=
  mutex_lock ;;;
  r <- inv_icm42600_enable_regulator_vddio ;;
  mutex_unlock ;;;
  ret r.

End Driver.

(** ** The rest of the core file *)

(** [inv_icm42600_odr_to_period]: the table is indexed by the rate
    enumerator; periods are in nanoseconds.  The model answers 0 outside the
    sixteen initialisers; the properties below are about indices inside. *)
Definition odr_periods : list Z :=
  [ (* reserved values *) 0; 0; 0;
    (* 8kHz *) 125000;
    (* 4kHz *) 250000;
    (* 2kHz *) 500000;
    (* 1kHz *) 1000000;
    (* 200Hz *) 5000000;
    (* 100Hz *) 10000000;
    (* 50Hz *) 20000000;
    (* 25Hz *) 40000000;
    (* 12.5Hz *) 80000000;
    (* 6.25Hz *) 160000000;
    (* 3.125Hz *) 320000000;
    (* 1.5625Hz *) 640000000;
    (* 500Hz *) 2000000 ].

Definition inv_icm42600_odr_to_period (odr : Z) : Z :=
  nth (Z.to_nat odr) odr_periods 0.

Section DriverRest.

Context {H : Header} {P : Platform}.

(** [readval] is [None] for a NULL pointer and [Some old] for a pointer to a
    variable holding [old]; the second component of the result is the value
    of that variable on return.  A read that fails leaves it as the caller
    set it. *)
Definition inv_icm42600_debugfs_reg (reg writeval : Z) (readval : option Z)
    : M (Z * option Z) :=
  mutex_lock ;;;
  res <- match readval with
         | Some old =>
             '(r, v) <- regmap_read reg ;;
             ret (r, Some (if failed r then old else v))
         | None => r <- regmap_write reg writeval ;; ret (r, None)
         end ;;
  mutex_unlock ;;;
  ret res.

Definition inv_icm42600_disable_vdd_reg : M unit :=
  r <- regulator_disable Vdd ;;
  if failed r then dev_err else ret tt.

Definition inv_icm42600_disable_vddio_reg : M unit :=
  r <- regulator_disable Vddio ;;
  if failed r then dev_err else ret tt.

End DriverRest.

(** ** Attach: interrupt set-up and probe *)

(** What the rest of the file takes from inv_icm42600.h, and the kernel
    constants it uses. *)
Class ProbeHeader := {
  INV_ICM42670_REG_INT_CONFIG : Z;
  INV_ICM42600_REG_INT_CONFIG1 : Z;
  INV_ICM42600_REG_TMST_CONFIG : Z;
  INV_ICM42600_INT_CONFIG_INT1_ACTIVE_HIGH : Z;
  INV_ICM42600_INT_CONFIG_INT1_ACTIVE_LOW : Z;
  INV_ICM42600_INT_CONFIG_INT1_LATCHED : Z;
  INV_ICM42600_INT_CONFIG_INT1_PUSH_PULL : Z;
  INV_ICM42600_INT_CONFIG1_ASYNC_RESET : Z;
  INV_ICM42600_TMST_CONFIG_TMST_TO_REGS_EN : Z;
  INV_ICM42600_TMST_CONFIG_TMST_EN : Z;
  INV_ICM42600_TMST_CONFIG_MASK : Z;
  INV_ICM42600_POWER_UP_TIME_MS : N;
  INV_ICM42600_SUSPEND_DELAY_MS : N;
  (* enum inv_icm42600_chip, as the [int] probe receives *)
  INV_CHIP_INVALID : Z;
  INV_CHIP_NB : Z;
  chip_of_int : Z -> inv_icm42600_chip;
  (* linux/interrupt.h, errno *)
  IRQF_TRIGGER_RISING : Z;
  IRQF_TRIGGER_FALLING : Z;
  IRQF_TRIGGER_HIGH : Z;
  IRQF_TRIGGER_LOW : Z;
  EINVAL : Z;
  ENOMEM : Z
}.

(** The teardown actions probe registers with the device. *)
Inductive devm_action := DisableVddReg | DisableVddioReg | DisablePm.

(** A pointer handed back by the kernel. *)
Inductive kptr := PtrNull | PtrOk | PtrErr (code : Z).

Definition IS_ERR (p : kptr) : bool :=
  match p with PtrErr _ => true | _ => false end.
Definition PTR_ERR (p : kptr) : Z :=
  match p with PtrErr c => c | _ => 0 end.
Definition is_null (p : kptr) : bool :=
  match p with PtrNull => true | _ => false end.

(** The calls of probe and of the interrupt set-up, on top of those of the
    core paths. *)
Inductive probe_event :=
| Core (e : event)
| IrqGetIrqData (irq : Z)
| IrqdGetTriggerType
| DevicePropertyReadBool (prop : string)
| DevmKzalloc
| IioReadMountMatrix
| DevmRegulatorGet (id : string)
| DevmAddAction (a : devm_action)
| BufferInit
| ImuInit
| DevmRequestThreadedIrq (irq irq_type : Z)
| PmRuntimeGetNoresume
| PmRuntimeSetAutosuspendDelay (ms : N)
| PmRuntimeUseAutosuspend
| PmRuntimePut
| PmRuntimePutSync.

(** The kernel side of those calls, again as functions of the history. *)
Class Kernel := {
  k_ret : list probe_event -> probe_event -> Z;
  k_ptr : list probe_event -> probe_event -> kptr;
  k_trigger_type : list probe_event -> Z;
  k_property : list probe_event -> string -> bool;
  k_mount_matrix : list probe_event -> list string
}.

(** The device during attach: the driver state (meaningful once
    allocated), the mount matrix [st->orientation], the teardown actions
    registered so far, most recent first, and the log of all calls. *)
Record probe_world := mk_pw {
  drv : inv_icm42600_state;
  orientation : list string;
  devres : list devm_action;
  plog : list probe_event
}.

Definition PM (A : Type) : Type := probe_world -> A * probe_world.

Definition pret {A} (a : A) : PM A := fun pw => (a, pw).

Definition pbind {A B} (m : PM A) (k : A -> PM B) : PM B :=
  fun pw => let (a, pw') := m pw in k a pw'.

Notation "x <~ m ;; k" := (pbind m (fun x => k))
  (at level 61, m at next level, right associativity).
Notation "m ~;; k" := (pbind m (fun _ => k))
  (at level 61, right associativity).

(** The core calls among a log. *)
Definition core_trace (l : list probe_event) : list event :=
  flat_map (fun e => match e with Core c => [c] | _ => [] end) l.

(** A core path run during attach: it sees the driver state and the core
    calls made so far, and its own calls are appended to the log. *)
Definition lift {A} (m : M A) : PM A :=
  fun pw =>
    let w := mk_world (drv pw) (core_trace (plog pw)) in
    let (a, w') := m w in
    (a, mk_pw (st w') (orientation pw) (devres pw)
              (plog pw ++ List.map Core (skipn (List.length (trace w)) (trace w')))).

Definition plog_get : PM (list probe_event) := fun pw => (plog pw, pw).

Definition pemit (e : probe_event) : PM unit :=
  fun pw => (tt, mk_pw (drv pw) (orientation pw) (devres pw) (plog pw ++ [e])).

Definition set_drv (s : inv_icm42600_state) : PM unit :=
  fun pw => (tt, mk_pw s (orientation pw) (devres pw) (plog pw)).

Definition get_drv : PM inv_icm42600_state := fun pw => (drv pw, pw).

Definition set_orientation (m : list string) : PM unit :=
  fun pw => (tt, mk_pw (drv pw) m (devres pw) (plog pw)).

Definition register (a : devm_action) : PM unit :=
  fun pw => (tt, mk_pw (drv pw) (orientation pw) (a :: devres pw) (plog pw)).

(** What [devm_kzalloc] hands back, with [st->chip] set: every other field
    is zero. *)
Definition kzalloc_state (c : inv_icm42600_chip) : inv_icm42600_state :=
  mk_state c EmptyString
           (mk_conf (mk_sensor_conf 0 0 0 0) (mk_sensor_conf 0 0 0 0) false)
           (mk_suspended 0 0 false) false (mk_timestamp 0 0) false.

Definition with_indio_dev (s : inv_icm42600_state) (b : bool) :=
  mk_state (chip s) (name s) (conf s) (suspended s) (fifo_on s) (timestamp s) b.

Section Attach.

Context {H : Header} {H2 : ProbeHeader} {P : Platform} {K : Kernel}.

Definition kcall (e : probe_event) : PM Z :=
  h <~ plog_get ;; pemit e ~;; pret (k_ret h e).

Definition kcall_ptr (e : probe_event) : PM kptr :=
  h <~ plog_get ;; pemit e ~;; pret (k_ptr h e).

Definition inv_icm42600_timestamp_setup : M Z :=
  (* enable timestamp register *)
  let val := to_uint (Z.lor INV_ICM42600_TMST_CONFIG_TMST_TO_REGS_EN
                            INV_ICM42600_TMST_CONFIG_TMST_EN) in
  regmap_update_bits INV_ICM42600_REG_TMST_CONFIG
                     INV_ICM42600_TMST_CONFIG_MASK val.

Definition inv_icm42600_disable_pm : PM unit :=
  pemit PmRuntimePutSync ~;;
  lift (emit PmRuntimeDisable).

Definition run_action (a : devm_action) : PM unit :=
  match a with
  | DisableVddReg => lift inv_icm42600_disable_vdd_reg
  | DisableVddioReg => lift inv_icm42600_disable_vddio_reg
  | DisablePm => inv_icm42600_disable_pm
  end.

(** Modelled from the spec: [devm_add_action_or_reset], the
    guaranteed-cleanup registration of 4.5: the action is registered with
    the device, and when the registration itself fails the action is run at
    once and the error returned. *)
Definition devm_add_action_or_reset (a : devm_action) : PM Z :=
  r <~ kcall (DevmAddAction a) ;;
  if failed r then run_action a ~;; pret r
  else register a ~;; pret r.

Definition inv_icm42600_irq_init (irq irq_type : Z) (open_drain : bool) : PM Z :=
  (* configure INT1 interrupt: default is active low on edge *)
  let val :=
    if (irq_type =? IRQF_TRIGGER_RISING) || (irq_type =? IRQF_TRIGGER_HIGH)
    then to_uint INV_ICM42600_INT_CONFIG_INT1_ACTIVE_HIGH
    else to_uint INV_ICM42600_INT_CONFIG_INT1_ACTIVE_LOW in
  let val :=
    if (irq_type =? IRQF_TRIGGER_LOW) || (irq_type =? IRQF_TRIGGER_HIGH)
    then to_uint (Z.lor val INV_ICM42600_INT_CONFIG_INT1_LATCHED)
    else val in
  let val :=
    if negb open_drain
    then to_uint (Z.lor val INV_ICM42600_INT_CONFIG_INT1_PUSH_PULL)
    else val in
  r <~ lift (regmap_write INV_ICM42670_REG_INT_CONFIG val) ;;
  if failed r then pret r
  else
    (* Deassert async reset for proper INT pin operation (cf datasheet) *)
    r <~ lift (regmap_update_bits INV_ICM42600_REG_INT_CONFIG1
                                  INV_ICM42600_INT_CONFIG1_ASYNC_RESET 0) ;;
    if failed r then pret r
    else kcall (DevmRequestThreadedIrq irq irq_type).

(** [inv_icm42600_get_mount_matrix] *)
Definition inv_icm42600_get_mount_matrix (pw : probe_world) : list string :=
  orientation pw.

(** [bus_setup] is passed on to [inv_icm42600_setup], which does not call
    it.  [inv_icm42600_buffer_init] and [inv_icm42600_imu_init] live in
    other files and are calls to the environment here.  The matrix
    [iio_read_mount_matrix] fills in is stored when the call succeeds; on
    failure probe returns and the state is not looked at again.  The handles
    of the state ([map], [lock], the two supplies) carry no data of their
    own and are not fields of the model. *)
Definition inv_icm42600_core_probe (chip irq : Z) : PM Z :=
  if (chip <=? INV_CHIP_INVALID) || (chip >=? INV_CHIP_NB)
  then lift dev_err ~;; pret (- ENODEV)
  else
    (* get irq properties, set trigger falling by default *)
    irq_desc <~ kcall_ptr (IrqGetIrqData irq) ;;
    if is_null irq_desc then lift dev_err ~;; pret (- EINVAL)
    else
      h <~ plog_get ;;
      pemit IrqdGetTriggerType ~;;
      let irq_type := k_trigger_type h in
      let irq_type := if irq_type =? 0 then IRQF_TRIGGER_FALLING else irq_type in
      h <~ plog_get ;;
      pemit (DevicePropertyReadBool "drive-open-drain") ~;;
      let open_drain := k_property h "drive-open-drain" in
      p <~ kcall_ptr DevmKzalloc ;;
      if is_null p then pret (- ENOMEM)
      else
        set_drv (kzalloc_state (chip_of_int chip)) ~;;
        h <~ plog_get ;;
        r <~ kcall IioReadMountMatrix ;;
        (if failed r then pret tt else set_orientation (k_mount_matrix h)) ~;;
        if failed r then lift dev_err ~;; pret r
        else
          p <~ kcall_ptr (DevmRegulatorGet "vdd") ;;
          if IS_ERR p then pret (PTR_ERR p)
          else
            p <~ kcall_ptr (DevmRegulatorGet "vddio") ;;
            if IS_ERR p then pret (PTR_ERR p)
            else
              r <~ lift (regulator_enable Vdd) ;;
              if failed r then pret r
              else
                lift (msleep INV_ICM42600_POWER_UP_TIME_MS) ~;;
                r <~ devm_add_action_or_reset DisableVddReg ;;
                if failed r then pret r
                else
                  r <~ lift inv_icm42600_enable_regulator_vddio ;;
                  if failed r then pret r
                  else
                    r <~ devm_add_action_or_reset DisableVddioReg ;;
                    if failed r then pret r
                    else
                      (* setup chip registers *)
                      r <~ lift inv_icm42600_setup ;;
                      if failed r then pret r
                      else
                        r <~ lift inv_icm42600_timestamp_setup ;;
                        if failed r then pret r
                        else
                          r <~ kcall BufferInit ;;
                          if failed r then pret r
                          else
                            (* Initialize the unified IMU device *)
                            p <~ kcall_ptr ImuInit ;;
                            s <~ get_drv ;;
                            set_drv (with_indio_dev s (negb (is_null p))) ~;;
                            if IS_ERR p then pret (PTR_ERR p)
                            else
                              r <~ inv_icm42600_irq_init irq irq_type open_drain ;;
                              if failed r then pret r
                              else
                                (* setup runtime power management *)
                                r <~ lift (call PmRuntimeSetActive) ;;
                                if failed r then pret r
                                else
                                  pemit PmRuntimeGetNoresume ~;;
                                  lift (emit PmRuntimeEnable) ~;;
                                  pemit (PmRuntimeSetAutosuspendDelay
                                           INV_ICM42600_SUSPEND_DELAY_MS) ~;;
                                  pemit PmRuntimeUseAutosuspend ~;;
                                  pemit PmRuntimePut ~;;
                                  devm_add_action_or_reset DisablePm.

End Attach.

(** ** Traces *)

(** What happened between two worlds of one run. *)
Definition events_since (w w' : world) : list event :=
  skipn (List.length (trace w)) (trace w').

Section Vocabulary.

Context {H : Header}.

(** The value the power-mode register is written with. *)
Definition pwr_mgmt0_val (gyro_mode accel_mode : Z) : Z :=
  to_uint (Z.lor (INV_ICM42600_PWR_MGMT0_GYRO gyro_mode)
                 (INV_ICM42600_PWR_MGMT0_ACCEL accel_mode)).

(** The request differs from the stored mode triple. *)
Definition pwr_changed (s : inv_icm42600_state) (gyro_mode accel_mode : Z)
    (temp : bool) : bool :=
  negb ((gyro_mode =? mode (gyro (conf s))) &&
        (accel_mode =? mode (accel (conf s))) &&
        Bool.eqb temp (temp_en (conf s))).

(** *** The settle delay, in the words of the specification *)

Definition leaves_off (old new : Z) : bool :=
  (old =? INV_ICM42600_SENSOR_MODE_OFF) && negb (new =? INV_ICM42600_SENSOR_MODE_OFF).

Definition enters_off (old new : Z) : bool :=
  negb (old =? INV_ICM42600_SENSOR_MODE_OFF) && (new =? INV_ICM42600_SENSOR_MODE_OFF).

Definition newly_enabled (old new : bool) : bool := new && negb old.

(** The floors that apply to a transition from the stored triple of [s] to
    the requested one. *)
Definition applicable_floors (s : inv_icm42600_state) (gyro_mode accel_mode : Z)
    (temp : bool) : list N :=
  (if newly_enabled (temp_en (conf s)) temp
   then [INV_ICM42600_TEMP_STARTUP_TIME_MS] else []) ++
  (if leaves_off (mode (accel (conf s))) accel_mode
   then [INV_ICM42600_ACCEL_STARTUP_TIME_MS] else []) ++
  (if leaves_off (mode (gyro (conf s))) gyro_mode
   then [INV_ICM42600_GYRO_STARTUP_TIME_MS] else []) ++
  (if enters_off (mode (gyro (conf s))) gyro_mode
   then [INV_ICM42600_GYRO_STOP_TIME_MS] else []).

Definition max_floor (l : list N) : N := fold_right N.max 0%N l.

Definition settle_delay (s : inv_icm42600_state) (gyro_mode accel_mode : Z)
    (temp : bool) : N :=
  max_floor (applicable_floors s gyro_mode accel_mode temp).

(** The bus-quiet windows of a transition: one per sensor leaving Off. *)
Definition quiet_windows (s : inv_icm42600_state) (gyro_mode accel_mode : Z)
    : list event :=
  (if leaves_off (mode (accel (conf s))) accel_mode
   then [USleepRange 200 300] else []) ++
  (if leaves_off (mode (gyro (conf s))) gyro_mode
   then [USleepRange 200 300] else []).

(** The wait the function performs itself when no out-parameter is given. *)
Definition inline_wait (sleep_ms : option N) (d : N) : list event :=
  match sleep_ms with
  | Some _ => []
  | None => if (d =? 0)%N then [] else [MSleep d]
  end.

Definition pwr_applied (s : inv_icm42600_state) (gyro_mode accel_mode : Z)
    (temp : bool) : inv_icm42600_state :=
  with_conf s (mk_conf (with_mode (gyro (conf s)) gyro_mode)
                       (with_mode (accel (conf s)) accel_mode) temp).

(** The three register writes of the batched configuration load. *)
Definition set_conf_writes (c : inv_icm42600_conf) : list event :=
  [RegWrite INV_ICM42670_REG_PWR_MGMT0
            (pwr_mgmt0_val (mode (gyro c)) (mode (accel c)));
   RegWrite INV_ICM42670_REG_GYRO_CONFIG0
            (to_uint (Z.lor (INV_ICM42670_GYRO_CONFIG0_FS (fs (gyro c)))
                            (INV_ICM42670_GYRO_CONFIG0_ODR (odr (gyro c)))));
   RegWrite INV_ICM42670_REG_ACCEL_CONFIG0
            (to_uint (Z.lor (INV_ICM42670_ACCEL_CONFIG0_FS (fs (accel c)))
                            (INV_ICM42670_ACCEL_CONFIG0_ODR (odr (accel c)))))].

(** *** Partial requests, in the words of the specification *)

(** Every unspecified (negative) field of the request [c] is resolved to the
    stored value. *)
Definition resolved (c old : inv_icm42600_sensor_conf) : inv_icm42600_sensor_conf :=
  mk_sensor_conf (if mode c <? 0 then mode old else mode c)
                 (if fs c <? 0 then fs old else fs c)
                 (if odr c <? 0 then odr old else odr c)
                 (if filter c <? 0 then filter old else filter c).

(** No field carries the sentinel. *)
Definition no_sentinel (c : inv_icm42600_sensor_conf) : Prop :=
  0 <= mode c /\ 0 <= fs c /\ 0 <= odr c /\ 0 <= filter c.

(** The invariant of the stored configuration: no field is "unset". *)
Definition conf_valid (s : inv_icm42600_state) : Prop :=
  no_sentinel (gyro (conf s)) /\ no_sentinel (accel (conf s)).

(** The three results of a configuration call: return code, the caller's
    request struct after the call, the caller's delay cell after the call. *)
Definition ret_code {A B} (r : Z * A * B) : Z := fst (fst r).
Definition out_conf {A B} (r : Z * A * B) : A := snd (fst r).
Definition out_sleep {A B} (r : Z * A * B) : B := snd r.

End Vocabulary.

(** ** Concrete instances, to run the model *)

(** One instantiation of the header: ICM-42670 style register numbers, a
    two-bit mode field per sensor, delays of 14, 20, 60 and 150 ms. *)
Definition sample_header : Header := {|
  INV_ICM42600_REG_WHOAMI := 0x75;
  INV_ICM42600_REG_ACCEL_CONFIG0 := 0x50;
  INV_ICM42600_REG_GYRO_CONFIG0 := 0x4F;
  INV_ICM42600_REG_GYRO_ACCEL_CONFIG0 := 0x52;
  INV_ICM42600_REG_FIFO_CONFIG := 0x16;
  INV_ICM42670_REG_PWR_MGMT0 := 0x1F;
  INV_ICM42670_REG_GYRO_CONFIG0 := 0x20;
  INV_ICM42670_REG_ACCEL_CONFIG0 := 0x21;
  INV_ICM42670_REG_SIGNAL_PATH_RESET := 0x02;
  INV_ICM42670_REG_INT_STATUS := 0x3A;
  INV_ICM42670_REG_INT_STATUS_DRDY := 0x39;
  INV_ICM42670_REG_INTF_CONFIG0 := 0x35;
  INV_ICM42670_REG_ACCEL_DATA_X := 0x0B;
  INV_ICM42670_SIGNAL_PATH_RESET_SOFT_RESET_DEVICE_CONFIG := 0x10;
  INV_ICM42600_INT_STATUS_RESET_DONE := 0x10;
  INV_ICM42600_INTF_CONFIG0_SENSOR_DATA_ENDIAN := 0x10;
  INV_ICM42600_FIFO_CONFIG_BYPASS := 0x00;
  INV_ICM42600_FIFO_CONFIG_STREAM := 0x40;
  INV_ICM42600_PWR_MGMT0_GYRO := fun m => Z.shiftl (Z.land m 3) 2;
  INV_ICM42600_PWR_MGMT0_ACCEL := fun m => Z.land m 3;
  INV_ICM42600_ACCEL_CONFIG0_FS := fun x => Z.shiftl (Z.land x 7) 5;
  INV_ICM42600_ACCEL_CONFIG0_ODR := fun x => Z.land x 15;
  INV_ICM42600_GYRO_CONFIG0_FS := fun x => Z.shiftl (Z.land x 7) 5;
  INV_ICM42600_GYRO_CONFIG0_ODR := fun x => Z.land x 15;
  INV_ICM42600_GYRO_ACCEL_CONFIG0_ACCEL_FILT := fun x => Z.shiftl (Z.land x 15) 4;
  INV_ICM42600_GYRO_ACCEL_CONFIG0_GYRO_FILT := fun x => Z.land x 15;
  INV_ICM42670_GYRO_CONFIG0_FS := fun x => Z.shiftl (Z.land x 3) 5;
  INV_ICM42670_GYRO_CONFIG0_ODR := fun x => Z.land x 15;
  INV_ICM42670_ACCEL_CONFIG0_FS := fun x => Z.shiftl (Z.land x 3) 5;
  INV_ICM42670_ACCEL_CONFIG0_ODR := fun x => Z.land x 15;
  INV_ICM42600_TEMP_STARTUP_TIME_MS := 14;
  INV_ICM42600_ACCEL_STARTUP_TIME_MS := 20;
  INV_ICM42600_GYRO_STARTUP_TIME_MS := 60;
  INV_ICM42600_GYRO_STOP_TIME_MS := 150;
  INV_ICM42600_RESET_TIME_MS := 1;
  INV_ICM42600_SENSOR_MODE_OFF := 0;
  INV_ICM42600_SENSOR_MODE_LOW_NOISE := 3;
  INV_ICM42600_GYRO_FS_2000DPS := 0;
  INV_ICM42600_ACCEL_FS_16G := 0;
  INV_ICM42600_ODR_50HZ := 9;
  INV_ICM42670_ODR_200HZ := 8;
  INV_ICM42600_FILTER_BW_ODR_DIV_2 := 0;
  INV_ICM42600_WHOAMI_ICM42600 := 0x40;
  INV_ICM42600_WHOAMI_ICM42602 := 0x41;
  INV_ICM42600_WHOAMI_ICM42605 := 0x42;
  INV_ICM42600_WHOAMI_ICM42622 := 0x46;
  INV_ICM42600_WHOAMI_ICM42631 := 0x5C;
  INV_ICM42600_WHOAMI_ICM42670 := 0x67;
  ENODEV := 19
|}.

(** A platform whose answers do not depend on the history, except for the
    clock, which advances by one microsecond per call that left the driver. *)
Definition scripted (rets : event -> Z) (vals : Z -> Z) (bulk : list Z)
    (buffer_on rpm_suspended : bool) : Platform := {|
  hw_ret := fun _ e => rets e;
  hw_val := fun _ r => vals r;
  hw_bulk := fun _ _ _ => bulk;
  hw_time_ns := fun h => 5000000 + 1000 * Z.of_nat (List.length h);
  hw_buffer_enabled := fun _ => buffer_on;
  hw_rpm_suspended := fun _ => rpm_suspended
|}.

(** Every call succeeds; registers read as [vals]. *)
Definition healthy (vals : Z -> Z) (bulk : list Z) (buffer_on rpm_suspended : bool)
    : Platform :=
  scripted (fun _ => 0) vals bulk buffer_on rpm_suspended.

(** Writes to the register [bad] fail with [-EIO] (-5); all else succeeds. *)
Definition write_fails_at (bad : Z) : Platform :=
  scripted (fun e => match e with
                     | RegWrite r _ => if r =? bad then -5 else 0
                     | _ => 0
                     end)
           (fun _ => 0) [] false false.

(** An ICM-42670 with the given modes, temperature and FIFO flags, and the
    scale, rate and filter that bring-up loads under [sample_header]:
    2000 dps / 16 g (0), 200 Hz (8), filter 0. *)
Definition sample_state (gyro_mode accel_mode : Z) (temp fifo : bool)
    : inv_icm42600_state :=
  mk_state INV_CHIP_ICM42670 "icm42670"
           (mk_conf (mk_sensor_conf gyro_mode 0 8 0)
                    (mk_sensor_conf accel_mode 0 8 0) temp)
           (mk_suspended 0 0 false) fifo (mk_timestamp 0 0) true.

Definition sample_world (gyro_mode accel_mode : Z) (temp fifo : bool) : world :=
  mk_world (sample_state gyro_mode accel_mode temp fifo) [].

(** A platform on which every call succeeds and every register reads 0. *)
Definition quiet : Platform := healthy (fun _ => 0) [] false false.

(** ** Vocabulary for the remaining properties *)

(** The two bytes of a 16-bit sample as the chip sends them: two's
    complement, low byte first. *)
Definition le16 (v : Z) : list Z := [v mod 256; (v / 256) mod 256].


Section MoreVocabulary.

Context {H : Header}.

(** The register writes an accel request [c] (already resolved) needs on top
    of the stored state [s], in the order the driver issues them. *)
Definition accel_delta_writes (s : inv_icm42600_state)
    (c : inv_icm42600_sensor_conf) : list event :=
  (if (fs c =? fs (accel (conf s))) && (odr c =? odr (accel (conf s))) then []
   else [RegWrite INV_ICM42600_REG_ACCEL_CONFIG0
           (to_uint (Z.lor (INV_ICM42600_ACCEL_CONFIG0_FS (fs c))
                           (INV_ICM42600_ACCEL_CONFIG0_ODR (odr c))))]) ++
  (if filter c =? filter (accel (conf s)) then []
   else [RegWrite INV_ICM42600_REG_GYRO_ACCEL_CONFIG0
           (to_uint (Z.lor (INV_ICM42600_GYRO_ACCEL_CONFIG0_ACCEL_FILT (filter c))
                           (INV_ICM42600_GYRO_ACCEL_CONFIG0_GYRO_FILT
                              (filter (gyro (conf s))))))]) ++
  (if mode c =? mode (accel (conf s)) then []
   else [RegWrite INV_ICM42670_REG_PWR_MGMT0
           (pwr_mgmt0_val (mode (gyro (conf s))) (mode c))]).

Definition gyro_delta_writes (s : inv_icm42600_state)
    (c : inv_icm42600_sensor_conf) : list event :=
  (if (fs c =? fs (gyro (conf s))) && (odr c =? odr (gyro (conf s))) then []
   else [RegWrite INV_ICM42600_REG_GYRO_CONFIG0
           (to_uint (Z.lor (INV_ICM42600_GYRO_CONFIG0_FS (fs c))
                           (INV_ICM42600_GYRO_CONFIG0_ODR (odr c))))]) ++
  (if filter c =? filter (gyro (conf s)) then []
   else [RegWrite INV_ICM42600_REG_GYRO_ACCEL_CONFIG0
           (to_uint (Z.lor (INV_ICM42600_GYRO_ACCEL_CONFIG0_ACCEL_FILT
                              (filter (accel (conf s))))
                           (INV_ICM42600_GYRO_ACCEL_CONFIG0_GYRO_FILT (filter c))))]) ++
  (if mode c =? mode (gyro (conf s)) then []
   else [RegWrite INV_ICM42670_REG_PWR_MGMT0
           (pwr_mgmt0_val (mode c) (mode (accel (conf s))))]).

Definition is_lock_event (e : event) : bool :=
  match e with
  | MutexLock | MutexUnlock => true
  | _ => false
  end.

Definition is_regulator_event (e : event) : bool :=
  match e with
  | RegulatorEnable _ | RegulatorDisable _ => true
  | _ => false
  end.

Definition is_bus_access (e : event) : bool :=
  match e with
  | RegWrite _ _ | RegRead _ | RegBulkRead _ _ | RegUpdateBits _ _ _ => true
  | _ => false
  end.

(** The calls [inv_icm42600_set_pwr_mgmt0] can make. *)
Definition is_pwr_event (e : event) : bool :=
  match e with
  | RegWrite _ _ | USleepRange _ _ | MSleep _ => true
  | _ => false
  end.

(** A run that takes the device lock first, releases it last and does not
    touch it in between. *)
Definition holds_lock_throughout (ev : list event) : Prop :=
  exists mid,
    ev = MutexLock :: mid ++ [MutexUnlock] /\
    forallb (fun e => negb (is_lock_event e)) mid = true.

Definition is_push (e : event) : bool :=
  match e with
  | PushToBuffers _ => true
  | _ => false
  end.

End MoreVocabulary.

Section IrqVocabulary.

Context {H : Header} {P : Platform}.

(** The history seen by the status read, the burst read and the buffer
    query of a deferred phase started in [w]. *)
Definition drdy_history (w : world) : list event := trace w ++ [MutexLock].
Definition burst_history (w : world) : list event :=
  drdy_history w ++ [RegRead INV_ICM42670_REG_INT_STATUS_DRDY].
Definition push_history (w : world) : list event :=
  burst_history w ++ [RegBulkRead INV_ICM42670_REG_ACCEL_DATA_X 12].

(** A record is due: the status read succeeded with a non-zero value, the
    burst read succeeded, the IIO device exists and its buffer is enabled. *)
Definition record_due (w : world) : bool :=
  (hw_ret (drdy_history w) (RegRead INV_ICM42670_REG_INT_STATUS_DRDY) =? 0) &&
  negb (to_uint (hw_val (drdy_history w) INV_ICM42670_REG_INT_STATUS_DRDY) =? 0) &&
  (hw_ret (burst_history w) (RegBulkRead INV_ICM42670_REG_ACCEL_DATA_X 12) =? 0) &&
  indio_dev (st w) && hw_buffer_enabled (push_history w).

(** The record of a deferred phase started in [w]. *)
Definition drdy_record (w : world) : scan :=
  let data := List.map to_u8 (hw_bulk (burst_history w)
                                      INV_ICM42670_REG_ACCEL_DATA_X 12) in
  mk_scan (List.map (sample16 data) [0; 2; 4; 6; 8; 10]%nat)
          (to_s64 (to_u64 (timestamp_accel (timestamp (st w))))).

End IrqVocabulary.

Section OutcomeVocabulary.

Context {H : Header} {P : Platform}.

(** What a failing configuration call looks like from outside. *)
Definition stopped_at_failed_write (w : world) (sleep_ms : option N)
    (res : Z * inv_icm42600_sensor_conf * option N * world) : Prop :=
  ret_code (fst res) <> 0 /\
  out_sleep (fst res) = sleep_ms /\
  exists pre reg val,
    events_since w (snd res) = pre ++ [RegWrite reg val] /\
    ret_code (fst res) = hw_ret (trace w ++ pre) (RegWrite reg val).

(** The calls of a bring-up that reaches the configuration load. *)
Definition setup_prologue : list event :=
  [RegRead INV_ICM42600_REG_WHOAMI;
   RegWrite INV_ICM42670_REG_SIGNAL_PATH_RESET
            INV_ICM42670_SIGNAL_PATH_RESET_SOFT_RESET_DEVICE_CONFIG;
   MSleep INV_ICM42600_RESET_TIME_MS;
   RegRead INV_ICM42670_REG_INT_STATUS;
   RegUpdateBits INV_ICM42670_REG_INTF_CONFIG0
                 INV_ICM42600_INTF_CONFIG0_SENSOR_DATA_ENDIAN 0].

End OutcomeVocabulary.

(** ** Vocabulary of the attach path *)

Definition supply_eqb (a b : supply) : bool :=
  match a, b with
  | Vdd, Vdd | Vddio, Vddio => true
  | _, _ => false
  end.

(** The teardown action of a rail. *)
Definition disable_action (r : supply) : devm_action :=
  match r with Vdd => DisableVddReg | Vddio => DisableVddioReg end.

(** The order in which the device runs the actions of a complete probe:
    most recently registered first. *)
Definition teardown_order : list devm_action :=
  [DisablePm; DisableVddioReg; DisableVddReg].

(** Calls that leave the rails alone. *)
Definition quiet_rails (ev : list event) : bool :=
  forallb (fun e => negb (is_regulator_event e)) ev.

(** No register of the chip is accessed by the calls [ev]. *)
Definition no_bus_access (ev : list probe_event) : bool :=
  forallb (fun e => match e with
                    | Core c => negb (is_bus_access c)
                    | _ => true
                    end) ev.

(** The interrupt requests among the calls [ev]: line and trigger type. *)
Definition irq_requests (ev : list probe_event) : list (Z * Z) :=
  flat_map (fun e => match e with
                     | DevmRequestThreadedIrq i t => [(i, t)]
                     | _ => []
                     end) ev.

Section AttachVocabulary.

Context {H : Header} {H2 : ProbeHeader} {P : Platform} {K : Kernel}.

(** Whether rail [r] is held after the core calls [l], made after the calls
    [pre]: an enable call on it returned 0 and no disable call followed. *)
Fixpoint rail_held (r : supply) (pre l : list event) (held : bool) : bool :=
  match l with
  | [] => held
  | e :: l' =>
      rail_held r (pre ++ [e]) l'
        (match e with
         | RegulatorEnable x =>
             if supply_eqb x r && (hw_ret pre e =? 0) then true else held
         | RegulatorDisable x => if supply_eqb x r then false else held
         | _ => held
         end)
  end.

(** The calls of probe up to the point where both rails are enabled, have
    ramped and have their teardown registered. *)
Definition power_up_calls (irq : Z) : list probe_event :=
  [IrqGetIrqData irq; IrqdGetTriggerType;
   DevicePropertyReadBool "drive-open-drain"; DevmKzalloc; IioReadMountMatrix;
   DevmRegulatorGet "vdd"; DevmRegulatorGet "vddio";
   Core (RegulatorEnable Vdd); Core (MSleep INV_ICM42600_POWER_UP_TIME_MS);
   DevmAddAction DisableVddReg;
   Core (RegulatorEnable Vddio); Core (USleepRange 3000 4000);
   DevmAddAction DisableVddioReg].

(** The trigger type probe hands to the interrupt set-up: the one of the
    interrupt line, falling edge when it has none. *)
Definition probe_irq_type (pw : probe_world) (irq : Z) : Z :=
  let t := k_trigger_type (plog pw ++ [IrqGetIrqData irq]) in
  if t =? 0 then IRQF_TRIGGER_FALLING else t.

End AttachVocabulary.

(** A platform on which the supplies cannot be enabled (-5); all else
    succeeds. *)
Definition rail_fails : Platform :=
  scripted (fun e => match e with
                     | RegulatorEnable _ => -5
                     | _ => 0
                     end)
           (fun _ => 0) [] false false.

(** An ICM-42670 that answers 0x67 to the identity read; every other
    register reads [status]. *)
Definition icm42670_chip (status : Z) : Platform :=
  healthy (fun r => if r =? 0x75 then 0x67 else status) [] false false.

(** One instantiation of the rest of the header: chip numbers 1 to 6 in
    the order of the enumeration, the trigger flags of linux/interrupt.h. *)
Definition sample_probe_header : ProbeHeader := {|
  INV_ICM42670_REG_INT_CONFIG := 0x06;
  INV_ICM42600_REG_INT_CONFIG1 := 0x64;
  INV_ICM42600_REG_TMST_CONFIG := 0x54;
  INV_ICM42600_INT_CONFIG_INT1_ACTIVE_HIGH := 0x01;
  INV_ICM42600_INT_CONFIG_INT1_ACTIVE_LOW := 0x00;
  INV_ICM42600_INT_CONFIG_INT1_LATCHED := 0x04;
  INV_ICM42600_INT_CONFIG_INT1_PUSH_PULL := 0x02;
  INV_ICM42600_INT_CONFIG1_ASYNC_RESET := 0x10;
  INV_ICM42600_TMST_CONFIG_TMST_TO_REGS_EN := 0x10;
  INV_ICM42600_TMST_CONFIG_TMST_EN := 0x01;
  INV_ICM42600_TMST_CONFIG_MASK := 0x1F;
  INV_ICM42600_POWER_UP_TIME_MS := 100;
  INV_ICM42600_SUSPEND_DELAY_MS := 2000;
  INV_CHIP_INVALID := 0;
  INV_CHIP_NB := 7;
  chip_of_int := fun c =>
    if c =? 1 then INV_CHIP_ICM42600
    else if c =? 2 then INV_CHIP_ICM42602
    else if c =? 3 then INV_CHIP_ICM42605
    else if c =? 4 then INV_CHIP_ICM42622
    else if c =? 5 then INV_CHIP_ICM42631
    else INV_CHIP_ICM42670;
  IRQF_TRIGGER_RISING := 1;
  IRQF_TRIGGER_FALLING := 2;
  IRQF_TRIGGER_HIGH := 4;
  IRQF_TRIGGER_LOW := 8;
  EINVAL := 22;
  ENOMEM := 12
|}.

(** A kernel on which every call succeeds; the interrupt line has no
    trigger type and is push-pull, the mount matrix is the identity. *)
Definition friendly : Kernel := {|
  k_ret := fun _ _ => 0;
  k_ptr := fun _ _ => PtrOk;
  k_trigger_type := fun _ => 0;
  k_property := fun _ _ => false;
  k_mount_matrix := fun _ => ["1"; "0"; "0"; "0"; "1"; "0"; "0"; "0"; "1"]%string
|}.

(** The same, except that one call fails with -12. *)
Definition kernel_fails_at (bad : probe_event -> bool) : Kernel := {|
  k_ret := fun _ e => if bad e then -12 else 0;
  k_ptr := fun _ _ => PtrOk;
  k_trigger_type := fun _ => 0;
  k_property := fun _ _ => false;
  k_mount_matrix := fun _ => ["1"; "0"; "0"; "0"; "1"; "0"; "0"; "0"; "1"]%string
|}.

(** A device before probe: nothing allocated, nothing registered, nothing
    called. *)
Definition fresh_device : probe_world :=
  mk_pw (kzalloc_state INV_CHIP_ICM42600) [] [] [].

Ltac run :=
  cbv beta iota zeta delta
    [bind ret get_st put_st history emit call regmap_write regmap_read
     regmap_bulk_read regmap_update_bits usleep_range msleep dev_err
     mutex_lock mutex_unlock iio_get_time_ns iio_buffer_enabled
     pm_runtime_suspended regulator_enable regulator_disable];
  cbn [st trace fst snd].

(** * Properties *)

Lemma skipn_length_app {A} (l x : list A) : skipn (List.length l) (l ++ x) = x.
Proof. induction l as [|a l IH]; simpl; auto. Qed.

Lemma events_since_refl w : events_since w w = [].
Proof.
  unfold events_since. rewrite <- (app_nil_r (trace w)) at 2.
  apply skipn_length_app.
Qed.

Lemma events_since_app s tr s' l :
  events_since (mk_world s tr) (mk_world s' (tr ++ l)) = l.
Proof. unfold events_since; simpl. apply skipn_length_app. Qed.

Lemma raise_to_max (s T : N) : raise_to s T = N.max s T.
Proof. unfold raise_to. destruct (N.ltb_spec s T); lia. Qed.

Lemma failed_true r : failed r = true <-> r <> 0.
Proof. unfold failed. destruct (Z.eqb_spec r 0); simpl; split; congruence. Qed.

Lemma failed_false r : failed r = false <-> r = 0.
Proof. unfold failed. destruct (Z.eqb_spec r 0); simpl; split; congruence. Qed.

Lemma to_s64_range x : - 2 ^ 63 <= to_s64 x < 2 ^ 63.
Proof. unfold to_s64. pose proof (Z.mod_pos_bound (x + 2 ^ 63) (2 ^ 64)). lia. Qed.

Lemma to_s64_to_u64 x : to_s64 (to_u64 x) = to_s64 x.
Proof. unfold to_s64, to_u64. now rewrite Zplus_mod_idemp_l. Qed.

Lemma to_s64_small x : - 2 ^ 63 <= x < 2 ^ 63 -> to_s64 x = x.
Proof. intros R. unfold to_s64. rewrite Z.mod_small; lia. Qed.

Lemma to_s64_latched x : to_s64 (to_u64 (to_s64 x)) = to_s64 x.
Proof. rewrite to_s64_to_u64. apply to_s64_small, to_s64_range. Qed.

Section Properties.

Context {H : Header} {P : Platform}.

(** ** Sensor mode controller *)

Lemma set_pwr_mgmt0_same w gyro_mode accel_mode temp sleep_ms :
  pwr_changed (st w) gyro_mode accel_mode temp = false ->
  inv_icm42600_set_pwr_mgmt0 gyro_mode accel_mode temp sleep_ms w
  = ((0, sleep_ms), w).
Proof.
  unfold pwr_changed, inv_icm42600_set_pwr_mgmt0. run. intros E.
  apply negb_false_iff in E. rewrite E. reflexivity.
Qed.

Lemma set_pwr_mgmt0_write_failed w gyro_mode accel_mode temp sleep_ms :
  pwr_changed (st w) gyro_mode accel_mode temp = true ->
  hw_ret (trace w) (RegWrite INV_ICM42670_REG_PWR_MGMT0
                             (pwr_mgmt0_val gyro_mode accel_mode)) <> 0 ->
  inv_icm42600_set_pwr_mgmt0 gyro_mode accel_mode temp sleep_ms w
  = ((hw_ret (trace w) (RegWrite INV_ICM42670_REG_PWR_MGMT0
                                 (pwr_mgmt0_val gyro_mode accel_mode)),
      sleep_ms),
     mk_world (st w)
              (trace w ++ [RegWrite INV_ICM42670_REG_PWR_MGMT0
                                    (pwr_mgmt0_val gyro_mode accel_mode)])).
Proof.
  unfold pwr_changed, pwr_mgmt0_val, inv_icm42600_set_pwr_mgmt0. run.
  intros E F. apply negb_true_iff in E. rewrite E.
  apply failed_true in F. rewrite F. reflexivity.
Qed.

Lemma accel_cond_leaves_off old new :
  negb (new =? old) && (old =? INV_ICM42600_SENSOR_MODE_OFF) = leaves_off old new.
Proof.
  unfold leaves_off.
  destruct (Z.eqb_spec old INV_ICM42600_SENSOR_MODE_OFF) as [->|]; simpl.
  - now rewrite andb_true_r.
  - now rewrite andb_false_r.
Qed.

Lemma gyro_cond_split {A} old new (a b c : A) :
  (if negb (new =? old)
   then if old =? INV_ICM42600_SENSOR_MODE_OFF then a
        else if new =? INV_ICM42600_SENSOR_MODE_OFF then b else c
   else c)
  = if leaves_off old new then a else if enters_off old new then b else c.
Proof.
  unfold leaves_off, enters_off.
  destruct (Z.eqb_spec new old) as [->|]; simpl.
  - destruct (Z.eqb_spec old INV_ICM42600_SENSOR_MODE_OFF); reflexivity.
  - destruct (Z.eqb_spec old INV_ICM42600_SENSOR_MODE_OFF) as [->|]; simpl.
    + destruct (Z.eqb_spec new INV_ICM42600_SENSOR_MODE_OFF); simpl;
        [congruence | reflexivity].
    + reflexivity.
Qed.

Lemma leaves_enters_exclusive old new :
  leaves_off old new = true -> enters_off old new = false.
Proof.
  unfold leaves_off, enters_off.
  destruct (old =? INV_ICM42600_SENSOR_MODE_OFF); simpl; congruence.
Qed.

Lemma set_pwr_mgmt0_ok w gyro_mode accel_mode temp sleep_ms :
  pwr_changed (st w) gyro_mode accel_mode temp = true ->
  hw_ret (trace w) (RegWrite INV_ICM42670_REG_PWR_MGMT0
                             (pwr_mgmt0_val gyro_mode accel_mode)) = 0 ->
  let d := settle_delay (st w) gyro_mode accel_mode temp in
  inv_icm42600_set_pwr_mgmt0 gyro_mode accel_mode temp sleep_ms w
  = ((0, option_map (fun _ => d) sleep_ms),
     mk_world (pwr_applied (st w) gyro_mode accel_mode temp)
              (trace w ++
               RegWrite INV_ICM42670_REG_PWR_MGMT0
                        (pwr_mgmt0_val gyro_mode accel_mode)
               :: quiet_windows (st w) gyro_mode accel_mode
               ++ inline_wait sleep_ms d)).
Proof.
  intros E F d. subst d. revert E F.
  unfold pwr_changed, pwr_mgmt0_val, inv_icm42600_set_pwr_mgmt0. run.
  intros E F. apply negb_true_iff in E. rewrite E.
  apply failed_false in F. rewrite F.
  rewrite accel_cond_leaves_off.
  unfold settle_delay, applicable_floors, quiet_windows, pwr_applied,
    newly_enabled, inline_wait, max_floor.
  pose proof (leaves_enters_exclusive (mode (gyro (conf (st w)))) gyro_mode) as X.
  destruct (temp && negb (temp_en (conf (st w))));
    destruct (leaves_off (mode (accel (conf (st w)))) accel_mode);
    cbn [st trace]; rewrite gyro_cond_split;
    destruct (leaves_off (mode (gyro (conf (st w)))) gyro_mode);
    try rewrite (X eq_refl);
    destruct (enters_off (mode (gyro (conf (st w)))) gyro_mode);
    destruct sleep_ms; cbn [fold_right app option_map st trace];
    rewrite ?raise_to_max, ?N.max_0_l, ?N.max_0_r, ?N.max_assoc;
    repeat rewrite <- app_assoc; cbn [app];
    try reflexivity.
  all: match goal with
       | |- context [(?d =? 0)%N] => destruct (d =? 0)%N
       end; cbn [negb st trace];
       repeat rewrite <- app_assoc; cbn [app]; try reflexivity.
Qed.

Lemma max_floor_ge l x : In x l -> (x <= max_floor l)%N.
Proof.
  induction l as [|a l IH]; simpl; [tauto|].
  intros [->|I]; [lia|]. specialize (IH I). lia.
Qed.

(** C2: a successful power-mode change reports the maximum of the floors
    that apply to the transition.  With an out-parameter the delay is stored
    there; without one the same delay is slept inline.  The delay is at
    least the temperature start-up time when temperature is newly enabled,
    at least the accel (gyro) start-up time when accel (gyro) leaves Off, at
    least the gyro stop time when gyro enters Off; and when accel and gyro
    both leave Off it is the maximum of the two start-up times, the
    temperature floor being either not applicable or not above them. *)
Theorem set_pwr_mgmt0_settle_is_max w gyro_mode accel_mode temp cell :
  pwr_changed (st w) gyro_mode accel_mode temp = true ->
  hw_ret (trace w) (RegWrite INV_ICM42670_REG_PWR_MGMT0
                             (pwr_mgmt0_val gyro_mode accel_mode)) = 0 ->
  let s := st w in
  let d := settle_delay s gyro_mode accel_mode temp in
  let deferred := inv_icm42600_set_pwr_mgmt0 gyro_mode accel_mode temp (Some cell) w in
  let inline := inv_icm42600_set_pwr_mgmt0 gyro_mode accel_mode temp None w in
  fst deferred = (0, Some d) /\
  fst inline = (0, None) /\
  trace (snd inline)
  = trace (snd deferred) ++ (if (d =? 0)%N then [] else [MSleep d]) /\
  d = max_floor (applicable_floors s gyro_mode accel_mode temp) /\
  (newly_enabled (temp_en (conf s)) temp = true ->
   (INV_ICM42600_TEMP_STARTUP_TIME_MS <= d)%N) /\
  (leaves_off (mode (accel (conf s))) accel_mode = true ->
   (INV_ICM42600_ACCEL_STARTUP_TIME_MS <= d)%N) /\
  (leaves_off (mode (gyro (conf s))) gyro_mode = true ->
   (INV_ICM42600_GYRO_STARTUP_TIME_MS <= d)%N) /\
  (enters_off (mode (gyro (conf s))) gyro_mode = true ->
   (INV_ICM42600_GYRO_STOP_TIME_MS <= d)%N) /\
  (leaves_off (mode (accel (conf s))) accel_mode = true ->
   leaves_off (mode (gyro (conf s))) gyro_mode = true ->
   newly_enabled (temp_en (conf s)) temp = false \/
   (INV_ICM42600_TEMP_STARTUP_TIME_MS
    <= N.max INV_ICM42600_ACCEL_STARTUP_TIME_MS INV_ICM42600_GYRO_STARTUP_TIME_MS)%N ->
   d = N.max INV_ICM42600_ACCEL_STARTUP_TIME_MS INV_ICM42600_GYRO_STARTUP_TIME_MS).
Proof.
  intros E F s d deferred inline. subst deferred inline.
  rewrite !(set_pwr_mgmt0_ok w gyro_mode accel_mode temp _ E F).
  fold s. fold d. cbn [fst snd trace option_map inline_wait].
  repeat split.
  - rewrite app_nil_r. rewrite <- app_assoc. cbn [app].
    now rewrite app_comm_cons, app_assoc.
  - intros X. apply max_floor_ge. unfold applicable_floors. rewrite X.
    simpl. auto.
  - intros X. apply max_floor_ge. unfold applicable_floors. rewrite X.
    apply in_or_app; right. simpl. auto.
  - intros X. apply max_floor_ge. unfold applicable_floors. rewrite X.
    apply in_or_app; right. apply in_or_app; right. simpl. auto.
  - intros X. apply max_floor_ge. unfold applicable_floors. rewrite X.
    do 3 (apply in_or_app; right). simpl. auto.
  - intros X Y Z0. unfold d, settle_delay, applicable_floors.
    rewrite X, Y, (leaves_enters_exclusive _ _ Y).
    destruct (newly_enabled (temp_en (conf s)) temp); simpl;
      destruct Z0 as [Z0|Z0]; try discriminate; lia.
Qed.

(** C3, as amended: a request equal to the stored mode triple does nothing at
    all: no call leaves the driver (so no register write and no sleep), the
    state is unchanged, the return code is 0, and the caller's out-parameter,
    if there is one, is left as the caller set it. *)
Theorem set_pwr_mgmt0_current_is_noop w sleep_ms :
  inv_icm42600_set_pwr_mgmt0 (mode (gyro (conf (st w))))
                             (mode (accel (conf (st w))))
                             (temp_en (conf (st w))) sleep_ms w
  = ((0, sleep_ms), w).
Proof.
  apply set_pwr_mgmt0_same. unfold pwr_changed.
  rewrite !Z.eqb_refl, eqb_reflx. reflexivity.
Qed.

(** C4: when the write of the power-mode register fails, the function
    returns the code of the transport and the driver state, the stored mode
    triple included, is what it was; the out-parameter is not written and the
    failed write is the only call made. *)
Theorem set_pwr_mgmt0_write_error_keeps_state w gyro_mode accel_mode temp sleep_ms :
  pwr_changed (st w) gyro_mode accel_mode temp = true ->
  hw_ret (trace w) (RegWrite INV_ICM42670_REG_PWR_MGMT0
                             (pwr_mgmt0_val gyro_mode accel_mode)) <> 0 ->
  let res := inv_icm42600_set_pwr_mgmt0 gyro_mode accel_mode temp sleep_ms w in
  fst (fst res) = hw_ret (trace w) (RegWrite INV_ICM42670_REG_PWR_MGMT0
                                             (pwr_mgmt0_val gyro_mode accel_mode)) /\
  fst (fst res) <> 0 /\
  snd (fst res) = sleep_ms /\
  st (snd res) = st w /\
  conf (st (snd res)) = conf (st w) /\
  events_since w (snd res)
  = [RegWrite INV_ICM42670_REG_PWR_MGMT0 (pwr_mgmt0_val gyro_mode accel_mode)].
Proof.
  intros E F res. subst res.
  rewrite (set_pwr_mgmt0_write_failed w gyro_mode accel_mode temp sleep_ms E F).
  cbn [fst snd st]. repeat split; auto.
  destruct w as [s tr]. apply events_since_app.
Qed.

(** ** Sensor configuration manager *)

Ltac split_sanitize :=
  repeat match goal with
         | |- context [if ?x <? 0 then _ else _] =>
             is_var x; destruct (Z.ltb_spec x 0); cbn [mode fs odr filter]
         end.

Ltac split_ifs :=
  repeat match goal with
         | |- context [if ?b then _ else _] =>
             destruct b eqn:?; cbn [fst snd st trace mode fs odr filter]
         | |- context [let (_, _) := ?x in _] =>
             destruct x as [[? ?] ?]; cbn [fst snd st trace]
         end.

Lemma sanitize_chain_resolved c old :
  (let c1 := if mode c <? 0 then mk_sensor_conf (mode old) (fs c) (odr c) (filter c) else c in
   let c2 := if fs c1 <? 0 then mk_sensor_conf (mode c1) (fs old) (odr c1) (filter c1) else c1 in
   let c3 := if odr c2 <? 0 then mk_sensor_conf (mode c2) (fs c2) (odr old) (filter c2) else c2 in
   if filter c3 <? 0 then mk_sensor_conf (mode c3) (fs c3) (odr c3) (filter old) else c3)
  = resolved c old.
Proof.
  destruct c as [m f o l]. unfold resolved. cbn [mode fs odr filter].
  cbv zeta. split_sanitize; reflexivity.
Qed.

Ltac fold_sanitized c old :=
  let E := fresh "E" in
  pose proof (sanitize_chain_resolved c old) as E; cbv zeta in E;
  rewrite E; clear E.

Lemma set_accel_conf_out_conf w c sleep_ms :
  out_conf (fst (inv_icm42600_set_accel_conf c sleep_ms w))
  = resolved c (accel (conf (st w))).
Proof.
  destruct w as [s tr].
  unfold inv_icm42600_set_accel_conf, out_conf. run.
  fold_sanitized c (accel (conf s)). split_ifs; reflexivity.
Qed.

Lemma set_gyro_conf_out_conf w c sleep_ms :
  out_conf (fst (inv_icm42600_set_gyro_conf c sleep_ms w))
  = resolved c (gyro (conf (st w))).
Proof.
  destruct w as [s tr].
  unfold inv_icm42600_set_gyro_conf, out_conf. run.
  fold_sanitized c (gyro (conf s)). split_ifs; reflexivity.
Qed.

Lemma resolved_no_sentinel c old :
  no_sentinel old -> no_sentinel (resolved c old).
Proof.
  unfold no_sentinel, resolved. cbn [mode fs odr filter].
  intros (Hm & Hf & Ho & Hl).
  destruct (Z.ltb_spec (mode c) 0), (Z.ltb_spec (fs c) 0),
    (Z.ltb_spec (odr c) 0), (Z.ltb_spec (filter c) 0); lia.
Qed.

(** C10: the request struct is sanitized in place.  On every return path of
    [inv_icm42600_set_accel_conf] and [inv_icm42600_set_gyro_conf] the
    caller's struct holds the request with each negative field replaced by
    the value stored at the call; as the stored configuration carries no
    sentinel, neither does the struct on return. *)
Theorem set_conf_sanitizes_request_in_place w c sleep_ms :
  no_sentinel (accel (conf (st w))) ->
  no_sentinel (gyro (conf (st w))) ->
  let after_accel := out_conf (fst (inv_icm42600_set_accel_conf c sleep_ms w)) in
  let after_gyro := out_conf (fst (inv_icm42600_set_gyro_conf c sleep_ms w)) in
  after_accel = resolved c (accel (conf (st w))) /\
  no_sentinel after_accel /\
  after_gyro = resolved c (gyro (conf (st w))) /\
  no_sentinel after_gyro.
Proof.
  intros Va Vg after_accel after_gyro. subst after_accel after_gyro.
  rewrite set_accel_conf_out_conf, set_gyro_conf_out_conf.
  repeat split; auto using resolved_no_sentinel;
    now apply resolved_no_sentinel.
Qed.

Lemma set_pwr_mgmt0_state w g a t sl :
  let w' := snd (inv_icm42600_set_pwr_mgmt0 g a t sl w) in
  st w' = st w \/ st w' = pwr_applied (st w) g a t.
Proof.
  intros w'. subst w'.
  destruct (pwr_changed (st w) g a t) eqn:E.
  - destruct (Z.eq_dec (hw_ret (trace w)
                 (RegWrite INV_ICM42670_REG_PWR_MGMT0 (pwr_mgmt0_val g a))) 0)
      as [F|F].
    + rewrite (set_pwr_mgmt0_ok w _ _ _ sl E F). now right.
    + rewrite (set_pwr_mgmt0_write_failed w _ _ _ sl E F). now left.
  - rewrite (set_pwr_mgmt0_same w _ _ _ sl E). now left.
Qed.

(** The stored configuration never carries a sentinel: the configuration
    calls keep [conf_valid], whatever the request and whatever the bus
    answers. *)
Lemma set_accel_conf_keeps_valid w c sl :
  conf_valid (st w) ->
  conf_valid (st (snd (inv_icm42600_set_accel_conf c sl w))).
Proof.
  destruct w as [s tr].
  unfold conf_valid. cbn [st]. intros (Vg & Va).
  pose proof (resolved_no_sentinel c _ Va) as Vc.
  unfold inv_icm42600_set_accel_conf. run.
  fold_sanitized c (accel (conf s)).
  revert Vc. generalize (resolved c (accel (conf s))). intros c' Vc.
  unfold no_sentinel in *.
  repeat match goal with
         | |- context [if ?b then _ else _] =>
             destruct b eqn:?; cbn [fst snd st trace mode fs odr filter]
         end.
  all: try match goal with
       | |- context [inv_icm42600_set_pwr_mgmt0 ?g ?a ?t ?sl ?w] =>
           let X := fresh in
           pose proof (set_pwr_mgmt0_state w g a t sl) as X; cbv zeta in X;
           destruct (inv_icm42600_set_pwr_mgmt0 g a t sl w) as [[? ?] ?];
           cbn [fst snd st] in *; destruct X as [-> | ->]
       end.
  all: cbn [pwr_applied with_conf with_mode with_fs_odr with_filter conf gyro accel mode fs odr filter st]; lia.
Qed.

Lemma set_gyro_conf_keeps_valid w c sl :
  conf_valid (st w) ->
  conf_valid (st (snd (inv_icm42600_set_gyro_conf c sl w))).
Proof.
  destruct w as [s tr].
  unfold conf_valid. cbn [st]. intros (Vg & Va).
  pose proof (resolved_no_sentinel c _ Vg) as Vc.
  unfold inv_icm42600_set_gyro_conf. run.
  fold_sanitized c (gyro (conf s)).
  revert Vc. generalize (resolved c (gyro (conf s))). intros c' Vc.
  unfold no_sentinel in *.
  repeat match goal with
         | |- context [if ?b then _ else _] =>
             destruct b eqn:?; cbn [fst snd st trace mode fs odr filter]
         end.
  all: try match goal with
       | |- context [inv_icm42600_set_pwr_mgmt0 ?g ?a ?t ?sl ?w] =>
           let X := fresh in
           pose proof (set_pwr_mgmt0_state w g a t sl) as X; cbv zeta in X;
           destruct (inv_icm42600_set_pwr_mgmt0 g a t sl w) as [[? ?] ?];
           cbn [fst snd st] in *; destruct X as [-> | ->]
       end.
  all: cbn [pwr_applied with_conf with_mode with_fs_odr with_filter conf gyro accel mode fs odr filter st]; lia.
Qed.

Lemma quiet_windows_no_write s g a : bus_writes (quiet_windows s g a) = [].
Proof.
  unfold quiet_windows.
  destruct (leaves_off _ a), (leaves_off _ g); reflexivity.
Qed.

Lemma inline_wait_no_write sl d : bus_writes (inline_wait sl d) = [].
Proof.
  unfold inline_wait. destruct sl; [reflexivity|].
  destruct (d =? 0)%N; reflexivity.
Qed.

(** Whatever its outcome, [inv_icm42600_set_pwr_mgmt0] touches nothing but
    the mode triple, and writes the power-mode register once exactly when
    the request differs from the stored triple. *)
Lemma set_pwr_mgmt0_footprint w gyro_mode accel_mode temp sleep_ms :
  let w' := snd (inv_icm42600_set_pwr_mgmt0 gyro_mode accel_mode temp sleep_ms w) in
  with_mode (gyro (conf (st w'))) 0 = with_mode (gyro (conf (st w))) 0 /\
  with_mode (accel (conf (st w'))) 0 = with_mode (accel (conf (st w))) 0 /\
  bus_writes (events_since w w')
  = if pwr_changed (st w) gyro_mode accel_mode temp
    then [RegWrite INV_ICM42670_REG_PWR_MGMT0 (pwr_mgmt0_val gyro_mode accel_mode)]
    else [].
Proof.
  intros w'. subst w'.
  destruct (pwr_changed (st w) gyro_mode accel_mode temp) eqn:E.
  - destruct (Z.eq_dec (hw_ret (trace w)
                 (RegWrite INV_ICM42670_REG_PWR_MGMT0
                           (pwr_mgmt0_val gyro_mode accel_mode))) 0) as [F|F].
    + rewrite (set_pwr_mgmt0_ok w _ _ _ sleep_ms E F). cbn [snd st].
      destruct w as [s tr]. rewrite events_since_app. cbn [st].
      unfold bus_writes. cbn [List.filter is_bus_write].
      rewrite filter_app. fold (bus_writes (quiet_windows s gyro_mode accel_mode)).
      fold (bus_writes (inline_wait sleep_ms (settle_delay s gyro_mode accel_mode temp))).
      rewrite quiet_windows_no_write, inline_wait_no_write.
      repeat split.
    + rewrite (set_pwr_mgmt0_write_failed w _ _ _ sleep_ms E F). cbn [snd st].
      destruct w as [s tr]. rewrite events_since_app. repeat split.
  - rewrite (set_pwr_mgmt0_same w _ _ _ sleep_ms E). cbn [snd].
    rewrite events_since_refl. repeat split.
Qed.

Lemma set_accel_conf_mode_only w c sleep_ms :
  fs c < 0 -> odr c < 0 -> filter c < 0 ->
  inv_icm42600_set_accel_conf c sleep_ms w
  = (let res := inv_icm42600_set_pwr_mgmt0
                  (mode (gyro (conf (st w))))
                  (mode (resolved c (accel (conf (st w)))))
                  (temp_en (conf (st w))) sleep_ms w in
     ((fst (fst res), resolved c (accel (conf (st w))), snd (fst res)), snd res)).
Proof.
  destruct w as [s tr]. destruct c as [m f o l]. cbn [mode fs odr filter].
  intros Hf Ho Hl. apply Z.ltb_lt in Hf, Ho, Hl.
  unfold inv_icm42600_set_accel_conf, resolved. run.
  cbn [mode fs odr filter].
  destruct (m <? 0); cbn [mode fs odr filter];
    rewrite Hf; cbn [mode fs odr filter];
    rewrite Ho; cbn [mode fs odr filter];
    rewrite Hl; cbn [mode fs odr filter];
    rewrite ?Z.eqb_refl; cbn [negb orb failed Z.eqb];
    rewrite ?Z.eqb_refl; cbn [negb orb failed Z.eqb st trace];
    match goal with
    | |- context [inv_icm42600_set_pwr_mgmt0 ?g ?a ?t ?sl ?w] =>
        destruct (inv_icm42600_set_pwr_mgmt0 g a t sl w) as [[r sl'] w']
    end; reflexivity.
Qed.

Lemma set_gyro_conf_mode_only w c sleep_ms :
  fs c < 0 -> odr c < 0 -> filter c < 0 ->
  inv_icm42600_set_gyro_conf c sleep_ms w
  = (let res := inv_icm42600_set_pwr_mgmt0
                  (mode (resolved c (gyro (conf (st w)))))
                  (mode (accel (conf (st w))))
                  (temp_en (conf (st w))) sleep_ms w in
     ((fst (fst res), resolved c (gyro (conf (st w))), snd (fst res)), snd res)).
Proof.
  destruct w as [s tr]. destruct c as [m f o l]. cbn [mode fs odr filter].
  intros Hf Ho Hl. apply Z.ltb_lt in Hf, Ho, Hl.
  unfold inv_icm42600_set_gyro_conf, resolved. run.
  cbn [mode fs odr filter].
  destruct (m <? 0); cbn [mode fs odr filter];
    rewrite Hf; cbn [mode fs odr filter];
    rewrite Ho; cbn [mode fs odr filter];
    rewrite Hl; cbn [mode fs odr filter];
    rewrite ?Z.eqb_refl; cbn [negb orb failed Z.eqb];
    rewrite ?Z.eqb_refl; cbn [negb orb failed Z.eqb st trace];
    match goal with
    | |- context [inv_icm42600_set_pwr_mgmt0 ?g ?a ?t ?sl ?w] =>
        destruct (inv_icm42600_set_pwr_mgmt0 g a t sl w) as [[r sl'] w']
    end; reflexivity.
Qed.

Lemma with_mode_0_inj c c' :
  with_mode c 0 = with_mode c' 0 ->
  fs c = fs c' /\ odr c = odr c' /\ filter c = filter c'.
Proof. unfold with_mode. intros E. injection E. auto. Qed.

(** C6: a request that specifies at most the mode (full scale, rate and
    filter carry the sentinel) leaves the stored full scale, rate and filter
    of both sensors as they were, hands back a request whose full scale, rate
    and filter are the stored ones, and writes no register except, when the
    mode triple changes, the power-mode register, with a value made of the
    two mode fields only.  This holds for the accel and for the gyro call. *)
Theorem mode_only_request_keeps_other_fields w c sleep_ms :
  fs c < 0 -> odr c < 0 -> filter c < 0 ->
  let sa := accel (conf (st w)) in
  let sg := gyro (conf (st w)) in
  let ra := inv_icm42600_set_accel_conf c sleep_ms w in
  let rg := inv_icm42600_set_gyro_conf c sleep_ms w in
  let ma := if mode c <? 0 then mode sa else mode c in
  let mg := if mode c <? 0 then mode sg else mode c in
  (* the accel call *)
  (fs (accel (conf (st (snd ra)))) = fs sa /\
   odr (accel (conf (st (snd ra)))) = odr sa /\
   filter (accel (conf (st (snd ra)))) = filter sa /\
   fs (gyro (conf (st (snd ra)))) = fs sg /\
   odr (gyro (conf (st (snd ra)))) = odr sg /\
   filter (gyro (conf (st (snd ra)))) = filter sg /\
   out_conf (fst ra) = mk_sensor_conf ma (fs sa) (odr sa) (filter sa) /\
   bus_writes (events_since w (snd ra))
   = if pwr_changed (st w) (mode sg) ma (temp_en (conf (st w)))
     then [RegWrite INV_ICM42670_REG_PWR_MGMT0 (pwr_mgmt0_val (mode sg) ma)]
     else []) /\
  (* the gyro call *)
  (fs (gyro (conf (st (snd rg)))) = fs sg /\
   odr (gyro (conf (st (snd rg)))) = odr sg /\
   filter (gyro (conf (st (snd rg)))) = filter sg /\
   fs (accel (conf (st (snd rg)))) = fs sa /\
   odr (accel (conf (st (snd rg)))) = odr sa /\
   filter (accel (conf (st (snd rg)))) = filter sa /\
   out_conf (fst rg) = mk_sensor_conf mg (fs sg) (odr sg) (filter sg) /\
   bus_writes (events_since w (snd rg))
   = if pwr_changed (st w) mg (mode sa) (temp_en (conf (st w)))
     then [RegWrite INV_ICM42670_REG_PWR_MGMT0 (pwr_mgmt0_val mg (mode sa))]
     else []).
Proof.
  intros Hf Ho Hl sa sg ra rg ma mg. subst ra rg.
  rewrite (set_accel_conf_mode_only w c sleep_ms Hf Ho Hl).
  rewrite (set_gyro_conf_mode_only w c sleep_ms Hf Ho Hl).
  cbv zeta. cbn [fst snd out_conf].
  apply Z.ltb_lt in Hf, Ho, Hl.
  assert (Ra : resolved c sa = mk_sensor_conf ma (fs sa) (odr sa) (filter sa))
    by (unfold resolved; now rewrite Hf, Ho, Hl).
  assert (Rg : resolved c sg = mk_sensor_conf mg (fs sg) (odr sg) (filter sg))
    by (unfold resolved; now rewrite Hf, Ho, Hl).
  fold sa sg. rewrite Ra, Rg. cbn [mode].
  destruct (set_pwr_mgmt0_footprint w (mode sg) ma (temp_en (conf (st w))) sleep_ms)
    as (Ag & Aa & Aw).
  destruct (set_pwr_mgmt0_footprint w mg (mode sa) (temp_en (conf (st w))) sleep_ms)
    as (Gg & Ga & Gw).
  apply with_mode_0_inj in Ag, Aa, Gg, Ga.
  fold sa sg in Ag, Aa, Gg, Ga, Aw, Gw.
  repeat split; solve [ apply Ag | apply Aa | apply Gg | apply Ga
                      | exact Aw | exact Gw ].
Qed.

(** C5: when the request repeats the stored mode, full scale and rate and
    names a new filter, the accel call makes exactly one call out of the
    driver: a write of the shared filter register, with the new accel filter
    field or-ed with the field of the stored gyro filter.  No other register
    is written.  The return code is that of this write; on success the stored
    accel filter is the new one and nothing else in the configuration has
    changed. *)
Theorem set_accel_conf_filter_only w c sleep_ms :
  let old := accel (conf (st w)) in
  mode c = mode old -> fs c = fs old -> odr c = odr old ->
  0 <= filter c -> filter c <> filter old ->
  let res := inv_icm42600_set_accel_conf c sleep_ms w in
  let wr := RegWrite INV_ICM42600_REG_GYRO_ACCEL_CONFIG0
              (to_uint (Z.lor (INV_ICM42600_GYRO_ACCEL_CONFIG0_ACCEL_FILT (filter c))
                              (INV_ICM42600_GYRO_ACCEL_CONFIG0_GYRO_FILT
                                 (filter (gyro (conf (st w))))))) in
  events_since w (snd res) = [wr] /\
  bus_writes (events_since w (snd res)) = [wr] /\
  (forall reg val, In (RegWrite reg val) (events_since w (snd res)) ->
                   reg = INV_ICM42600_REG_GYRO_ACCEL_CONFIG0) /\
  ret_code (fst res) = hw_ret (trace w) wr /\
  out_sleep (fst res) = sleep_ms /\
  conf (st (snd res))
  = if hw_ret (trace w) wr =? 0
    then mk_conf (gyro (conf (st w))) (with_filter old (filter c))
                 (temp_en (conf (st w)))
    else conf (st w).
Proof.
  intros old Hm Hf Ho Hl Hn res wr.
  assert (E : res =
    ((hw_ret (trace w) wr, c, sleep_ms),
     mk_world (if hw_ret (trace w) wr =? 0
               then with_conf (st w)
                      (mk_conf (gyro (conf (st w))) (with_filter old (filter c))
                               (temp_en (conf (st w))))
               else st w)
              (trace w ++ [wr]))).
  { subst res wr old. destruct w as [s tr]. destruct c as [m f o l].
    cbn [mode fs odr filter st trace] in *. subst m f o.
    apply Z.ltb_ge in Hl. apply Z.eqb_neq in Hn.
    unfold inv_icm42600_set_accel_conf. run. cbn [mode fs odr filter].
    destruct (mode (accel (conf s)) <? 0); cbn [mode fs odr filter];
      destruct (fs (accel (conf s)) <? 0); cbn [mode fs odr filter];
      destruct (odr (accel (conf s)) <? 0); cbn [mode fs odr filter];
      rewrite Hl; cbn [mode fs odr filter];
      rewrite ?Z.eqb_refl; cbn [negb orb st trace conf accel gyro];
      change (failed 0) with false; cbn [negb orb st trace conf accel gyro];
      rewrite Hn; cbn [negb st trace conf accel gyro];
      unfold failed;
      match goal with
      | |- context [hw_ret tr ?e =? 0] => destruct (hw_ret tr e =? 0) eqn:F
      end; cbn [negb st trace conf accel gyro temp_en with_conf with_filter mode];
      rewrite ?F;
      cbn [negb st trace conf accel gyro temp_en with_conf with_filter mode];
      try reflexivity;
      change (0 =? 0) with true;
      cbn [negb st trace conf accel gyro temp_en with_conf with_filter mode];
      rewrite set_pwr_mgmt0_same
        by (unfold pwr_changed; cbn [st conf gyro accel temp_en mode with_conf];
            now rewrite !Z.eqb_refl, eqb_reflx);
      apply Z.eqb_eq in F; rewrite F; reflexivity. }
  rewrite E. cbn [fst snd ret_code out_sleep st].
  destruct w as [s tr]. rewrite events_since_app. cbn [st trace].
  repeat split.
  - intros reg val [X|[]]. subst wr. now inversion X.
  - destruct (hw_ret tr wr =? 0); reflexivity.
Qed.

(** ** Power lifecycle *)

Lemma pwr_applied_same s g a t :
  pwr_changed s g a t = false -> pwr_applied s g a t = s.
Proof.
  unfold pwr_changed, pwr_applied, with_conf, with_mode.
  intros E. apply negb_false_iff in E.
  apply andb_true_iff in E as [E Et]. apply andb_true_iff in E as [Eg Ea].
  apply Z.eqb_eq in Eg, Ea. apply eqb_prop in Et. subst.
  destruct s as [? ? [[] [] ?] ? ? ? ?]; reflexivity.
Qed.

Lemma set_pwr_mgmt0_healthy w g a t sl :
  (forall h e, hw_ret h e = 0) ->
  exists sl' ev,
    inv_icm42600_set_pwr_mgmt0 g a t sl w
    = ((0, sl'), mk_world (pwr_applied (st w) g a t) (trace w ++ ev)).
Proof.
  intros OK. destruct (pwr_changed (st w) g a t) eqn:E.
  - rewrite (set_pwr_mgmt0_ok w g a t sl E (OK _ _)). eauto.
  - rewrite (set_pwr_mgmt0_same w g a t sl E), (pwr_applied_same _ _ _ _ E).
    exists sl, []. rewrite app_nil_r. now destruct w.
Qed.

Ltac pwr_step OK :=
  match goal with
  | |- context [inv_icm42600_set_pwr_mgmt0 ?g ?a ?t ?sl ?w] =>
      let sl' := fresh "sl" in let ev := fresh "ev" in let E := fresh "E" in
      destruct (set_pwr_mgmt0_healthy w g a t sl OK) as (sl' & ev & E);
      rewrite E; clear E; cbn [st trace fst snd]
  end.


Ltac healthy_steps OK :=
  repeat progress (rewrite ?OK; change (failed 0) with false;
                   cbn beta iota zeta delta [st trace fst snd negb]).

Lemma suspend_healthy w :
  (forall h e, hw_ret h e = 0) ->
  let s1 := with_suspended (st w)
              (mk_suspended (mode (gyro (conf (st w))))
                            (mode (accel (conf (st w))))
                            (temp_en (conf (st w)))) in
  exists ev,
    inv_icm42600_suspend w
    = (0, mk_world (if hw_rpm_suspended (trace w ++ [MutexLock]) then s1
                    else pwr_applied s1 INV_ICM42600_SENSOR_MODE_OFF
                                     INV_ICM42600_SENSOR_MODE_OFF false)
                   (trace w ++ ev)).
Proof.
  intros OK s1. subst s1. destruct w as [s tr].
  unfold inv_icm42600_suspend. run.
  destruct (hw_rpm_suspended (tr ++ [MutexLock])).
  - healthy_steps OK. rewrite <- app_assoc. eauto.
  - destruct (fifo_on s); healthy_steps OK; pwr_step OK; healthy_steps OK;
      repeat rewrite <- app_assoc; eauto.
Qed.

Lemma resume_healthy w :
  (forall h e, hw_ret h e = 0) ->
  exists ev,
    inv_icm42600_resume w
    = (0, mk_world (pwr_applied (st w) (suspended_gyro (suspended (st w)))
                                (suspended_accel (suspended (st w)))
                                (suspended_temp (suspended (st w))))
                   (trace w ++ ev ++
                    (if fifo_on (st w)
                     then [RegWrite INV_ICM42600_REG_FIFO_CONFIG
                                    INV_ICM42600_FIFO_CONFIG_STREAM]
                     else []) ++ [MutexUnlock])).
Proof.
  intros OK. destruct w as [s tr].
  unfold inv_icm42600_resume, inv_icm42600_enable_regulator_vddio. run.
  healthy_steps OK. pwr_step OK. healthy_steps OK.
  cbn [pwr_applied with_conf fifo_on].
  exists ([MutexLock; RegulatorEnable Vddio; USleepRange 3000 4000;
           PmRuntimeDisable; PmRuntimeSetActive; PmRuntimeEnable] ++ ev).
  destruct (fifo_on s); healthy_steps OK; fold (pwr_applied s);
    repeat rewrite <- app_assoc; reflexivity.
Qed.

Lemma with_mode_twice c m : with_mode (with_mode c m) (mode c) = c.
Proof. now destruct c. Qed.

Lemma with_mode_id c : with_mode c (mode c) = c.
Proof. now destruct c. Qed.

(** C8: when every hardware call succeeds, system suspend followed by
    system resume both return 0 and leave the stored configuration (both
    sensor configurations and the temperature flag) and the FIFO streaming
    flag exactly as they were before the suspend.  In between, unless runtime
    suspend had already done the job, both sensors are Off and temperature
    is disabled; and when streaming was on, the last register write of the
    resume puts the FIFO back in stream mode. *)
Theorem suspend_resume_round_trip w :
  (forall h e, hw_ret h e = 0) ->
  let r1 := inv_icm42600_suspend w in
  let r2 := inv_icm42600_resume (snd r1) in
  fst r1 = 0 /\ fst r2 = 0 /\
  conf (st (snd r2)) = conf (st w) /\
  fifo_on (st (snd r1)) = fifo_on (st w) /\
  fifo_on (st (snd r2)) = fifo_on (st w) /\
  (hw_rpm_suspended (trace w ++ [MutexLock]) = false ->
   mode (gyro (conf (st (snd r1)))) = INV_ICM42600_SENSOR_MODE_OFF /\
   mode (accel (conf (st (snd r1)))) = INV_ICM42600_SENSOR_MODE_OFF /\
   temp_en (conf (st (snd r1))) = false) /\
  (fifo_on (st w) = true ->
   exists pre, bus_writes (events_since (snd r1) (snd r2))
               = pre ++ [RegWrite INV_ICM42600_REG_FIFO_CONFIG
                                  INV_ICM42600_FIFO_CONFIG_STREAM]).
Proof.
  intros OK r1 r2. subst r2 r1.
  destruct (suspend_healthy w OK) as (ev1 & E1). rewrite E1. cbn [fst snd].
  match goal with
  | |- context [inv_icm42600_resume ?w1] =>
      destruct (resume_healthy w1 OK) as (ev2 & E2); rewrite E2
  end.
  cbn [fst snd st trace]. rewrite events_since_app.
  destruct w as [[ch nm [sg sa te] su ff tm ind] tr]. cbn [st trace conf gyro accel temp_en fifo_on].
  destruct (hw_rpm_suspended (tr ++ [MutexLock]));
    cbn [pwr_applied with_suspended with_conf conf suspended gyro accel temp_en
         fifo_on suspended_gyro suspended_accel suspended_temp];
    rewrite ?with_mode_twice, ?with_mode_id;
    (repeat split; try congruence).
  all: intros ->; exists (bus_writes ev2); unfold bus_writes;
    rewrite filter_app; reflexivity.
Qed.

(** ** Device bring-up *)

(** C7: when the identity register is read successfully and its value is not
    the one expected for the configured chip, bring-up returns [-ENODEV],
    leaves the driver state untouched and has issued no register write: the
    only calls made are the identity read and the error message, so there is
    no reset, no endianness fix and no configuration load. *)
Theorem setup_identity_mismatch w :
  hw_ret (trace w) (RegRead INV_ICM42600_REG_WHOAMI) = 0 ->
  to_uint (hw_val (trace w) INV_ICM42600_REG_WHOAMI)
  <> whoami (inv_icm42600_hw (chip (st w))) ->
  let res := inv_icm42600_setup w in
  fst res = - ENODEV /\
  st (snd res) = st w /\
  events_since w (snd res) = [RegRead INV_ICM42600_REG_WHOAMI; DevErr] /\
  bus_writes (events_since w (snd res)) = [].
Proof.
  intros R M res.
  assert (E : res = (- ENODEV,
                     mk_world (st w)
                       (trace w ++ [RegRead INV_ICM42600_REG_WHOAMI; DevErr]))).
  { subst res. destruct w as [s tr]. cbn [st trace] in *.
    unfold inv_icm42600_setup. run. rewrite R. change (failed 0) with false.
    apply Z.eqb_neq in M. cbn beta iota. rewrite M. cbn [negb st trace].
    rewrite <- app_assoc. reflexivity. }
  rewrite E. cbn [fst snd st]. destruct w as [s tr].
  rewrite events_since_app. repeat split.
Qed.


Lemma set_conf_outcome w c :
  let res := inv_icm42600_set_conf c w in
  let code n := hw_ret (trace w ++ firstn n (set_conf_writes c))
                       (nth n (set_conf_writes c) DevErr) in
  ((forall n, (n < 3)%nat -> code n = 0) /\
   fst res = 0 /\ conf (st (snd res)) = c /\
   st (snd res) = with_conf (st w) c /\
   events_since w (snd res) = set_conf_writes c) \/
  (fst res <> 0 /\ st (snd res) = st w /\
   exists n, (n < 3)%nat /\
     (forall m, (m < n)%nat -> code m = 0) /\
     code n <> 0 /\
     events_since w (snd res) = firstn (S n) (set_conf_writes c) /\
     fst res = code n).
Proof.
  intros res code. subst res code. destruct w as [s tr].
  unfold inv_icm42600_set_conf, set_conf_writes, pwr_mgmt0_val. run.
  cbn beta.
  repeat match goal with
         | |- context [failed ?r] =>
             let F := fresh "F" in
             destruct (failed r) eqn:F; cbn [st trace fst snd]
         end.
  - right. apply failed_true in F. repeat split; auto.
    exists 0%nat. cbn [firstn nth]. rewrite app_nil_r.
    split; [lia|]. split; [intros m Hm; lia|]. split; [exact F|].
    split; [apply events_since_app | reflexivity].
  - right. apply failed_true in F0. apply failed_false in F.
    repeat split; auto.
    exists 1%nat. cbn [firstn nth].
    split; [lia|]. split.
    { intros m Hm. assert (m = 0%nat) as -> by lia.
      cbn [firstn nth]. now rewrite app_nil_r. }
    split; [exact F0|].
    split; [rewrite <- app_assoc; apply events_since_app | reflexivity].
  - right. apply failed_true in F1. apply failed_false in F, F0.
    repeat split; auto.
    rewrite <- app_assoc in F1. cbn [app] in F1.
    exists 2%nat. cbn [firstn nth].
    split; [lia|]. split.
    { intros m Hm. assert (m = 0%nat \/ m = 1%nat) as [-> | ->] by lia;
        cbn [firstn nth]; [now rewrite app_nil_r | exact F0]. }
    split; [exact F1|].
    split; [repeat rewrite <- app_assoc; apply events_since_app|].
    now rewrite <- app_assoc.
  - left. apply failed_false in F, F0, F1.
    rewrite <- app_assoc in F1. cbn [app] in F1.
    split.
    { intros n Hn.
      assert (n = 0%nat \/ n = 1%nat \/ n = 2%nat) as [-> | [-> | ->]] by lia;
        cbn [firstn nth]; [now rewrite app_nil_r | exact F0 | exact F1]. }
    repeat split. repeat rewrite <- app_assoc. apply events_since_app.
Qed.
(** ** Interrupt and timestamp pipeline *)

Lemma irq_timestamp_run w :
  let tg := to_s64 (hw_time_ns (trace w)) in
  let ta := to_s64 (hw_time_ns (trace w ++ [GetTimeNs tg])) in
  inv_icm42600_irq_timestamp w
  = (IRQ_WAKE_THREAD,
     mk_world (with_timestamp (st w) (mk_timestamp tg ta))
              (trace w ++ [GetTimeNs tg; GetTimeNs ta])).
Proof.
  destruct w as [s tr]. unfold inv_icm42600_irq_timestamp. run.
  cbn [with_timestamp timestamp timestamp_gyro timestamp_accel chip name conf
       suspended fifo_on indio_dev].
  rewrite <- app_assoc. reflexivity.
Qed.

Lemma irq_handler_run w :
  exists rest,
    inv_icm42600_irq_handler w
    = (IRQ_HANDLED,
       mk_world (st w)
                (trace w ++ MutexLock
                 :: RegRead INV_ICM42670_REG_INT_STATUS_DRDY :: rest)) /\
    (forall t, ~ In (GetTimeNs t) rest) /\
    (forall sc, In (PushToBuffers sc) rest ->
                ts sc = to_s64 (to_u64 (timestamp_accel (timestamp (st w))))) /\
    List.filter is_push rest
    = if record_due w then [PushToBuffers (drdy_record w)] else [].
Proof.
  destruct w as [s tr].
  unfold inv_icm42600_irq_handler, record_due, drdy_record, push_history,
    burst_history, drdy_history. run. cbn [st trace].
  unfold failed.
  repeat match goal with
         | |- context [if ?b then _ else _] =>
             lazymatch b with
             | andb _ _ => fail
             | negb ?c => destruct c eqn:?; cbn [st trace fst snd negb andb]
             | _ => destruct b eqn:?; cbn [st trace fst snd negb andb]
             end
         end.
  all: repeat rewrite <- app_assoc; cbn [app];
    (eexists; split; [reflexivity|]).
  all: cbn [List.filter is_push List.map]; repeat rewrite <- app_assoc;
    cbn [app].
  all: split; [|split]; try reflexivity;
    intros; cbn [In] in *; intuition (try discriminate).
  match goal with
  | X : PushToBuffers _ = PushToBuffers _ |- _ => injection X as <-
  end. reflexivity.
Qed.
(** C1: for an interrupt whose deferred phase runs on the state its fast
    phase left, the fast phase latches two clock readings and asks for the
    thread; the deferred phase then starts with the lock and the status read
    and reads the clock nowhere.  It produces a record exactly when one is
    due (the status read succeeded with a non-zero value, the burst read
    succeeded, the IIO device exists and its buffer is enabled): then it
    pushes one record, made of the six channels of the burst and of the accel
    slot latched by the fast phase, and otherwise none.  The two captures
    precede the deferred register read in the trace of the event. *)
Theorem irq_record_carries_latched_timestamp w :
  let fast := inv_icm42600_irq_timestamp w in
  let deferred := inv_icm42600_irq_handler (snd fast) in
  let tg := to_s64 (hw_time_ns (trace w)) in
  let ta := to_s64 (hw_time_ns (trace w ++ [GetTimeNs tg])) in
  let data := List.map to_u8 (hw_bulk (burst_history (snd fast))
                                      INV_ICM42670_REG_ACCEL_DATA_X 12) in
  fst fast = IRQ_WAKE_THREAD /\
  events_since w (snd fast) = [GetTimeNs tg; GetTimeNs ta] /\
  timestamp (st (snd fast)) = mk_timestamp tg ta /\
  fst deferred = IRQ_HANDLED /\
  timestamp (st (snd deferred)) = mk_timestamp tg ta /\
  exists rest,
    events_since w (snd deferred)
    = [GetTimeNs tg; GetTimeNs ta]
      ++ MutexLock :: RegRead INV_ICM42670_REG_INT_STATUS_DRDY :: rest /\
    (forall t, ~ In (GetTimeNs t) rest) /\
    (forall sc, In (PushToBuffers sc) rest -> ts sc = ta) /\
    List.filter is_push rest
    = if record_due (snd fast)
      then [PushToBuffers
              (mk_scan (List.map (sample16 data) [0; 2; 4; 6; 8; 10]%nat) ta)]
      else [].
Proof.
  intros fast deferred tg ta data. subst fast deferred data.
  rewrite irq_timestamp_run. fold tg. fold ta. cbn [fst snd].
  destruct (irq_handler_run
              (mk_world (with_timestamp (st w) (mk_timestamp tg ta))
                        (trace w ++ [GetTimeNs tg; GetTimeNs ta])))
    as (rest & E & Hclock & Hpush & Hdue).
  rewrite E. cbn [fst snd st trace with_timestamp timestamp timestamp_accel] in *.
  destruct w as [s tr]. cbn [st trace] in *.
  rewrite events_since_app. repeat split.
  exists rest. rewrite <- app_assoc, events_since_app.
  split; [reflexivity|]. split; [exact Hclock|]. split.
  - intros sc I. rewrite (Hpush sc I). apply to_s64_latched.
  - rewrite Hdue. unfold drdy_record.
    cbn [st timestamp timestamp_accel with_timestamp].
    replace (to_s64 (to_u64 ta)) with ta
      by (symmetry; apply to_s64_latched).
    reflexivity.
Qed.
End Properties.

(** * Closed instances *)

(** C9: the batched configuration load stores the new configuration only
    after its three register writes have all succeeded.  Write the code of
    the n-th write for what the bus answers to it after the writes before
    it.  Either all three codes are 0: then the call returns 0, the three
    writes were made in order and the stored configuration is the requested
    one, the rest of the state being untouched.  Or some code is not 0: then
    the call returns the first such code, no later write was made and the
    driver state is what it was.  So the stored configuration changes only
    when all three writes returned 0.  The incremental path differs: there
    is a run of the accel call that returns an error with the stored
    configuration changed. *)
Theorem set_conf_update_is_all_or_nothing :
  (forall (H : Header) (P : Platform) w c,
     let res := inv_icm42600_set_conf c w in
     let code n := hw_ret (trace w ++ firstn n (set_conf_writes c))
                          (nth n (set_conf_writes c) DevErr) in
     (((forall n, (n < 3)%nat -> code n = 0) /\
       fst res = 0 /\ conf (st (snd res)) = c /\
       st (snd res) = with_conf (st w) c /\
       events_since w (snd res) = set_conf_writes c) \/
      (fst res <> 0 /\ st (snd res) = st w /\
       exists n, (n < 3)%nat /\
         (forall m, (m < n)%nat -> code m = 0) /\
         code n <> 0 /\
         events_since w (snd res) = firstn (S n) (set_conf_writes c) /\
         fst res = code n)) /\
     (conf (st (snd res)) <> conf (st w) ->
      forall n, (n < 3)%nat -> code n = 0) /\
     ((exists n, (n < 3)%nat /\ code n <> 0) ->
      fst res <> 0 /\ st (snd res) = st w)) /\
  (exists (P : Platform) c w,
     let res := @inv_icm42600_set_accel_conf sample_header P c None w in
     ret_code (fst res) <> 0 /\ conf (st (snd res)) <> conf (st w)).
Proof.
  split.
  - intros H P w c res code.
    pose proof (set_conf_outcome w c) as O. cbv zeta in O.
    fold res in O. fold code in O.
    split; [exact O|]. split.
    + intros Hc. destruct O as [(A & _) | (_ & S & _)]; [exact A|].
      rewrite S in Hc. now elim Hc.
    + intros (n & Hn & Hbad).
      destruct O as [(A & _) | (R & S & _)]; [|now split].
      elim Hbad. now apply A.
  - exists (write_fails_at 0x52), (mk_sensor_conf (-1) 1 (-1) 2),
      (sample_world 0 0 false false).
    vm_compute. split; congruence.
Qed.

(** Both sensors from Off to low noise: 60 ms, the larger of 20 and 60, not
    their sum. *)
Lemma set_pwr_mgmt0_settle_is_max_witness :
  fst (@inv_icm42600_set_pwr_mgmt0 sample_header quiet 3 3 false (Some 0%N)
         (sample_world 0 0 false false))
  = (0, Some 60%N).
Proof.
  exact (proj1 (@set_pwr_mgmt0_settle_is_max sample_header quiet
                  (sample_world 0 0 false false) 3 3 false 0%N
                  eq_refl eq_refl)).
Defined.

(** A request equal to the stored triple, made with an out-parameter that
    holds 77: the cell still holds 77 on return, not 0. *)
Lemma set_pwr_mgmt0_noop_leaves_cell :
  snd (fst (@inv_icm42600_set_pwr_mgmt0 sample_header quiet 0 0 false
              (Some 77%N) (sample_world 0 0 false false)))
  <> Some 0%N.
Proof. vm_compute. discriminate. Qed.

(** The power-mode write fails with -5: the code is returned and the state
    is the one before the call. *)
Lemma set_pwr_mgmt0_write_error_keeps_state_witness :
  let res := @inv_icm42600_set_pwr_mgmt0 sample_header (write_fails_at 0x1F)
               3 0 false None (sample_world 0 0 false false) in
  fst (fst res) = -5 /\ st (snd res) = sample_state 0 0 false false.
Proof.
  destruct (@set_pwr_mgmt0_write_error_keeps_state sample_header
              (write_fails_at 0x1F) (sample_world 0 0 false false)
              3 0 false None eq_refl ltac:(vm_compute; discriminate))
    as (A & _ & _ & B & _).
  split; [exact A | exact B].
Defined.

(** Accel filter 0 -> 2 with the gyro filter at 0: one write, 0x52 := 0x20. *)
Lemma set_accel_conf_filter_only_witness :
  events_since (sample_world 3 3 false false)
    (snd (@inv_icm42600_set_accel_conf sample_header quiet
            (mk_sensor_conf 3 0 8 2) None (sample_world 3 3 false false)))
  = [RegWrite 0x52 32].
Proof.
  exact (proj1 (@set_accel_conf_filter_only sample_header quiet
                  (sample_world 3 3 false false) (mk_sensor_conf 3 0 8 2) None
                  eq_refl eq_refl eq_refl ltac:(simpl; lia)
                  ltac:(simpl; lia))).
Defined.

(** A gyro request for low noise with everything else unspecified. *)
Lemma mode_only_request_keeps_other_fields_witness :
  let res := @inv_icm42600_set_gyro_conf sample_header quiet
               (mk_sensor_conf 3 (-1) (-1) (-1)) None
               (sample_world 0 0 false false) in
  out_conf (fst res) = mk_sensor_conf 3 0 8 0 /\
  bus_writes (events_since (sample_world 0 0 false false) (snd res))
  = [RegWrite 0x1F 12].
Proof.
  destruct (@mode_only_request_keeps_other_fields sample_header quiet
              (sample_world 0 0 false false)
              (mk_sensor_conf 3 (-1) (-1) (-1)) None
              ltac:(simpl; lia) ltac:(simpl; lia) ltac:(simpl; lia))
    as (_ & (_ & _ & _ & _ & _ & _ & A & B)).
  split; [exact A | exact B].
Defined.

(** An ICM-42670 is expected (0x67) and the identity register reads 0. *)
Lemma setup_identity_mismatch_witness :
  let res := @inv_icm42600_setup sample_header quiet
               (sample_world 0 0 false false) in
  fst res = -19 /\
  bus_writes (events_since (sample_world 0 0 false false) (snd res)) = [].
Proof.
  destruct (@setup_identity_mismatch sample_header quiet
              (sample_world 0 0 false false)
              eq_refl ltac:(vm_compute; discriminate))
    as (A & _ & _ & B).
  split; [exact A | exact B].
Defined.

(** Gyro low noise, accel low power, temperature on, FIFO streaming. *)
Lemma suspend_resume_round_trip_witness :
  conf (st (snd (@inv_icm42600_resume sample_header quiet
                   (snd (@inv_icm42600_suspend sample_header quiet
                           (sample_world 3 2 true true))))))
  = conf (st (sample_world 3 2 true true)).
Proof.
  exact (proj1 (proj2 (proj2
    (@suspend_resume_round_trip sample_header quiet
       (sample_world 3 2 true true) (fun _ _ => eq_refl))))).
Defined.

(** Only the full scale is specified; the rest comes from the stored accel
    configuration. *)
Lemma set_conf_sanitizes_request_in_place_witness :
  out_conf (fst (@inv_icm42600_set_accel_conf sample_header quiet
                   (mk_sensor_conf (-1) 1 (-1) (-1)) None
                   (sample_world 3 3 false false)))
  = mk_sensor_conf 3 1 8 0.
Proof.
  exact (proj1 (@set_conf_sanitizes_request_in_place sample_header quiet
                  (sample_world 3 3 false false)
                  (mk_sensor_conf (-1) 1 (-1) (-1)) None
                  ltac:(unfold no_sentinel; simpl; lia)
                  ltac:(unfold no_sentinel; simpl; lia))).
Defined.

(** * Runs on concrete inputs *)

(** An interrupt with data ready and the buffer enabled.  The clock reads
    5000000 ns and 5001000 ns in the fast phase; the record is pushed three
    calls later and carries 5001000.  The twelve bytes decode, low byte
    first, to six signed 16-bit samples. *)
Example irq_record_example :
  trace (snd (@inv_icm42600_irq_handler sample_header
                (healthy (fun _ => 1)
                         [0x34; 0x12; 0xFF; 0xFF; 0; 0x80; 1; 0; 2; 0; 3; 0]
                         true false)
                (snd (@inv_icm42600_irq_timestamp
                        (healthy (fun _ => 1)
                                 [0x34; 0x12; 0xFF; 0xFF; 0; 0x80; 1; 0; 2; 0; 3; 0]
                                 true false)
                        (sample_world 3 3 false false)))))
  = [GetTimeNs 5000000; GetTimeNs 5001000; MutexLock; RegRead 0x39;
     RegBulkRead 0x0B 12;
     PushToBuffers (mk_scan [0x1234; -1; -32768; 1; 2; 3] 5001000);
     MutexUnlock].
Proof. vm_compute. reflexivity. Qed.

(** With the buffer disabled the record is dropped. *)
Example irq_record_dropped :
  events_since (sample_world 3 3 false false)
    (snd (@inv_icm42600_irq_handler sample_header
            (healthy (fun _ => 1) [] false false)
            (sample_world 3 3 false false)))
  = [MutexLock; RegRead 0x39; RegBulkRead 0x0B 12; MutexUnlock].
Proof. vm_compute. reflexivity. Qed.

(** From all Off, a gyro request for low-noise mode at a new rate with the
    filter unspecified: one write of the gyro scale/rate register, one of
    the power-mode register, a reported delay of 60 ms, and the stored filter
    kept. *)
Example set_gyro_conf_scenario :
  @inv_icm42600_set_gyro_conf sample_header quiet
    (mk_sensor_conf 3 0 9 (-1)) (Some 0%N) (sample_world 0 0 false false)
  = ((0, mk_sensor_conf 3 0 9 0, Some 60%N),
     mk_world (with_conf (sample_state 0 0 false false)
                 (mk_conf (mk_sensor_conf 3 0 9 0) (mk_sensor_conf 0 0 8 0) false))
              [RegWrite 0x4F 9; RegWrite 0x1F 12; USleepRange 200 300]).
Proof. vm_compute. reflexivity. Qed.

(** Gyro low-noise to Off: 150 ms, slept inline when no cell is given. *)
Example gyro_stop_inline_wait :
  @inv_icm42600_set_pwr_mgmt0 sample_header quiet 0 3 false None
    (sample_world 3 3 false false)
  = ((0, None),
     mk_world (sample_state 0 3 false false) [RegWrite 0x1F 3; MSleep 150]).
Proof. vm_compute. reflexivity. Qed.

(** Bring-up of an ICM-42670 that answers 0x67 and reports reset done. *)
Example setup_succeeds :
  @inv_icm42600_setup sample_header
    (healthy (fun r => if r =? 0x75 then 0x67 else 0x10) [] false false)
    (sample_world 0 0 false false)
  = (0,
     mk_world (sample_state 3 3 false false)
              [RegRead 0x75; RegWrite 0x02 0x10; MSleep 1; RegRead 0x3A;
               RegUpdateBits 0x35 0x10 0;
               RegWrite 0x1F 15; RegWrite 0x20 8; RegWrite 0x21 8]).
Proof. vm_compute. reflexivity. Qed.

(** * Further properties *)

Ltac steps OK :=
  repeat progress (rewrite ?OK; change (failed 0) with false;
                   cbn beta iota zeta delta [st trace fst snd negb]).

Ltac simp_rec :=
  cbn [st trace fst snd conf accel gyro temp_en mode fs odr filter chip name
       suspended fifo_on timestamp indio_dev suspended_gyro suspended_accel
       suspended_temp with_conf with_fs_odr with_filter with_mode
       with_suspended with_name with_timestamp].

Ltac simp_rec_all :=
  cbn [st trace fst snd conf accel gyro temp_en mode fs odr filter chip name
       suspended fifo_on timestamp indio_dev suspended_gyro suspended_accel
       suspended_temp with_conf with_fs_odr with_filter with_mode
       with_suspended with_name with_timestamp] in *.

Ltac go :=
  repeat progress (change (failed 0) with false; simp_rec; cbn [negb orb andb]).

Lemma resolved_chain c old :
  (let c1 := if mode c <? 0 then mk_sensor_conf (mode old) (fs c) (odr c) (filter c) else c in
   let c2 := if fs c1 <? 0 then mk_sensor_conf (mode c1) (fs old) (odr c1) (filter c1) else c1 in
   let c3 := if odr c2 <? 0 then mk_sensor_conf (mode c2) (fs c2) (odr old) (filter c2) else c2 in
   if filter c3 <? 0 then mk_sensor_conf (mode c3) (fs c3) (odr c3) (filter old) else c3)
  = resolved c old.
Proof.
  destruct c as [m f o l]. unfold resolved. cbn [mode fs odr filter]. cbv zeta.
  destruct (m <? 0); cbn [mode fs odr filter];
    destruct (f <? 0); cbn [mode fs odr filter];
    destruct (o <? 0); cbn [mode fs odr filter];
    destruct (l <? 0); reflexivity.
Qed.

Ltac fold_resolved c old :=
  let E := fresh "E" in
  pose proof (resolved_chain c old) as E; cbv zeta in E; rewrite E; clear E.

Lemma bus_writes_app l1 l2 : bus_writes (l1 ++ l2) = bus_writes l1 ++ bus_writes l2.
Proof. unfold bus_writes. apply filter_app. Qed.

Lemma lor_shiftl_8 lo hi :
  0 <= lo < 256 -> Z.lor lo (Z.shiftl hi 8) = lo + 256 * hi.
Proof.
  intros R. rewrite Z.shiftl_mul_pow2 by lia.
  rewrite <- Z.lxor_lor, <- Z.add_nocarry_lxor; try lia.
  all: apply Z.bits_inj'; intros n Hn; rewrite Z.land_spec, Z.bits_0;
    destruct (Z.ltb_spec n 8).
  all: try (rewrite (Z.mul_pow2_bits_low hi 8 n) by lia; apply andb_false_r).
  all: replace lo with (lo mod 2 ^ 8) by (apply Z.mod_small; lia);
    rewrite Z.mod_pow2_bits_high by lia; reflexivity.
Qed.

Lemma sample16_le16 v pre post :
  - 2 ^ 15 <= v < 2 ^ 15 ->
  sample16 (pre ++ le16 v ++ post) (List.length pre) = v.
Proof.
  intros R. unfold sample16, le16.
  replace (nth (List.length pre) (pre ++ [v mod 256; (v / 256) mod 256] ++ post) 0)
    with (v mod 256).
  2:{ rewrite app_nth2, Nat.sub_diag by lia. reflexivity. }
  replace (nth (S (List.length pre))
               (pre ++ [v mod 256; (v / 256) mod 256] ++ post) 0)
    with ((v / 256) mod 256).
  2:{ rewrite app_nth2 by lia.
      replace (S (List.length pre) - List.length pre)%nat with 1%nat by lia.
      reflexivity. }
  rewrite lor_shiftl_8 by (apply Z.mod_pos_bound; lia).
  rewrite <- (Z.rem_mul_r v 256 256) by lia.
  unfold to_s16. change (256 * 256) with (2 ^ 16).
  rewrite Zplus_mod_idemp_l. rewrite Z.mod_small; lia.
Qed.

Section FurtherProperties.
Context {H : Header} {P : Platform}.

Lemma set_pwr_mgmt0_healthy_writes w g a t sl :
  (forall h e, hw_ret h e = 0) ->
  exists ev,
    inv_icm42600_set_pwr_mgmt0 g a t sl w
    = ((0, if pwr_changed (st w) g a t
           then option_map (fun _ => settle_delay (st w) g a t) sl else sl),
       mk_world (pwr_applied (st w) g a t) (trace w ++ ev)) /\
    bus_writes ev
    = (if pwr_changed (st w) g a t
       then [RegWrite INV_ICM42670_REG_PWR_MGMT0 (pwr_mgmt0_val g a)] else []) /\
    (pwr_changed (st w) g a t = false -> ev = []).
Proof.
  intros OK. destruct (pwr_changed (st w) g a t) eqn:E.
  - rewrite (set_pwr_mgmt0_ok w g a t sl E (OK _ _)). eexists.
    split; [reflexivity|]. split; [|discriminate].
    cbn [bus_writes List.filter is_bus_write].
    change (List.filter is_bus_write) with bus_writes.
    now rewrite bus_writes_app, quiet_windows_no_write, inline_wait_no_write.
  - rewrite (set_pwr_mgmt0_same w g a t sl E), (pwr_applied_same _ _ _ _ E).
    exists []. rewrite app_nil_r. repeat split. now destruct w.
Qed.

Lemma pwr_changed_accel_only s m :
  pwr_changed s (mode (gyro (conf s))) m (temp_en (conf s))
  = negb (m =? mode (accel (conf s))).
Proof.
  unfold pwr_changed. now rewrite Z.eqb_refl, eqb_reflx, andb_true_r.
Qed.

Lemma pwr_changed_gyro_only s m :
  pwr_changed s m (mode (accel (conf s))) (temp_en (conf s))
  = negb (m =? mode (gyro (conf s))).
Proof.
  unfold pwr_changed. now rewrite Z.eqb_refl, eqb_reflx, !andb_true_r.
Qed.

Lemma set_accel_conf_healthy w c sleep_ms :
  (forall h e, hw_ret h e = 0) ->
  let old := accel (conf (st w)) in
  let c' := resolved c old in
  exists ev,
    inv_icm42600_set_accel_conf c sleep_ms w
    = ((0, c',
        if mode c' =? mode old then sleep_ms
        else option_map (fun _ => settle_delay (st w) (mode (gyro (conf (st w))))
                                               (mode c') (temp_en (conf (st w))))
                        sleep_ms),
       mk_world (with_conf (st w) (mk_conf (gyro (conf (st w))) c'
                                            (temp_en (conf (st w)))))
                (trace w ++ ev)) /\
    bus_writes ev = accel_delta_writes (st w) c' /\
    (accel_delta_writes (st w) c' = [] -> ev = []).
Proof.
  intros OK old c'. subst c' old. destruct w as [s tr]. cbn [st trace].
  unfold inv_icm42600_set_accel_conf, accel_delta_writes. run.
  fold_resolved c (accel (conf s)).
  generalize (resolved c (accel (conf s))). intros c'.
  destruct s as [ch nm [[gm gf go gl] [m0 f0 o0 l0] te] su ff tm ind].
  destruct c' as [m f o l]. cbn [conf accel gyro temp_en mode fs odr filter].
  destruct (Z.eqb_spec f f0), (Z.eqb_spec o o0); subst;
    cbn [negb orb andb]; steps OK; simp_rec;
    (destruct (Z.eqb_spec l l0); subst; cbn [negb]; steps OK; simp_rec);
    match goal with
    | |- context [inv_icm42600_set_pwr_mgmt0 ?g ?a ?t ?sl ?w] =>
        destruct (set_pwr_mgmt0_healthy_writes w g a t sl OK) as (ev & E & Wr & Wn);
        rewrite E; clear E
    end;
    unfold pwr_changed, settle_delay, applicable_floors in *;
    simp_rec_all; rewrite Z.eqb_refl, eqb_reflx, andb_true_r in *;
    cbn [andb negb] in *;
    (destruct (Z.eqb_spec m m0); subst; cbn [negb] in *);
    cbn [pwr_applied with_conf with_mode app]; simp_rec;
    repeat rewrite <- app_assoc;
    (eexists; split; [reflexivity|]);
    rewrite ?bus_writes_app, Wr;
    (split; [reflexivity|]); cbn [app]; try discriminate.
  intros _. now rewrite Wn.
Qed.

Lemma set_gyro_conf_healthy w c sleep_ms :
  (forall h e, hw_ret h e = 0) ->
  let old := gyro (conf (st w)) in
  let c' := resolved c old in
  exists ev,
    inv_icm42600_set_gyro_conf c sleep_ms w
    = ((0, c',
        if mode c' =? mode old then sleep_ms
        else option_map (fun _ => settle_delay (st w) (mode c')
                                               (mode (accel (conf (st w))))
                                               (temp_en (conf (st w))))
                        sleep_ms),
       mk_world (with_conf (st w) (mk_conf c' (accel (conf (st w)))
                                            (temp_en (conf (st w)))))
                (trace w ++ ev)) /\
    bus_writes ev = gyro_delta_writes (st w) c' /\
    (gyro_delta_writes (st w) c' = [] -> ev = []).
Proof.
  intros OK old c'. subst c' old. destruct w as [s tr]. cbn [st trace].
  unfold inv_icm42600_set_gyro_conf, gyro_delta_writes. run.
  fold_resolved c (gyro (conf s)).
  generalize (resolved c (gyro (conf s))). intros c'.
  destruct s as [ch nm [[m0 f0 o0 l0] [am af ao al] te] su ff tm ind].
  destruct c' as [m f o l]. cbn [conf accel gyro temp_en mode fs odr filter].
  destruct (Z.eqb_spec f f0), (Z.eqb_spec o o0); subst;
    cbn [negb orb andb]; steps OK; simp_rec;
    (destruct (Z.eqb_spec l l0); subst; cbn [negb]; steps OK; simp_rec);
    match goal with
    | |- context [inv_icm42600_set_pwr_mgmt0 ?g ?a ?t ?sl ?w] =>
        destruct (set_pwr_mgmt0_healthy_writes w g a t sl OK) as (ev & E & Wr & Wn);
        rewrite E; clear E
    end;
    unfold pwr_changed, settle_delay, applicable_floors in *;
    simp_rec_all; rewrite Z.eqb_refl, eqb_reflx, andb_true_r in *;
    cbn [andb negb] in *;
    (destruct (Z.eqb_spec m m0); subst; cbn [negb] in *);
    cbn [pwr_applied with_conf with_mode app]; simp_rec;
    repeat rewrite <- app_assoc;
    (eexists; split; [reflexivity|]);
    rewrite ?bus_writes_app, Wr;
    (split; [reflexivity|]); cbn [app]; try discriminate.
  intros _. now rewrite Wn.
Qed.
(** X1: when every bus write succeeds, the accel call returns 0, hands back
    and stores the resolved request, leaves the gyro configuration and the
    temperature flag alone, and writes exactly the registers whose packed
    value differs from the stored one, in the order scale/rate, filter,
    power mode. *)
Theorem set_accel_conf_writes_only_the_delta w c sleep_ms :
  (forall h e, hw_ret h e = 0) ->
  let old := accel (conf (st w)) in
  let c' := resolved c old in
  let res := inv_icm42600_set_accel_conf c sleep_ms w in
  ret_code (fst res) = 0 /\
  out_conf (fst res) = c' /\
  accel (conf (st (snd res))) = c' /\
  gyro (conf (st (snd res))) = gyro (conf (st w)) /\
  temp_en (conf (st (snd res))) = temp_en (conf (st w)) /\
  bus_writes (events_since w (snd res)) = accel_delta_writes (st w) c'.
Proof.
  intros OK old c' res. subst res.
  destruct (set_accel_conf_healthy w c sleep_ms OK) as (ev & E & Wr & _).
  rewrite E. fold old c'. cbn [fst snd ret_code out_conf st with_conf conf accel gyro temp_en].
  destruct w as [s tr]. rewrite events_since_app. repeat split. exact Wr.
Qed.

(** X2: the same for the gyro call, with the gyro scale/rate register and
    the gyro field of the shared filter register. *)
Theorem set_gyro_conf_writes_only_the_delta w c sleep_ms :
  (forall h e, hw_ret h e = 0) ->
  let old := gyro (conf (st w)) in
  let c' := resolved c old in
  let res := inv_icm42600_set_gyro_conf c sleep_ms w in
  ret_code (fst res) = 0 /\
  out_conf (fst res) = c' /\
  gyro (conf (st (snd res))) = c' /\
  accel (conf (st (snd res))) = accel (conf (st w)) /\
  temp_en (conf (st (snd res))) = temp_en (conf (st w)) /\
  bus_writes (events_since w (snd res)) = gyro_delta_writes (st w) c'.
Proof.
  intros OK old c' res. subst res.
  destruct (set_gyro_conf_healthy w c sleep_ms OK) as (ev & E & Wr & _).
  rewrite E. fold old c'. cbn [fst snd ret_code out_conf st with_conf conf accel gyro temp_en].
  destruct w as [s tr]. rewrite events_since_app. repeat split. exact Wr.
Qed.

Lemma resolved_idem c old : resolved c (resolved c old) = resolved c old.
Proof.
  unfold resolved. cbn [mode fs odr filter].
  destruct (mode c <? 0), (fs c <? 0), (odr c <? 0), (filter c <? 0); reflexivity.
Qed.

Lemma accel_delta_writes_done s c :
  accel_delta_writes (with_conf s (mk_conf (gyro (conf s)) c (temp_en (conf s)))) c = [].
Proof.
  unfold accel_delta_writes. cbn [with_conf conf accel gyro].
  now rewrite !Z.eqb_refl.
Qed.

Lemma gyro_delta_writes_done s c :
  gyro_delta_writes (with_conf s (mk_conf c (accel (conf s)) (temp_en (conf s)))) c = [].
Proof.
  unfold gyro_delta_writes. cbn [with_conf conf accel gyro].
  now rewrite !Z.eqb_refl.
Qed.

(** X3: a configuration request is idempotent.  When every bus write
    succeeds, repeating an accel (or gyro) request right after it was applied
    makes no call out of the driver at all, returns 0, leaves the state as it
    is and does not touch the delay cell. *)
Theorem config_request_is_idempotent w c sleep_ms sleep_ms' :
  (forall h e, hw_ret h e = 0) ->
  let wa := snd (inv_icm42600_set_accel_conf c sleep_ms w) in
  let wg := snd (inv_icm42600_set_gyro_conf c sleep_ms w) in
  inv_icm42600_set_accel_conf c sleep_ms' wa
  = ((0, resolved c (accel (conf (st w))), sleep_ms'), wa) /\
  inv_icm42600_set_gyro_conf c sleep_ms' wg
  = ((0, resolved c (gyro (conf (st w))), sleep_ms'), wg).
Proof.
  intros OK wa wg. subst wa wg. split.
  - destruct (set_accel_conf_healthy w c sleep_ms OK) as (ev & E & _ & _).
    rewrite E. cbn [snd].
    match goal with
    | |- inv_icm42600_set_accel_conf _ _ ?w1 = _ =>
        destruct (set_accel_conf_healthy w1 c sleep_ms' OK) as (ev' & E' & _ & N)
    end.
    cbn [st trace with_conf conf accel gyro temp_en] in E', N.
    rewrite resolved_idem in E', N. rewrite Z.eqb_refl in E'.
    rewrite E'. rewrite N by apply accel_delta_writes_done.
    rewrite app_nil_r. reflexivity.
  - destruct (set_gyro_conf_healthy w c sleep_ms OK) as (ev & E & _ & _).
    rewrite E. cbn [snd].
    match goal with
    | |- inv_icm42600_set_gyro_conf _ _ ?w1 = _ =>
        destruct (set_gyro_conf_healthy w1 c sleep_ms' OK) as (ev' & E' & _ & N)
    end.
    cbn [st trace with_conf conf accel gyro temp_en] in E', N.
    rewrite resolved_idem in E', N. rewrite Z.eqb_refl in E'.
    rewrite E'. rewrite N by apply gyro_delta_writes_done.
    rewrite app_nil_r. reflexivity.
Qed.

(** X4: the shared filter register is never clobbered.  Changing the accel
    filter and then the gyro filter (everything else unspecified, every write
    succeeding) writes the register twice; the first value pairs the new
    accel field with the stored gyro field, the second pairs the new gyro
    field with the accel field just written; both stored filters end up new
    and nothing else in the configuration moves. *)
Theorem filter_updates_compose w a g sleep_ms :
  (forall h e, hw_ret h e = 0) ->
  0 <= a -> 0 <= g ->
  a <> filter (accel (conf (st w))) ->
  g <> filter (gyro (conf (st w))) ->
  let w1 := snd (inv_icm42600_set_accel_conf
                   (mk_sensor_conf (-1) (-1) (-1) a) sleep_ms w) in
  let w2 := snd (inv_icm42600_set_gyro_conf
                   (mk_sensor_conf (-1) (-1) (-1) g) sleep_ms w1) in
  bus_writes (events_since w w2)
  = [RegWrite INV_ICM42600_REG_GYRO_ACCEL_CONFIG0
       (to_uint (Z.lor (INV_ICM42600_GYRO_ACCEL_CONFIG0_ACCEL_FILT a)
                       (INV_ICM42600_GYRO_ACCEL_CONFIG0_GYRO_FILT
                          (filter (gyro (conf (st w)))))));
     RegWrite INV_ICM42600_REG_GYRO_ACCEL_CONFIG0
       (to_uint (Z.lor (INV_ICM42600_GYRO_ACCEL_CONFIG0_ACCEL_FILT a)
                       (INV_ICM42600_GYRO_ACCEL_CONFIG0_GYRO_FILT g)))] /\
  accel (conf (st w2)) = with_filter (accel (conf (st w))) a /\
  gyro (conf (st w2)) = with_filter (gyro (conf (st w))) g /\
  temp_en (conf (st w2)) = temp_en (conf (st w)).
Proof.
  intros OK Ha Hg Na Ng w1 w2. subst w2 w1.
  destruct (set_accel_conf_healthy w (mk_sensor_conf (-1) (-1) (-1) a) sleep_ms OK)
    as (ev1 & E1 & W1 & _).
  rewrite E1. cbn [snd].
  match goal with
  | |- context [inv_icm42600_set_gyro_conf ?c ?sl ?w1] =>
      destruct (set_gyro_conf_healthy w1 c sl OK) as (ev2 & E2 & W2 & _)
  end.
  rewrite E2. cbn [snd st trace].
  destruct w as [[ch nm [[gm gf go gl] [am af ao al] te] su ff tm ind] tr].
  cbn [st trace conf accel gyro temp_en filter] in *.
  rewrite <- app_assoc, events_since_app, bus_writes_app, W1, W2.
  apply Z.ltb_ge in Ha, Hg. apply Z.eqb_neq in Na, Ng.
  unfold accel_delta_writes, gyro_delta_writes, resolved.
  cbn [with_conf conf accel gyro temp_en mode fs odr filter with_filter].
  change (-1 <? 0) with true. rewrite Ha, Hg, Na, Ng, !Z.eqb_refl.
  cbn [andb app]. repeat split.
Qed.

(** The first write succeeded and the second failed. *)
Lemma set_accel_conf_filter_write_fails w c sleep_ms r :
  let old := accel (conf (st w)) in
  let c' := resolved c old in
  let w1 := RegWrite INV_ICM42600_REG_ACCEL_CONFIG0
              (to_uint (Z.lor (INV_ICM42600_ACCEL_CONFIG0_FS (fs c'))
                              (INV_ICM42600_ACCEL_CONFIG0_ODR (odr c')))) in
  let w2 := RegWrite INV_ICM42600_REG_GYRO_ACCEL_CONFIG0
              (to_uint (Z.lor (INV_ICM42600_GYRO_ACCEL_CONFIG0_ACCEL_FILT (filter c'))
                              (INV_ICM42600_GYRO_ACCEL_CONFIG0_GYRO_FILT
                                 (filter (gyro (conf (st w))))))) in
  (fs c' =? fs old) && (odr c' =? odr old) = false ->
  filter c' <> filter old ->
  hw_ret (trace w) w1 = 0 ->
  hw_ret (trace w ++ [w1]) w2 = r -> r <> 0 ->
  inv_icm42600_set_accel_conf c sleep_ms w
  = ((r, c', sleep_ms),
     mk_world (with_conf (st w)
                 (mk_conf (gyro (conf (st w)))
                          (with_fs_odr old (fs c') (odr c'))
                          (temp_en (conf (st w)))))
              (trace w ++ [w1; w2])).
Proof.
  intros old c' w1 w2. subst w1 w2 c' old.
  destruct w as [s tr]. cbn [st trace].
  unfold inv_icm42600_set_accel_conf. run.
  fold_resolved c (accel (conf s)).
  generalize (resolved c (accel (conf s))). intros c' D Nf R1 R2 Nr.
  apply Z.eqb_neq in Nf. apply failed_true in Nr.
  rewrite <- negb_andb, D. go. rewrite R1. go. rewrite Nf. go.
  rewrite R2, Nr. go. rewrite Nr. go.
  rewrite <- app_assoc. reflexivity.
Qed.

(** X5: the incremental path is not atomic, and this is how.  When the
    accel scale/rate write succeeds and the filter write then fails, the call
    returns the code of the failed write; the stored full scale and rate are
    already the requested ones, while the stored filter, the stored mode, the
    gyro configuration and the delay cell are untouched and the power-mode
    register is not written. *)
Theorem set_accel_conf_keeps_what_landed w c sleep_ms r :
  let old := accel (conf (st w)) in
  let c' := resolved c old in
  let w1 := RegWrite INV_ICM42600_REG_ACCEL_CONFIG0
              (to_uint (Z.lor (INV_ICM42600_ACCEL_CONFIG0_FS (fs c'))
                              (INV_ICM42600_ACCEL_CONFIG0_ODR (odr c')))) in
  let w2 := RegWrite INV_ICM42600_REG_GYRO_ACCEL_CONFIG0
              (to_uint (Z.lor (INV_ICM42600_GYRO_ACCEL_CONFIG0_ACCEL_FILT (filter c'))
                              (INV_ICM42600_GYRO_ACCEL_CONFIG0_GYRO_FILT
                                 (filter (gyro (conf (st w))))))) in
  (fs c' =? fs old) && (odr c' =? odr old) = false ->
  filter c' <> filter old ->
  hw_ret (trace w) w1 = 0 ->
  hw_ret (trace w ++ [w1]) w2 = r -> r <> 0 ->
  let res := inv_icm42600_set_accel_conf c sleep_ms w in
  ret_code (fst res) = r /\
  out_sleep (fst res) = sleep_ms /\
  events_since w (snd res) = [w1; w2] /\
  fs (accel (conf (st (snd res)))) = fs c' /\
  odr (accel (conf (st (snd res)))) = odr c' /\
  filter (accel (conf (st (snd res)))) = filter old /\
  mode (accel (conf (st (snd res)))) = mode old /\
  gyro (conf (st (snd res))) = gyro (conf (st w)) /\
  temp_en (conf (st (snd res))) = temp_en (conf (st w)).
Proof.
  intros old c' w1 w2 D Nf R1 R2 Nr res. subst res.
  rewrite (set_accel_conf_filter_write_fails w c sleep_ms r D Nf R1 R2 Nr).
  fold old c' w1 w2.
  cbn [fst snd ret_code out_sleep st with_conf with_fs_odr conf accel gyro
       temp_en mode fs odr filter].
  destruct w as [s tr]. rewrite events_since_app. repeat split.
Qed.

Lemma set_pwr_mgmt0_error w g a t sl :
  fst (fst (inv_icm42600_set_pwr_mgmt0 g a t sl w)) <> 0 ->
  inv_icm42600_set_pwr_mgmt0 g a t sl w
  = ((hw_ret (trace w) (RegWrite INV_ICM42670_REG_PWR_MGMT0 (pwr_mgmt0_val g a)),
      sl),
     mk_world (st w)
              (trace w ++ [RegWrite INV_ICM42670_REG_PWR_MGMT0 (pwr_mgmt0_val g a)])).
Proof.
  destruct (pwr_changed (st w) g a t) eqn:E.
  - destruct (Z.eq_dec (hw_ret (trace w)
                 (RegWrite INV_ICM42670_REG_PWR_MGMT0 (pwr_mgmt0_val g a))) 0)
      as [F|F].
    + rewrite (set_pwr_mgmt0_ok w _ _ _ sl E F). cbn [fst]. congruence.
    + now rewrite (set_pwr_mgmt0_write_failed w _ _ _ sl E F).
  - rewrite (set_pwr_mgmt0_same w _ _ _ sl E). cbn [fst]. congruence.
Qed.

Ltac last_write :=
  cbn [app];
  first [ exists []; eexists _, _; split;
          [reflexivity | rewrite ?app_nil_r; reflexivity]
        | eexists [_], _, _; split; [reflexivity | reflexivity]
        | eexists [_; _], _, _; split; [reflexivity | reflexivity] ].

Ltac close_failed F :=
  right; apply failed_true in F; split; [exact F|]; split; [reflexivity|];
  repeat rewrite <- app_assoc; rewrite events_since_app; last_write.

Ltac write_step :=
  match goal with
  | |- context [failed (hw_ret ?h ?e)] =>
      let F := fresh "F" in
      destruct (failed (hw_ret h e)) eqn:F; go; rewrite ?F; go;
      [solve [close_failed F] | ]
  end.

Ltac cond_step :=
  match goal with
  | |- context [if ?b then _ else _] =>
      lazymatch b with
      | failed _ => fail
      | _ => destruct b; go
      end
  end.

Ltac pwr_error_step :=
  match goal with
  | |- context [inv_icm42600_set_pwr_mgmt0 ?g ?a ?t ?sl ?w] =>
      let E := fresh "E" in
      let Q := fresh "Q" in
      pose proof (set_pwr_mgmt0_error w g a t sl) as E;
      destruct (inv_icm42600_set_pwr_mgmt0 g a t sl w) as [[r sl'] w'] eqn:Q;
      try rewrite Q in E; clear Q; cbn [fst snd] in *;
      destruct (Z.eq_dec r 0) as [Z0|NZ]; [left; exact Z0 | right];
      specialize (E NZ); injection E as -> -> ->;
      split; [exact NZ|]; split; [reflexivity|];
      cbn [st trace]; repeat rewrite <- app_assoc; rewrite events_since_app;
      last_write
  end.

Lemma set_accel_conf_error_shape w c sleep_ms :
  let res := inv_icm42600_set_accel_conf c sleep_ms w in
  ret_code (fst res) = 0 \/ stopped_at_failed_write w sleep_ms res.
Proof.
  intros res. subst res. unfold stopped_at_failed_write, ret_code, out_sleep.
  destruct w as [s tr].
  unfold inv_icm42600_set_accel_conf. run.
  fold_resolved c (accel (conf s)).
  generalize (resolved c (accel (conf s))). intros c'.
  repeat first [ write_step | cond_step ]; pwr_error_step.
Qed.

Lemma set_gyro_conf_error_shape w c sleep_ms :
  let res := inv_icm42600_set_gyro_conf c sleep_ms w in
  ret_code (fst res) = 0 \/ stopped_at_failed_write w sleep_ms res.
Proof.
  intros res. subst res. unfold stopped_at_failed_write, ret_code, out_sleep.
  destruct w as [s tr].
  unfold inv_icm42600_set_gyro_conf. run.
  fold_resolved c (gyro (conf s)).
  generalize (resolved c (gyro (conf s))). intros c'.
  repeat first [ write_step | cond_step ]; pwr_error_step.
Qed.

(** X6: a configuration call fails only by a failed register write, and
    stops there.  Whenever the accel or the gyro call returns a non-zero
    code, the last call it made is a register write, the code is the one
    that write returned, and the caller's delay cell has not been written. *)
Theorem config_error_is_the_last_write w c sleep_ms :
  (ret_code (fst (inv_icm42600_set_accel_conf c sleep_ms w)) = 0 \/
   stopped_at_failed_write w sleep_ms (inv_icm42600_set_accel_conf c sleep_ms w)) /\
  (ret_code (fst (inv_icm42600_set_gyro_conf c sleep_ms w)) = 0 \/
   stopped_at_failed_write w sleep_ms (inv_icm42600_set_gyro_conf c sleep_ms w)).
Proof.
  split; [apply set_accel_conf_error_shape | apply set_gyro_conf_error_shape].
Qed.

(** ** Temperature *)

Lemma leaves_off_same m : leaves_off m m = false.
Proof. unfold leaves_off. now destruct (m =? INV_ICM42600_SENSOR_MODE_OFF). Qed.

Lemma enters_off_same m : enters_off m m = false.
Proof. unfold enters_off. now destruct (m =? INV_ICM42600_SENSOR_MODE_OFF). Qed.

(** X7: switching only the temperature sensor.  The register write it
    causes carries the two stored modes and nothing else (the value does not
    depend on the flag), both sensor configurations stay as they are, there
    is no bus-quiet window, and the delay is the temperature start-up time
    when enabling and zero when disabling. *)
Theorem set_temp_conf_touches_only_the_flag w enable cell :
  enable <> temp_en (conf (st w)) ->
  hw_ret (trace w)
         (RegWrite INV_ICM42670_REG_PWR_MGMT0
            (pwr_mgmt0_val (mode (gyro (conf (st w)))) (mode (accel (conf (st w))))))
  = 0 ->
  inv_icm42600_set_temp_conf enable (Some cell) w
  = ((0, Some (if enable then INV_ICM42600_TEMP_STARTUP_TIME_MS else 0%N)),
     mk_world (with_conf (st w) (mk_conf (gyro (conf (st w)))
                                          (accel (conf (st w))) enable))
              (trace w ++
               [RegWrite INV_ICM42670_REG_PWR_MGMT0
                  (pwr_mgmt0_val (mode (gyro (conf (st w))))
                                 (mode (accel (conf (st w)))))])).
Proof.
  intros N F. unfold inv_icm42600_set_temp_conf. run.
  assert (E : pwr_changed (st w) (mode (gyro (conf (st w))))
                (mode (accel (conf (st w)))) enable = true).
  { unfold pwr_changed. rewrite !Z.eqb_refl. cbn [andb].
    apply negb_true_iff. revert N.
    destruct enable, (temp_en (conf (st w))); cbn; congruence. }
  rewrite (set_pwr_mgmt0_ok w _ _ _ (Some cell) E F).
  unfold settle_delay, applicable_floors, quiet_windows, pwr_applied, newly_enabled.
  rewrite !leaves_off_same, enters_off_same, !with_mode_id.
  cbn [option_map inline_wait app max_floor fold_right]. revert N.
  destruct enable, (temp_en (conf (st w))); try congruence; intros _;
    cbn [andb negb app fold_right max_floor];
    rewrite ?N.max_0_r; reflexivity.
Qed.

(** ** Power lifecycle, continued *)

Lemma quiet_windows_pwr_events s g a : forallb is_pwr_event (quiet_windows s g a) = true.
Proof.
  unfold quiet_windows. destruct (leaves_off _ a), (leaves_off _ g); reflexivity.
Qed.

Lemma inline_wait_pwr_events sl d : forallb is_pwr_event (inline_wait sl d) = true.
Proof.
  unfold inline_wait. destruct sl; [reflexivity|]. destruct (d =? 0)%N; reflexivity.
Qed.

(** Every run of the mode controller, whatever the bus answers. *)
Lemma set_pwr_mgmt0_shape w g a t sl :
  exists r sl' s' ev,
    inv_icm42600_set_pwr_mgmt0 g a t sl w = ((r, sl'), mk_world s' (trace w ++ ev)) /\
    forallb is_pwr_event ev = true /\
    (r = 0 -> s' = pwr_applied (st w) g a t) /\
    (r <> 0 -> s' = st w).
Proof.
  destruct (pwr_changed (st w) g a t) eqn:E.
  - destruct (Z.eq_dec (hw_ret (trace w)
                 (RegWrite INV_ICM42670_REG_PWR_MGMT0 (pwr_mgmt0_val g a))) 0)
      as [F|F].
    + rewrite (set_pwr_mgmt0_ok w _ _ _ sl E F).
      eexists 0, _, _, _. split; [reflexivity|].
      cbn [forallb is_pwr_event andb].
      rewrite forallb_app, quiet_windows_pwr_events, inline_wait_pwr_events.
      repeat split; congruence.
    + rewrite (set_pwr_mgmt0_write_failed w _ _ _ sl E F).
      eexists _, _, _, _. split; [reflexivity|]. repeat split; congruence.
  - rewrite (set_pwr_mgmt0_same w _ _ _ sl E).
    exists 0, sl, (st w), []. rewrite app_nil_r.
    split; [now destruct w|]. split; [reflexivity|].
    split; [intros _; symmetry; now apply pwr_applied_same | congruence].
Qed.

Ltac pwr_shape :=
  match goal with
  | |- context [inv_icm42600_set_pwr_mgmt0 ?g ?a ?t ?sl ?w] =>
      let r := fresh "r" in let sl' := fresh "sl" in
      let s' := fresh "s" in let ev := fresh "ev" in
      let E := fresh "E" in let Pe := fresh "Pe" in
      let S0 := fresh "S0" in let S1 := fresh "S1" in
      destruct (set_pwr_mgmt0_shape w g a t sl)
        as (r & sl' & s' & ev & E & Pe & S0 & S1);
      rewrite E; clear E; go
  end.

(** X8: system suspend after runtime suspend is idempotent teardown: the
    mode triple is saved, nothing is asked of the hardware (no register
    access, no regulator call), the configuration is untouched and the call
    returns 0. *)
Theorem suspend_after_runtime_suspend_is_bookkeeping w :
  hw_rpm_suspended (trace w ++ [MutexLock]) = true ->
  inv_icm42600_suspend w
  = (0,
     mk_world (with_suspended (st w)
                 (mk_suspended (mode (gyro (conf (st w))))
                               (mode (accel (conf (st w))))
                               (temp_en (conf (st w)))))
              (trace w ++ [MutexLock; MutexUnlock])).
Proof.
  intros R. destruct w as [s tr]. cbn [st trace] in *.
  unfold inv_icm42600_suspend. run. rewrite R. go.
  now rewrite <- app_assoc.
Qed.

Lemma pwr_event_not_other ev e :
  forallb is_pwr_event ev = true -> is_pwr_event e = false -> ~ In e ev.
Proof.
  intros F N I. rewrite forallb_forall in F. specialize (F _ I). congruence.
Qed.

Lemma pwr_event_not_regulator ev r :
  forallb is_pwr_event ev = true -> ~ In (RegulatorDisable r) ev.
Proof. intros F. now apply pwr_event_not_other. Qed.

Lemma pwr_event_not_lock ev :
  forallb is_pwr_event ev = true ->
  forallb (fun e => negb (is_lock_event e)) ev = true.
Proof.
  intros F. rewrite forallb_forall in *. intros e I. specialize (F e I).
  now destruct e.
Qed.

Lemma frame_eq {A} (r : A) s X tr mid :
  X = tr ++ MutexLock :: mid ->
  (r, mk_world s (X ++ [MutexUnlock]))
  = (r, mk_world s ((tr ++ MutexLock :: mid) ++ [MutexUnlock])).
Proof. now intros ->. Qed.

Ltac framed :=
  eexists _, _, _; split;
  [ apply frame_eq; repeat rewrite <- app_assoc; cbn [app]; reflexivity | ].

Ltac no_lock Pe :=
  cbn [forallb is_lock_event negb andb];
  rewrite ?forallb_app; cbn [forallb is_lock_event negb andb];
  rewrite ?(pwr_event_not_lock _ Pe); reflexivity.

Ltac bus_step :=
  match goal with
  | |- context [failed (hw_ret ?h ?e)] =>
      let F := fresh "F" in
      destruct (failed (hw_ret h e)) eqn:F; go; rewrite ?F; go
  end.

Ltac ret_step r :=
  let F := fresh "F" in destruct (failed r) eqn:F; go.

Lemma suspend_shape w :
  exists r s' mid,
    inv_icm42600_suspend w
    = (r, mk_world s' ((trace w ++ MutexLock :: mid) ++ [MutexUnlock])) /\
    forallb (fun e => negb (is_lock_event e)) mid = true /\
    (In (RegulatorDisable Vddio) mid <->
     r = 0 /\ hw_rpm_suspended (trace w ++ [MutexLock]) = false) /\
    (forall x, ~ In (RegulatorEnable x) mid) /\
    suspended s' = mk_suspended (mode (gyro (conf (st w))))
                                (mode (accel (conf (st w))))
                                (temp_en (conf (st w))) /\
    (r <> 0 -> conf s' = conf (st w)).
Proof.
  destruct w as [s tr]. unfold inv_icm42600_suspend. run.
  destruct (hw_rpm_suspended (tr ++ [MutexLock])); go;
    [ | destruct (fifo_on s); go; [bus_step|]; [ | pwr_shape; ret_step r ..] ].
  all: framed.
  all: try (apply failed_true in F0); try (apply failed_false in F0);
       try (apply failed_true in F); try (apply failed_false in F).
  all: try pose proof (pwr_event_not_regulator _ Vddio Pe) as NR.
  all: split; [ first [ no_lock Pe | reflexivity ] | ].
  all: split; [ cbn [In]; rewrite ?in_app_iff; cbn [In];
                try solve [ intuition (try discriminate; try congruence) ] | ].
  all: split; [ intros x; cbn [In]; rewrite ?in_app_iff; cbn [In];
                try pose proof (pwr_event_not_other ev (RegulatorEnable x) Pe eq_refl);
                try solve [ intuition (try discriminate; try congruence) ] | ].
  all: try (rewrite (S0 F0) in * ); try (rewrite (S1 F0) in * );
       try (rewrite (S0 F) in * ); try (rewrite (S1 F) in * ).
  all: cbn [pwr_applied with_conf with_suspended suspended conf st].
  all: intuition (try discriminate; try congruence).
Qed.

Lemma runtime_suspend_shape w :
  exists r s' mid,
    inv_icm42600_runtime_suspend w
    = (r, mk_world s' ((trace w ++ MutexLock :: mid) ++ [MutexUnlock])) /\
    forallb (fun e => negb (is_lock_event e)) mid = true /\
    (In (RegulatorDisable Vddio) mid <-> r = 0) /\
    (forall x, ~ In (RegulatorEnable x) mid) /\
    (r = 0 -> s' = pwr_applied (st w) INV_ICM42600_SENSOR_MODE_OFF
                               INV_ICM42600_SENSOR_MODE_OFF false) /\
    (r <> 0 -> s' = st w).
Proof.
  destruct w as [s tr]. unfold inv_icm42600_runtime_suspend. run.
  pwr_shape; ret_step r.
  all: framed.
  all: try (apply failed_true in F); try (apply failed_false in F).
  all: pose proof (pwr_event_not_regulator _ Vddio Pe) as NR.
  all: split; [ no_lock Pe | ].
  all: split; [ cbn [In]; rewrite ?in_app_iff; cbn [In];
                try solve [ intuition (try discriminate; try congruence) ] | ].
  all: split; [ intros x; cbn [In]; rewrite ?in_app_iff; cbn [In];
                try pose proof (pwr_event_not_other ev (RegulatorEnable x) Pe eq_refl);
                try solve [ intuition (try discriminate; try congruence) ] | ].
  all: cbn [st] in *; intuition (try discriminate; try congruence).
Qed.

Lemma runtime_resume_eq w :
  let r := hw_ret (trace w ++ [MutexLock]) (RegulatorEnable Vddio) in
  inv_icm42600_runtime_resume w
  = (r, mk_world (st w)
          ((trace w ++ MutexLock :: RegulatorEnable Vddio
            :: (if r =? 0 then [USleepRange 3000 4000] else []))
           ++ [MutexUnlock])).
Proof.
  intros r. subst r. destruct w as [s tr].
  unfold inv_icm42600_runtime_resume, inv_icm42600_enable_regulator_vddio. run.
  unfold failed.
  destruct (hw_ret (tr ++ [MutexLock]) (RegulatorEnable Vddio) =? 0) eqn:E; go.
  - apply Z.eqb_eq in E. rewrite E. apply frame_eq.
    repeat rewrite <- app_assoc. reflexivity.
  - apply frame_eq. repeat rewrite <- app_assoc. reflexivity.
Qed.

Lemma resume_shape w :
  exists r s' mid,
    inv_icm42600_resume w
    = (r, mk_world s' ((trace w ++ MutexLock :: RegulatorEnable Vddio :: mid)
                       ++ [MutexUnlock])) /\
    forallb (fun e => negb (is_lock_event e)) mid = true /\
    (forall x, ~ In (RegulatorDisable x) mid) /\
    (hw_ret (trace w ++ [MutexLock]) (RegulatorEnable Vddio) <> 0 ->
     r = hw_ret (trace w ++ [MutexLock]) (RegulatorEnable Vddio) /\
     s' = st w /\ mid = []).
Proof.
  destruct w as [s tr].
  unfold inv_icm42600_resume, inv_icm42600_enable_regulator_vddio. run.
  bus_step.
  { eexists _, _, _. split.
    - apply frame_eq. repeat rewrite <- app_assoc. cbn [app]. reflexivity.
    - cbn [forallb In]. intuition. }
  pwr_shape; ret_step r.
  2: destruct (fifo_on s0); go.
  all: eexists _, _, _; split;
    [ apply frame_eq; repeat rewrite <- app_assoc; cbn [app]; reflexivity | ].
  all: apply failed_false in F.
  all: split; [ no_lock Pe | ].
  all: split; [ intros x; cbn [In]; rewrite ?in_app_iff; cbn [In];
                pose proof (pwr_event_not_other ev (RegulatorDisable x) Pe eq_refl);
                intuition (try discriminate; try congruence) | ].
  all: intros X; congruence.
Qed.

(** ** Interrupt pipeline, continued *)

Lemma irq_handler_shape w :
  exists mid,
    inv_icm42600_irq_handler w
    = (IRQ_HANDLED,
       mk_world (st w) ((trace w ++ MutexLock :: mid) ++ [MutexUnlock])) /\
    forallb (fun e => negb (is_lock_event e)) mid = true /\
    bus_writes mid = [] /\
    List.filter is_push mid
    = if record_due w then [PushToBuffers (drdy_record w)] else [].
Proof.
  destruct w as [s tr].
  unfold inv_icm42600_irq_handler, record_due, drdy_record, push_history,
    burst_history, drdy_history. run. cbn [st trace].
  unfold failed.
  repeat match goal with
         | |- context [if ?b then _ else _] =>
             lazymatch b with
             | andb _ _ => fail
             | negb ?c => destruct c eqn:?; go
             | _ => destruct b eqn:?; go
             end
         end.
  all: eexists; split;
    [ apply frame_eq; repeat rewrite <- app_assoc; cbn [app]; reflexivity | ].
  all: cbn [forallb is_lock_event negb andb bus_writes List.filter is_bus_write
            is_push List.map].
  all: repeat rewrite <- app_assoc; cbn [app]; repeat split.
Qed.

Lemma events_of_frame s tr s' mid :
  events_since (mk_world s tr)
               (mk_world s' ((tr ++ MutexLock :: mid) ++ [MutexUnlock]))
  = MutexLock :: mid ++ [MutexUnlock].
Proof. rewrite <- app_assoc. apply events_since_app. Qed.

Lemma in_frame e mid :
  is_lock_event e = false ->
  (In e (MutexLock :: mid ++ [MutexUnlock]) <-> In e mid).
Proof.
  intros N. cbn [In]. rewrite in_app_iff. cbn [In].
  split; [intros [X|[X|[X|[]]]]; subst; try discriminate; exact X | tauto].
Qed.

(** X9: the I/O rail is switched off only by a teardown that worked.  The
    trace of system suspend contains the disable of the I/O supply exactly
    when it returns 0 and runtime suspend had not already run; the trace of
    runtime suspend contains it exactly when it returns 0.  Neither ever
    enables a supply. *)
Theorem rail_is_disabled_only_on_success w :
  (In (RegulatorDisable Vddio) (events_since w (snd (inv_icm42600_suspend w))) <->
   fst (inv_icm42600_suspend w) = 0 /\
   hw_rpm_suspended (trace w ++ [MutexLock]) = false) /\
  (In (RegulatorDisable Vddio)
      (events_since w (snd (inv_icm42600_runtime_suspend w))) <->
   fst (inv_icm42600_runtime_suspend w) = 0) /\
  (forall x,
     ~ In (RegulatorEnable x) (events_since w (snd (inv_icm42600_suspend w))) /\
     ~ In (RegulatorEnable x)
          (events_since w (snd (inv_icm42600_runtime_suspend w)))).
Proof.
  destruct (suspend_shape w) as (r & s' & mid & E & _ & R & NE & _).
  destruct (runtime_suspend_shape w) as (r' & s'' & mid' & E' & _ & R' & NE' & _).
  rewrite E, E'. cbn [fst snd]. destruct w as [s tr]. cbn [trace] in *.
  rewrite !events_of_frame.
  split; [|split].
  - now rewrite in_frame.
  - now rewrite in_frame.
  - intros x. rewrite !in_frame by reflexivity. split; [apply NE | apply NE'].
Qed.

(** X10: when the I/O supply cannot be enabled, system resume gives up at
    once: it returns the regulator's code, makes no runtime-PM call and no
    register access, and leaves the driver state as it is.  Runtime resume
    behaves the same. *)
Theorem resume_stops_when_the_rail_fails w :
  hw_ret (trace w ++ [MutexLock]) (RegulatorEnable Vddio) <> 0 ->
  inv_icm42600_resume w
  = (hw_ret (trace w ++ [MutexLock]) (RegulatorEnable Vddio),
     mk_world (st w)
              (trace w ++ [MutexLock; RegulatorEnable Vddio; MutexUnlock])) /\
  inv_icm42600_runtime_resume w
  = (hw_ret (trace w ++ [MutexLock]) (RegulatorEnable Vddio),
     mk_world (st w)
              (trace w ++ [MutexLock; RegulatorEnable Vddio; MutexUnlock])).
Proof.
  intros F. split.
  - destruct (resume_shape w) as (r & s' & mid & E & _ & _ & X).
    destruct (X F) as (-> & -> & ->). rewrite E.
    now rewrite <- app_assoc.
  - rewrite runtime_resume_eq. apply Z.eqb_neq in F. rewrite F.
    now rewrite <- app_assoc.
Qed.

(** X11: runtime resume does not bring the sensors back.  With every
    hardware call succeeding, runtime suspend followed by runtime resume
    leaves both sensors Off and temperature disabled, keeps full scale, rate
    and filter of both, and the resume half touches neither the bus nor the
    driver state. *)
Theorem runtime_resume_leaves_sensors_off w :
  (forall h e, hw_ret h e = 0) ->
  let r1 := inv_icm42600_runtime_suspend w in
  let r2 := inv_icm42600_runtime_resume (snd r1) in
  fst r1 = 0 /\ fst r2 = 0 /\
  st (snd r2) = st (snd r1) /\
  List.filter is_bus_access (events_since (snd r1) (snd r2)) = [] /\
  conf (st (snd r2))
  = mk_conf (with_mode (gyro (conf (st w))) INV_ICM42600_SENSOR_MODE_OFF)
            (with_mode (accel (conf (st w))) INV_ICM42600_SENSOR_MODE_OFF)
            false.
Proof.
  intros OK r1 r2. subst r2 r1.
  destruct (runtime_suspend_shape w) as (r & s' & mid & E & _ & _ & _ & S0 & _).
  assert (R : r = 0).
  { destruct w as [s tr]. revert E.
    unfold inv_icm42600_runtime_suspend. run.
    destruct (set_pwr_mgmt0_healthy_writes (mk_world s (tr ++ [MutexLock]))
                INV_ICM42600_SENSOR_MODE_OFF INV_ICM42600_SENSOR_MODE_OFF
                false None OK) as (ev & Q & _).
    rewrite Q. go. intros X. now injection X. }
  subst r. rewrite E, (S0 eq_refl). cbn [fst snd].
  rewrite runtime_resume_eq. cbn [fst snd st trace]. rewrite OK.
  cbn [Z.eqb]. rewrite events_of_frame.
  repeat split.
Qed.

(** X12: the device lock is taken first, released last and not touched in
    between, on every path (error paths included) of system suspend and
    resume, runtime suspend and resume, the deferred interrupt phase and the
    debug register access.  The fast interrupt phase does not touch it. *)
Theorem lock_is_always_released w reg writeval readval :
  holds_lock_throughout (events_since w (snd (inv_icm42600_suspend w))) /\
  holds_lock_throughout (events_since w (snd (inv_icm42600_resume w))) /\
  holds_lock_throughout (events_since w (snd (inv_icm42600_runtime_suspend w))) /\
  holds_lock_throughout (events_since w (snd (inv_icm42600_runtime_resume w))) /\
  holds_lock_throughout (events_since w (snd (inv_icm42600_irq_handler w))) /\
  holds_lock_throughout
    (events_since w (snd (inv_icm42600_debugfs_reg reg writeval readval w))) /\
  forallb (fun e => negb (is_lock_event e))
          (events_since w (snd (inv_icm42600_irq_timestamp w))) = true.
Proof.
  destruct (suspend_shape w) as (? & ? & m1 & E1 & L1 & _).
  destruct (resume_shape w) as (? & ? & m2 & E2 & L2 & _).
  destruct (runtime_suspend_shape w) as (? & ? & m3 & E3 & L3 & _).
  destruct (irq_handler_shape w) as (m5 & E5 & L5 & _).
  rewrite E1, E2, E3, E5, runtime_resume_eq, irq_timestamp_run.
  cbn [snd]. destruct w as [s tr]. cbn [st trace].
  rewrite !events_of_frame, events_since_app.
  unfold holds_lock_throughout.
  split; [eexists; split; [reflexivity | exact L1] |].
  split; [eexists; split; [reflexivity |
            cbn [forallb is_lock_event negb andb]; exact L2] |].
  split; [eexists; split; [reflexivity | exact L3] |].
  split; [eexists; split; [reflexivity | destruct (_ =? 0); reflexivity] |].
  split; [eexists; split; [reflexivity | exact L5] |].
  split; [| reflexivity].
  unfold inv_icm42600_debugfs_reg. run.
  destruct readval; go; rewrite <- !app_assoc, events_since_app;
    (eexists [_]; split; reflexivity).
Qed.

(** X13: what the deferred interrupt phase does and does not do.  It always
    returns IRQ_HANDLED and never changes the driver state or writes a
    register.  It pushes at most one record: exactly when the status read
    succeeded with a non-zero value, the burst read succeeded, the IIO device
    exists and its buffer is enabled; in every other case (status clear, read
    error, buffer off) nothing is pushed. *)
Theorem irq_handler_pushes_iff_record_due w :
  let res := inv_icm42600_irq_handler w in
  fst res = IRQ_HANDLED /\
  st (snd res) = st w /\
  bus_writes (events_since w (snd res)) = [] /\
  List.filter is_push (events_since w (snd res))
  = if record_due w then [PushToBuffers (drdy_record w)] else [].
Proof.
  intros res. subst res.
  destruct (irq_handler_shape w) as (mid & E & _ & W & Pu).
  rewrite E. cbn [fst snd st]. destruct w as [s tr].
  rewrite events_of_frame.
  change (MutexLock :: mid ++ [MutexUnlock])
    with ([MutexLock] ++ mid ++ [MutexUnlock]).
  rewrite !bus_writes_app, !filter_app, W, Pu.
  cbn [bus_writes List.filter is_bus_write is_push app].
  rewrite app_nil_r. repeat split.
Qed.

End FurtherProperties.

(** X14: decoding is the inverse of the chip's encoding.  For six samples
    in the signed 16-bit range sent as twelve bytes, two's complement and low
    byte first, the six channels the deferred phase computes are the six
    samples, accel first. *)
Theorem burst_decode_round_trip (v0 v1 v2 v3 v4 v5 : Z) :
  Forall (fun v => - 2 ^ 15 <= v < 2 ^ 15) [v0; v1; v2; v3; v4; v5] ->
  let data := List.map to_u8 (flat_map le16 [v0; v1; v2; v3; v4; v5]) in
  List.map (sample16 data) [0; 2; 4; 6; 8; 10]%nat = [v0; v1; v2; v3; v4; v5].
Proof.
  intros F data.
  assert (D : data = flat_map le16 [v0; v1; v2; v3; v4; v5]).
  { subst data. cbn [flat_map le16 app List.map]. unfold to_u8.
    change (2 ^ 8) with 256. now rewrite !Z.mod_mod by lia. }
  rewrite D. clear D data.
  repeat match goal with
         | X : Forall _ (_ :: _) |- _ => inversion X; clear X; subst
         end.
  cbn [List.map flat_map].
  pose proof (sample16_le16 v0 [] (le16 v1 ++ le16 v2 ++ le16 v3 ++ le16 v4 ++ le16 v5 ++ [])) as E0.
  pose proof (sample16_le16 v1 (le16 v0) (le16 v2 ++ le16 v3 ++ le16 v4 ++ le16 v5 ++ [])) as E1.
  pose proof (sample16_le16 v2 (le16 v0 ++ le16 v1) (le16 v3 ++ le16 v4 ++ le16 v5 ++ [])) as E2.
  pose proof (sample16_le16 v3 (le16 v0 ++ le16 v1 ++ le16 v2) (le16 v4 ++ le16 v5 ++ [])) as E3.
  pose proof (sample16_le16 v4 (le16 v0 ++ le16 v1 ++ le16 v2 ++ le16 v3) (le16 v5 ++ [])) as E4.
  pose proof (sample16_le16 v5 (le16 v0 ++ le16 v1 ++ le16 v2 ++ le16 v3 ++ le16 v4) []) as E5.
  repeat rewrite <- app_assoc in *. cbn [List.length app le16] in *.
  rewrite E0, E1, E2, E3, E4, E5 by assumption. reflexivity.
Qed.

Section BringUpProperties.
Context {H : Header} {P : Platform}.

(** ** Bring-up, continued *)

Lemma set_conf_healthy w c :
  (forall h e, hw_ret h e = 0) ->
  inv_icm42600_set_conf c w
  = (0, mk_world (with_conf (st w) c) (trace w ++ set_conf_writes c)).
Proof.
  intros OK. destruct w as [s tr].
  unfold inv_icm42600_set_conf, set_conf_writes, pwr_mgmt0_val. run.
  steps OK. now rewrite <- !app_assoc.
Qed.

(** X15: a bring-up that meets a healthy chip.  When every call succeeds,
    the identity register holds the value expected for the chip and the
    status read after the reset shows the reset-done bit, bring-up returns 0,
    records the chip name, stores the chip's default configuration and has
    made, in this order: the identity read, the soft reset, the reset wait,
    the status read, the endianness update and the three configuration
    writes. *)
Theorem setup_on_a_healthy_chip w :
  (forall h e, hw_ret h e = 0) ->
  to_uint (hw_val (trace w) INV_ICM42600_REG_WHOAMI)
  = whoami (inv_icm42600_hw (chip (st w))) ->
  Z.land (to_uint (hw_val (trace w ++ firstn 3 setup_prologue)
                          INV_ICM42670_REG_INT_STATUS))
         INV_ICM42600_INT_STATUS_RESET_DONE <> 0 ->
  let hw := inv_icm42600_hw (chip (st w)) in
  inv_icm42600_setup w
  = (0, mk_world (with_conf (with_name (st w) (hw_name hw)) (hw_conf hw))
                 (trace w ++ setup_prologue ++ set_conf_writes (hw_conf hw))).
Proof.
  intros OK Id Rd hw. subst hw. destruct w as [s tr]. cbn [st trace] in *.
  unfold inv_icm42600_setup, setup_prologue in *. cbn [firstn] in Rd. run.
  steps OK. rewrite Id, Z.eqb_refl. steps OK.
  repeat rewrite <- app_assoc. cbn [app].
  apply Z.eqb_neq in Rd. rewrite Rd. steps OK.
  rewrite (set_conf_healthy _ _ OK). cbn [st trace].
  repeat rewrite <- app_assoc. reflexivity.
Qed.

(** X16: a chip that does not come out of reset.  When the identity matches
    and the soft reset is written, but the status read after the wait does
    not show the reset-done bit, bring-up returns [-ENODEV]; it has written
    the reset and nothing after it (no endianness update, no configuration
    write), the stored configuration is unchanged, and the chip name is
    already recorded. *)
Theorem setup_reset_not_done w :
  hw_ret (trace w) (RegRead INV_ICM42600_REG_WHOAMI) = 0 ->
  to_uint (hw_val (trace w) INV_ICM42600_REG_WHOAMI)
  = whoami (inv_icm42600_hw (chip (st w))) ->
  hw_ret (trace w ++ firstn 1 setup_prologue) (nth 1 setup_prologue DevErr) = 0 ->
  hw_ret (trace w ++ firstn 3 setup_prologue) (nth 3 setup_prologue DevErr) = 0 ->
  Z.land (to_uint (hw_val (trace w ++ firstn 3 setup_prologue)
                          INV_ICM42670_REG_INT_STATUS))
         INV_ICM42600_INT_STATUS_RESET_DONE = 0 ->
  inv_icm42600_setup w
  = (- ENODEV,
     mk_world (with_name (st w) (hw_name (inv_icm42600_hw (chip (st w)))))
              (trace w ++ firstn 4 setup_prologue ++ [DevErr])).
Proof.
  intros R1 Id R2 R3 Rd. destruct w as [s tr]. cbn [st trace] in *.
  unfold inv_icm42600_setup, setup_prologue in *. cbn [firstn nth] in *. run.
  rewrite R1. go. rewrite Id, Z.eqb_refl. go. rewrite R2. go.
  repeat rewrite <- app_assoc. cbn [app]. rewrite R3. go.
  rewrite Rd. cbn [Z.eqb]. go.
  repeat rewrite <- app_assoc. reflexivity.
Qed.

Lemma set_conf_conf_change w c :
  let res := inv_icm42600_set_conf c w in
  (fst res = 0 /\ st (snd res) = with_conf (st w) c) \/
  (fst res <> 0 /\ st (snd res) = st w).
Proof.
  intros res. subst res. destruct w as [s tr].
  unfold inv_icm42600_set_conf. run.
  repeat match goal with
         | |- context [failed ?r] =>
             let F := fresh "F" in
             destruct (failed r) eqn:F; go;
             [ right; apply failed_true in F; now split | ]
         end.
  left. now split.
Qed.

(** X17: bring-up changes the stored configuration only when it succeeds.
    On every run of [inv_icm42600_setup], whatever the bus answers, either
    the stored configuration is what it was, or the call returned 0 and the
    stored configuration is the default one of the chip; the other fields of
    the state, the chip name apart, are never touched. *)
Theorem setup_changes_conf_only_on_success w :
  let res := inv_icm42600_setup w in
  let hw := inv_icm42600_hw (chip (st w)) in
  (conf (st (snd res)) = conf (st w) \/
   (fst res = 0 /\ conf (st (snd res)) = hw_conf hw /\
    name (st (snd res)) = hw_name hw)) /\
  chip (st (snd res)) = chip (st w) /\
  suspended (st (snd res)) = suspended (st w) /\
  fifo_on (st (snd res)) = fifo_on (st w) /\
  timestamp (st (snd res)) = timestamp (st w) /\
  indio_dev (st (snd res)) = indio_dev (st w).
Proof.
  intros res hw. subst res hw. destruct w as [s tr].
  unfold inv_icm42600_setup. run.
  repeat match goal with
         | |- context [if ?b then _ else _] =>
             destruct b eqn:?; go; [solve [repeat split; auto] | ]
         end.
  match goal with
  | |- context [inv_icm42600_set_conf ?c ?w] =>
      destruct (set_conf_conf_change w c) as [(A & B) | (A & B)];
      cbv zeta in A, B; rewrite B; cbn [st]
  end.
  - cbn [with_conf with_name conf name chip suspended fifo_on timestamp indio_dev].
    repeat split; auto.
  - cbn [with_name conf name chip suspended fifo_on timestamp indio_dev].
    repeat split; auto.
Qed.

(** X18: the stored configuration never carries the sentinel.  Whatever the
    request and whatever the bus answers, [conf_valid] is kept by the accel,
    gyro and temperature calls, and by the mode controller when it is given
    non-negative modes. *)
Theorem configuration_stays_valid w c enable gyro_mode accel_mode temp sleep_ms :
  conf_valid (st w) ->
  conf_valid (st (snd (inv_icm42600_set_accel_conf c sleep_ms w))) /\
  conf_valid (st (snd (inv_icm42600_set_gyro_conf c sleep_ms w))) /\
  conf_valid (st (snd (inv_icm42600_set_temp_conf enable sleep_ms w))) /\
  (0 <= gyro_mode -> 0 <= accel_mode ->
   conf_valid (st (snd (inv_icm42600_set_pwr_mgmt0 gyro_mode accel_mode temp
                                                   sleep_ms w)))).
Proof.
  intros V.
  split; [now apply set_accel_conf_keeps_valid|].
  split; [now apply set_gyro_conf_keeps_valid|].
  assert (G : forall g a t, 0 <= g -> 0 <= a ->
    conf_valid (st (snd (inv_icm42600_set_pwr_mgmt0 g a t sleep_ms w)))).
  { intros g a t Hg Ha.
    destruct (set_pwr_mgmt0_state w g a t sleep_ms) as [-> | ->]; [exact V|].
    destruct V as ((? & ? & ? & ?) & (? & ? & ? & ?)).
    unfold conf_valid, no_sentinel, pwr_applied.
    cbn [with_conf with_mode conf gyro accel mode fs odr filter]. lia. }
  split.
  - unfold inv_icm42600_set_temp_conf. run.
    destruct V as (Vg & Va). apply G; [apply Vg | apply Va].
  - apply G.
Qed.

End BringUpProperties.

(** X19: the rate table.  For an index below sixteen the period is positive
    exactly when the index is not one of the three reserved values; it
    always fits 32 bits; and from 8 kHz (index 3) to 1.5625 Hz (index 14)
    the period grows with the index. *)
Theorem odr_to_period_table odr :
  0 <= odr < 16 ->
  (0 < inv_icm42600_odr_to_period odr <-> 3 <= odr) /\
  0 <= inv_icm42600_odr_to_period odr < 2 ^ 32 /\
  (3 <= odr < 14 ->
   inv_icm42600_odr_to_period odr < inv_icm42600_odr_to_period (odr + 1)).
Proof.
  intros R.
  assert (E : In odr [0; 1; 2; 3; 4; 5; 6; 7; 8; 9; 10; 11; 12; 13; 14; 15])
    by (cbn [In]; lia).
  cbn [In] in E.
  repeat (destruct E as [<- | E]; [vm_compute; intuition (try discriminate; try lia) | ]).
  destruct E.
Qed.


(** ** Attach *)

Lemma core_trace_app l1 l2 : core_trace (l1 ++ l2) = core_trace l1 ++ core_trace l2.
Proof. unfold core_trace. apply flat_map_app. Qed.

Lemma core_trace_cores ev : core_trace (List.map Core ev) = ev.
Proof. induction ev as [|e ev IH]; simpl; congruence. Qed.

Lemma lift_frame {A} (m : M A) s o d l a s' ev :
  m (mk_world s (core_trace l)) = (a, mk_world s' (core_trace l ++ ev)) ->
  lift m (mk_pw s o d l) = (a, mk_pw s' o d (l ++ List.map Core ev)).
Proof.
  intros E. unfold lift. cbn [drv plog orientation devres]. rewrite E.
  cbn [st trace]. now rewrite skipn_length_app.
Qed.

Section AttachProperties.

Context {H : Header} {H2 : ProbeHeader} {P : Platform} {K : Kernel}.

Lemma lift_call e s o d l :
  lift (call e) (mk_pw s o d l)
  = (hw_ret (core_trace l) e, mk_pw s o d (l ++ [Core e])).
Proof. now apply (lift_frame (call e) s o d l _ s [e]). Qed.

Lemma lift_emit e s o d l :
  lift (emit e) (mk_pw s o d l) = (tt, mk_pw s o d (l ++ [Core e])).
Proof. now apply (lift_frame (emit e) s o d l _ s [e]). Qed.

Ltac prun :=
  cbv beta iota zeta delta
    [pbind pret plog_get pemit set_drv get_drv set_orientation register
     kcall kcall_ptr];
  cbn [drv orientation devres plog fst snd].

Ltac lifted :=
  unfold regmap_write, regmap_update_bits, regulator_enable, regulator_disable,
         msleep, usleep_range, dev_err;
  rewrite ?lift_call, ?lift_emit; prun.

(** X20: the interrupt is requested only once the pin is configured.  The
    interrupt set-up writes the pin configuration, then clears the async
    reset bit, then requests the threaded interrupt for the line and the
    trigger type it was given.  When the write returns a non-zero code it is
    the only call made and that code is returned; when the write returns 0
    and the update a non-zero code, these two are the only calls and the
    code of the update is returned; the request is made exactly when both
    returned 0, and its result is then the result of the set-up.  The driver
    state and the registered teardown actions are not touched.  The value
    written is active high for the rising edge and the high level, active
    low for any other trigger type; latched for the two levels; push-pull
    unless the line is open drain. *)
Theorem irq_init_requests_irq_last pw irq irq_type open_drain :
  let res := inv_icm42600_irq_init irq irq_type open_drain pw in
  exists v,
    let w1 := Core (RegWrite INV_ICM42670_REG_INT_CONFIG v) in
    let w2 := Core (RegUpdateBits INV_ICM42600_REG_INT_CONFIG1
                                  INV_ICM42600_INT_CONFIG1_ASYNC_RESET 0) in
    let rq := DevmRequestThreadedIrq irq irq_type in
    let c1 := hw_ret (core_trace (plog pw))
                     (RegWrite INV_ICM42670_REG_INT_CONFIG v) in
    let c2 := hw_ret (core_trace (plog pw)
                      ++ [RegWrite INV_ICM42670_REG_INT_CONFIG v])
                     (RegUpdateBits INV_ICM42600_REG_INT_CONFIG1
                                    INV_ICM42600_INT_CONFIG1_ASYNC_RESET 0) in
    let pp x := if open_drain then x
                else to_uint (Z.lor x INV_ICM42600_INT_CONFIG_INT1_PUSH_PULL) in
    let high := to_uint INV_ICM42600_INT_CONFIG_INT1_ACTIVE_HIGH in
    let low := to_uint INV_ICM42600_INT_CONFIG_INT1_ACTIVE_LOW in
    let latched x := to_uint (Z.lor x INV_ICM42600_INT_CONFIG_INT1_LATCHED) in
    drv (snd res) = drv pw /\ devres (snd res) = devres pw /\
    orientation (snd res) = orientation pw /\
    ((c1 <> 0 /\ plog (snd res) = plog pw ++ [w1] /\
      fst res = c1 /\ fst res <> 0) \/
     (c1 = 0 /\ c2 <> 0 /\ plog (snd res) = plog pw ++ [w1; w2] /\
      fst res = c2 /\ fst res <> 0) \/
     (c1 = 0 /\ c2 = 0 /\ plog (snd res) = plog pw ++ [w1; w2; rq] /\
      fst res = k_ret (plog pw ++ [w1; w2]) rq)) /\
    (irq_type <> IRQF_TRIGGER_RISING -> irq_type <> IRQF_TRIGGER_HIGH ->
     irq_type <> IRQF_TRIGGER_LOW ->
     v = pp low) /\
    (irq_type = IRQF_TRIGGER_HIGH -> v = pp (latched high)) /\
    (irq_type = IRQF_TRIGGER_RISING -> irq_type <> IRQF_TRIGGER_HIGH ->
     irq_type <> IRQF_TRIGGER_LOW ->
     v = pp high) /\
    (irq_type = IRQF_TRIGGER_LOW -> irq_type <> IRQF_TRIGGER_RISING ->
     irq_type <> IRQF_TRIGGER_HIGH ->
     v = pp (latched low)).
Proof.
  intros res. subst res. destruct pw as [s o d l].
  unfold inv_icm42600_irq_init.
  match goal with
  | |- context [lift (regmap_write _ ?v)] => exists v; set (val := v)
  end.
  cbv zeta. prun. lifted.
  split; [|split; [|split; [|split]]].
  4:{ destruct (failed (hw_ret (core_trace l) _)) eqn:F1; prun.
      - left. apply failed_true in F1. repeat split; assumption.
      - lifted. apply failed_false in F1.
        destruct (failed (hw_ret (core_trace (l ++ _)) _)) eqn:F2; prun;
          [apply failed_true in F2 | apply failed_false in F2];
          rewrite core_trace_app in *;
          repeat match goal with
                 | |- context [core_trace [Core ?e]] =>
                     change (core_trace [Core e]) with [e]
                 | X : context [core_trace [Core ?e]] |- _ =>
                     change (core_trace [Core e]) with [e] in X
                 end;
          repeat rewrite <- app_assoc; cbn [app].
        + right; left. repeat split; assumption || reflexivity.
        + right; right. repeat split; assumption || reflexivity. }
  4:{ repeat split.
      - intros N1 N2 N3. subst val.
        apply Z.eqb_neq in N1, N2, N3. rewrite N1, N2, N3. cbn [orb].
        now destruct open_drain.
      - intros ->. subst val. rewrite Z.eqb_refl, !orb_true_r.
        now destruct open_drain.
      - intros E N2 N3. subst val.
        apply Z.eqb_neq in N2, N3. rewrite <- E in *.
        rewrite Z.eqb_refl, N2, N3. cbn [orb].
        now destruct open_drain.
      - intros E N1 N2. subst val.
        apply Z.eqb_neq in N1, N2. rewrite <- E in *.
        rewrite Z.eqb_refl, N1, N2. cbn [orb].
        now destruct open_drain. }
  all: destruct (failed (hw_ret (core_trace l) _)); prun; [reflexivity|];
       lifted; destruct (failed (hw_ret (core_trace (l ++ _)) _)); prun;
       reflexivity.
Qed.

Lemma lift_enable_vddio s o d l :
  lift inv_icm42600_enable_regulator_vddio (mk_pw s o d l)
  = let r := hw_ret (core_trace l) (RegulatorEnable Vddio) in
    if failed r
    then (r, mk_pw s o d (l ++ [Core (RegulatorEnable Vddio)]))
    else (0, mk_pw s o d (l ++ [Core (RegulatorEnable Vddio);
                                 Core (USleepRange 3000 4000)])).
Proof.
  cbv zeta. destruct (failed _) eqn:F.
  - apply (lift_frame _ s o d l _ s [RegulatorEnable Vddio]).
    unfold inv_icm42600_enable_regulator_vddio. run. now rewrite F.
  - apply (lift_frame _ s o d l _ s [RegulatorEnable Vddio; USleepRange 3000 4000]).
    unfold inv_icm42600_enable_regulator_vddio. run. rewrite F. go.
    now rewrite <- app_assoc.
Qed.

Lemma lift_disable_vdd_reg s o d l :
  lift inv_icm42600_disable_vdd_reg (mk_pw s o d l)
  = (tt, mk_pw s o d
           (l ++ Core (RegulatorDisable Vdd)
              :: (if failed (hw_ret (core_trace l) (RegulatorDisable Vdd))
                  then [Core DevErr] else []))).
Proof.
  destruct (failed _) eqn:F.
  - apply (lift_frame _ s o d l _ s [RegulatorDisable Vdd; DevErr]).
    unfold inv_icm42600_disable_vdd_reg. run. rewrite F. go.
    now rewrite <- app_assoc.
  - apply (lift_frame _ s o d l _ s [RegulatorDisable Vdd]).
    unfold inv_icm42600_disable_vdd_reg. run. now rewrite F.
Qed.

Lemma lift_disable_vddio_reg s o d l :
  lift inv_icm42600_disable_vddio_reg (mk_pw s o d l)
  = (tt, mk_pw s o d
           (l ++ Core (RegulatorDisable Vddio)
              :: (if failed (hw_ret (core_trace l) (RegulatorDisable Vddio))
                  then [Core DevErr] else []))).
Proof.
  destruct (failed _) eqn:F.
  - apply (lift_frame _ s o d l _ s [RegulatorDisable Vddio; DevErr]).
    unfold inv_icm42600_disable_vddio_reg. run. rewrite F. go.
    now rewrite <- app_assoc.
  - apply (lift_frame _ s o d l _ s [RegulatorDisable Vddio]).
    unfold inv_icm42600_disable_vddio_reg. run. now rewrite F.
Qed.

Lemma set_conf_frame w c :
  exists r s' ev,
    inv_icm42600_set_conf c w = (r, mk_world s' (trace w ++ ev)) /\
    quiet_rails ev = true /\
    (r = 0 -> s' = with_conf (st w) c).
Proof.
  destruct w as [s tr]. unfold inv_icm42600_set_conf. run.
  repeat match goal with
         | |- context [failed ?r] =>
             let F := fresh "F" in
             destruct (failed r) eqn:F; go;
             [ apply failed_true in F;
               repeat rewrite <- app_assoc in *; cbn [app] in *;
               eexists _, _, _; split; [reflexivity|];
               split; [reflexivity | congruence] | ]
         end.
  eexists _, _, _; split;
    [repeat rewrite <- app_assoc; cbn [app]; reflexivity|].
  split; [reflexivity | reflexivity].
Qed.

Lemma quiet_rails_app a b : quiet_rails (a ++ b) = quiet_rails a && quiet_rails b.
Proof. apply forallb_app. Qed.

Lemma setup_frame w :
  exists r s' ev,
    inv_icm42600_setup w = (r, mk_world s' (trace w ++ ev)) /\
    quiet_rails ev = true /\
    (ENODEV <> 0 -> r = 0 ->
     s' = with_conf (with_name (st w) (hw_name (inv_icm42600_hw (chip (st w)))))
                    (hw_conf (inv_icm42600_hw (chip (st w))))).
Proof.
  destruct w as [s tr]. unfold inv_icm42600_setup. run.
  repeat match goal with
         | |- context [if ?b then _ else _] =>
             let F := fresh "F" in
             destruct b eqn:F; go;
             [ try (apply failed_true in F);
               repeat rewrite <- app_assoc in *; cbn [app] in *;
               eexists _, _, _; split; [reflexivity|];
               split; [reflexivity|]; intros NZ Z0;
               try congruence; try lia | ]
         end.
  match goal with
  | |- context [inv_icm42600_set_conf ?c ?w] =>
      destruct (set_conf_frame w c) as (r & s' & ev & E & Q & S0);
      rewrite E; cbn [st trace] in *
  end.
  eexists _, _, _; split;
    [repeat rewrite <- app_assoc; cbn [app]; reflexivity|].
  split; [exact Q|]. intros _ Z0. now apply S0.
Qed.

Lemma lift_setup s o d l :
  exists r s' ev,
    lift inv_icm42600_setup (mk_pw s o d l)
    = (r, mk_pw s' o d (l ++ List.map Core ev)) /\
    quiet_rails ev = true /\
    (ENODEV <> 0 -> r = 0 ->
     s' = with_conf (with_name s (hw_name (inv_icm42600_hw (chip s))))
                    (hw_conf (inv_icm42600_hw (chip s)))).
Proof.
  destruct (setup_frame (mk_world s (core_trace l))) as (r & s' & ev & E & Q & S0).
  exists r, s', ev. split; [now apply lift_frame | now split].
Qed.

Lemma irq_init_frame irq irq_type open_drain s o d l :
  exists r v,
    let w1 := Core (RegWrite INV_ICM42670_REG_INT_CONFIG v) in
    let w2 := Core (RegUpdateBits INV_ICM42600_REG_INT_CONFIG1
                                  INV_ICM42600_INT_CONFIG1_ASYNC_RESET 0) in
    let rq := DevmRequestThreadedIrq irq irq_type in
    (inv_icm42600_irq_init irq irq_type open_drain (mk_pw s o d l)
     = (r, mk_pw s o d (l ++ [w1])) /\ r <> 0) \/
    (inv_icm42600_irq_init irq irq_type open_drain (mk_pw s o d l)
     = (r, mk_pw s o d (l ++ [w1; w2])) /\ r <> 0) \/
    inv_icm42600_irq_init irq irq_type open_drain (mk_pw s o d l)
    = (r, mk_pw s o d (l ++ [w1; w2; rq])).
Proof.
  unfold inv_icm42600_irq_init.
  match goal with
  | |- context [lift (regmap_write _ ?v)] => set (val := v)
  end.
  cbv zeta. prun. lifted.
  destruct (failed (hw_ret (core_trace l) _)) eqn:F1; prun.
  - eexists _, val. left. split; [reflexivity|]. now apply failed_true.
  - lifted. destruct (failed (hw_ret (core_trace (l ++ _)) _)) eqn:F2; prun.
    + eexists _, val. right; left.
      split; [now rewrite <- app_assoc|]. now apply failed_true.
    + eexists _, val. right; right. now repeat rewrite <- app_assoc.
Qed.

Ltac pstep :=
  unfold regmap_write, regmap_update_bits, regulator_enable, regulator_disable,
         msleep, usleep_range, dev_err, inv_icm42600_timestamp_setup,
         devm_add_action_or_reset, run_action, inv_icm42600_disable_pm;
  cbv beta iota zeta delta
    [pbind pret plog_get pemit set_drv get_drv set_orientation register
     kcall kcall_ptr drv orientation devres plog];
  rewrite ?lift_call, ?lift_emit, ?lift_enable_vddio, ?lift_disable_vdd_reg,
          ?lift_disable_vddio_reg;
  change (failed 0) with false;
  cbv beta iota zeta.

Ltac psplit :=
  match goal with
  | |- context [lift inv_icm42600_setup (mk_pw ?s ?o ?d ?l)] =>
      let r := fresh "r" in let s' := fresh "s" in let ev := fresh "ev" in
      let E := fresh "E" in let Q := fresh "Q" in let S0 := fresh "S0" in
      destruct (lift_setup s o d l) as (r & s' & ev & E & Q & S0);
      rewrite E; clear E
  | |- context [inv_icm42600_irq_init ?i ?t ?od (mk_pw ?s ?o ?d ?l)] =>
      let r := fresh "r" in let v := fresh "v" in
      let E := fresh "E" in let N := fresh "N" in
      destruct (irq_init_frame i t od s o d l)
        as (r & v & [(E & N) | [(E & N) | E]]);
      cbv zeta in E; rewrite E; clear E
  | F : ?b = _ |- context [(if ?b then _ else _) (mk_pw _ _ _ _)] =>
      rewrite F
  | |- context [(if ?b then _ else _) (mk_pw _ _ _ _)] =>
      let F := fresh "F" in destruct b eqn:F
  | |- context [let (_, _) := if ?b then _ else _ in _] =>
      let F := fresh "F" in destruct b eqn:F
  end.

Ltac probe_exec :=
  match goal with
  | |- let res := inv_icm42600_core_probe ?c ?i (mk_pw ?s ?o ?d ?l) in @?G res =>
      let Post := fresh "Post" in
      pose (Post := G);
      change (Post (inv_icm42600_core_probe c i (mk_pw s o d l)));
      unfold inv_icm42600_core_probe;
      let C := fresh "C" in
      destruct (orb (c <=? INV_CHIP_INVALID) (c >=? INV_CHIP_NB)) eqn:C;
      [ pstep | pstep; repeat (psplit; pstep) ];
      subst Post; cbv beta
  end.

Lemma failed_eqb r : failed r = false -> (r =? 0) = true.
Proof. unfold failed. now destruct (r =? 0). Qed.

Lemma failed_neqb r : failed r = true -> (r =? 0) = false.
Proof. unfold failed. now destruct (r =? 0). Qed.

Lemma core_trace_cons e l :
  core_trace (e :: l)
  = match e with Core c => [c] | _ => [] end ++ core_trace l.
Proof. reflexivity. Qed.

Lemma core_trace_nil : core_trace [] = [].
Proof. reflexivity. Qed.

Ltac pnorm :=
  cbn [fst snd plog devres drv orientation];
  repeat match goal with
         | |- context [if failed ?r then [Core DevErr] else []] =>
             destruct (failed r)
         end;
  repeat rewrite <- app_assoc in *; cbn [app] in *;
  repeat progress
    (rewrite ?core_trace_app, ?core_trace_cons, ?core_trace_cores,
             ?core_trace_nil in *;
     cbn [app] in *);
  repeat rewrite app_nil_r in *;
  repeat rewrite <- app_assoc in *; cbn [app] in *.

Ltac held :=
  unfold power_up_calls;
  rewrite ?core_trace_cons, ?core_trace_nil; cbn [app];
  cbn [rail_held supply_eqb andb];
  repeat rewrite <- app_assoc; cbn [app];
  repeat match goal with
         | F : failed ?r = false |- context [?r =? 0] =>
             rewrite (failed_eqb r F)
         | F : failed ?r = true |- context [?r =? 0] =>
             rewrite (failed_neqb r F)
         end.

Lemma rail_held_app r pre a b h :
  rail_held r pre (a ++ b) h = rail_held r (pre ++ a) b (rail_held r pre a h).
Proof.
  revert pre h. induction a as [|e a IH]; intros pre h; cbn [app rail_held].
  - now rewrite app_nil_r.
  - rewrite IH. now rewrite <- app_assoc.
Qed.

Lemma rail_held_quiet r pre ev h :
  quiet_rails ev = true -> rail_held r pre ev h = h.
Proof.
  revert pre h. induction ev as [|e ev IH]; intros pre h Q; cbn [rail_held].
  - reflexivity.
  - unfold quiet_rails in Q. cbn [forallb] in Q.
    apply andb_true_iff in Q as [Q1 Q2]. rewrite (IH _ _ Q2).
    destruct e; try reflexivity; discriminate.
Qed.

(** X21: the chip is powered before it is accessed.  On every run of
    probe, whatever the kernel and the bus answer, either no register of
    the chip is accessed at all, or the run starts with the power-up calls:
    vdd enabled and the power-up time waited, its teardown registered, vddio
    enabled and its ramp waited, its teardown registered; and both enable
    calls returned 0. *)
Theorem probe_powers_the_chip_before_access id irq pw :
  let res := inv_icm42600_core_probe id irq pw in
  exists ev,
    plog (snd res) = plog pw ++ ev /\
    (no_bus_access ev = true \/
     exists tail,
       ev = power_up_calls irq ++ tail /\
       forall r,
         rail_held r (core_trace (plog pw)) (core_trace (power_up_calls irq))
                   false = true).
Proof.
  destruct pw as [s o d l].
  probe_exec.
  all: pnorm.
  all: eexists; split; [reflexivity|].
  all: first [ left; reflexivity
             | right; eexists; split; [reflexivity|];
               intros []; held; reflexivity ].
Qed.

Ltac held_run :=
  repeat progress
    (rewrite ?core_trace_app, ?core_trace_cons, ?core_trace_cores,
             ?core_trace_nil;
     cbn [app]);
  repeat progress
    (cbn [rail_held supply_eqb andb];
     repeat rewrite <- app_assoc; cbn [app];
     repeat match goal with
            | F : failed ?r = false |- context [?r =? 0] =>
                rewrite (failed_eqb r F)
            | F : failed ?r = true |- context [?r =? 0] =>
                rewrite (failed_neqb r F)
            | Q : quiet_rails ?ev = true |- context [rail_held _ _ (?ev ++ _) _] =>
                rewrite rail_held_app, (rail_held_quiet _ _ ev _ Q)
            | Q : quiet_rails ?ev = true |- context [rail_held _ _ ?ev _] =>
                rewrite (rail_held_quiet _ _ ev _ Q)
            end).

(** X22: rails and teardown actions agree.  On every run of probe,
    whatever the kernel and the bus answer, the teardown actions probe has
    registered are a tail of the complete teardown order (runtime power
    management, then vddio, then vdd), and a rail is held at the end (enabled
    by a call that returned 0 and not disabled since) exactly when its
    disable action is registered: no rail is left on without its teardown,
    and no teardown is registered for a rail that is off. *)
Theorem probe_rails_and_teardown_agree id irq pw :
  let res := inv_icm42600_core_probe id irq pw in
  exists ev n,
    plog (snd res) = plog pw ++ ev /\
    devres (snd res) = skipn n teardown_order ++ devres pw /\
    forall r,
      rail_held r (core_trace (plog pw)) (core_trace ev) false = true
      <-> In (disable_action r) (skipn n teardown_order).
Proof.
  destruct pw as [s o d l].
  probe_exec.
  all: pnorm.
  all: eexists;
    first [ exists 3%nat; split; [reflexivity|]; split; [reflexivity|]
          | exists 2%nat; split; [reflexivity|]; split; [reflexivity|]
          | exists 1%nat; split; [reflexivity|]; split; [reflexivity|]
          | exists 0%nat; split; [reflexivity|]; split; [reflexivity|] ].
  all: intros []; held_run;
    cbn [skipn teardown_order disable_action In];
    (split; [ intros X; try discriminate X; tauto
            | intros X; try reflexivity;
              repeat (destruct X as [X|X]; try discriminate X);
              try contradiction ]).
Qed.

Lemma irq_requests_app a b : irq_requests (a ++ b) = irq_requests a ++ irq_requests b.
Proof. unfold irq_requests. apply flat_map_app. Qed.

Lemma irq_requests_cons e l :
  irq_requests (e :: l)
  = match e with DevmRequestThreadedIrq i t => [(i, t)] | _ => [] end
    ++ irq_requests l.
Proof. reflexivity. Qed.

Lemma irq_requests_nil : irq_requests [] = [].
Proof. reflexivity. Qed.

Lemma irq_requests_cores ev : irq_requests (List.map Core ev) = [].
Proof. induction ev as [|e ev IH]; simpl; congruence. Qed.

Ltac requests_run :=
  repeat progress
    (rewrite ?irq_requests_app, ?irq_requests_cons, ?irq_requests_cores,
             ?irq_requests_nil;
     cbn [app]).

(** X23: the interrupt is requested at most once, and only at the end of a
    complete bring-up.  On every run of probe, either no interrupt is
    requested, or exactly one is, for the line probe was given and with the
    trigger type of the line (falling edge when it has none); the calls
    before it are then the power-up calls, the calls of the chip set-up, the
    timestamp enable, the buffer and IMU initialisation and the two pin
    configuration operations, and the driver state holds the chip, its name
    and its default configuration. *)
Theorem probe_requests_irq_after_bring_up id irq pw :
  ENODEV <> 0 ->
  let res := inv_icm42600_core_probe id irq pw in
  exists ev,
    plog (snd res) = plog pw ++ ev /\
    (irq_requests ev = [] \/
     (irq_requests ev = [(irq, probe_irq_type pw irq)] /\
      (exists setup_calls v post,
         ev = power_up_calls irq ++ List.map Core setup_calls
              ++ [Core (RegUpdateBits INV_ICM42600_REG_TMST_CONFIG
                          INV_ICM42600_TMST_CONFIG_MASK
                          (to_uint (Z.lor INV_ICM42600_TMST_CONFIG_TMST_TO_REGS_EN
                                          INV_ICM42600_TMST_CONFIG_TMST_EN)));
                  BufferInit; ImuInit;
                  Core (RegWrite INV_ICM42670_REG_INT_CONFIG v);
                  Core (RegUpdateBits INV_ICM42600_REG_INT_CONFIG1
                                      INV_ICM42600_INT_CONFIG1_ASYNC_RESET 0);
                  DevmRequestThreadedIrq irq (probe_irq_type pw irq)]
              ++ post) /\
      let hw := inv_icm42600_hw (chip_of_int id) in
      chip (drv (snd res)) = chip_of_int id /\
      name (drv (snd res)) = hw_name hw /\
      conf (drv (snd res)) = hw_conf hw)).
Proof.
  intros NZ. destruct pw as [s o d l].
  probe_exec.
  all: cbn [fst snd plog devres drv orientation];
       repeat match goal with
         | |- context [if failed ?r then [Core DevErr] else []] =>
             destruct (failed r)
         end;
       repeat rewrite <- app_assoc; cbn [app].
  all: eexists; split; [reflexivity|].
  all: requests_run.
  all: first [ left; reflexivity | right ].
  all: split; [reflexivity|].
  all: split; [eexists _, _, _; reflexivity|].
  all: match goal with
       | F : failed ?r = false, S0 : _ -> ?r = 0 -> _ |- _ =>
           rewrite (S0 NZ (proj1 (failed_false r) F))
       end.
  all: cbv zeta; unfold with_indio_dev; simp_rec; cbn [kzalloc_state chip].
  all: repeat split; reflexivity.
Qed.

(** X24: probe reports success exactly when the bring-up is complete.
    Provided the error numbers it returns are not zero and an error pointer
    carries a non-zero code, probe returns 0 exactly when it has registered
    all three teardown actions (runtime power management, vddio, vdd, in the
    order in which they run); and after a probe that returned 0 the mount
    matrix the driver hands out is the one read at probe. *)
Theorem probe_success_is_complete id irq pw :
  ENODEV <> 0 -> EINVAL <> 0 -> ENOMEM <> 0 ->
  (forall h e c, k_ptr h e = PtrErr c -> c <> 0) ->
  let res := inv_icm42600_core_probe id irq pw in
  (fst res = 0 <-> devres (snd res) = teardown_order ++ devres pw) /\
  (fst res = 0 ->
   inv_icm42600_get_mount_matrix (snd res)
   = k_mount_matrix (plog pw ++ firstn 4 (power_up_calls irq))).
Proof.
  intros N1 N2 N3 PE. destruct pw as [s o d l].
  probe_exec.
  all: unfold inv_icm42600_get_mount_matrix;
       cbn [fst snd plog devres drv orientation];
       repeat rewrite <- app_assoc in *; cbn [app firstn power_up_calls] in *.
  all: repeat match goal with
              | F : failed ?r = true |- _ => apply failed_true in F
              | F : failed ?r = false |- _ => apply failed_false in F
              | F : IS_ERR ?p = true |- _ =>
                  let c := fresh "c" in let E := fresh "E" in
                  destruct p as [| |c] eqn:E; try discriminate F;
                  apply PE in E; clear F
              end.
  all: cbn [PTR_ERR].
  all: split;
    [ split;
      [ intros X; first [ reflexivity | exfalso; congruence | exfalso; lia ]
      | intros X; first [ assumption
                        | exfalso; apply (f_equal (@List.length _)) in X;
                          cbn [teardown_order app List.length] in X;
                          rewrite ?length_app in X;
                          cbn [List.length] in X; lia ] ]
    | intros X; first [ reflexivity | exfalso; congruence | exfalso; lia ] ].
Qed.

End AttachProperties.

(** * Runs of the further properties *)

(** Only the accel full scale changes: one write, 0x50 := 0x28. *)
Lemma set_accel_conf_writes_only_the_delta_witness :
  bus_writes (events_since (sample_world 3 3 false false)
    (snd (@inv_icm42600_set_accel_conf sample_header quiet
            (mk_sensor_conf (-1) 1 (-1) (-1)) None
            (sample_world 3 3 false false))))
  = [RegWrite 0x50 40].
Proof.
  exact (proj2 (proj2 (proj2 (proj2 (proj2
    (@set_accel_conf_writes_only_the_delta sample_header quiet
       (sample_world 3 3 false false) (mk_sensor_conf (-1) 1 (-1) (-1)) None
       (fun _ _ => eq_refl))))))).
Defined.

(** Only the gyro rate changes: one write, 0x4F := 9. *)
Lemma set_gyro_conf_writes_only_the_delta_witness :
  bus_writes (events_since (sample_world 3 3 false false)
    (snd (@inv_icm42600_set_gyro_conf sample_header quiet
            (mk_sensor_conf (-1) (-1) 9 (-1)) None
            (sample_world 3 3 false false))))
  = [RegWrite 0x4F 9].
Proof.
  exact (proj2 (proj2 (proj2 (proj2 (proj2
    (@set_gyro_conf_writes_only_the_delta sample_header quiet
       (sample_world 3 3 false false) (mk_sensor_conf (-1) (-1) 9 (-1)) None
       (fun _ _ => eq_refl))))))).
Defined.

(** The same accel request a second time, with a delay cell holding 5. *)
Lemma config_request_is_idempotent_witness :
  let wa := snd (@inv_icm42600_set_accel_conf sample_header quiet
                   (mk_sensor_conf 3 1 9 2) None
                   (sample_world 0 0 false false)) in
  @inv_icm42600_set_accel_conf sample_header quiet (mk_sensor_conf 3 1 9 2)
    (Some 5%N) wa
  = ((0, mk_sensor_conf 3 1 9 2, Some 5%N), wa).
Proof.
  exact (proj1
    (@config_request_is_idempotent sample_header quiet
       (sample_world 0 0 false false) (mk_sensor_conf 3 1 9 2) None (Some 5%N)
       (fun _ _ => eq_refl))).
Defined.

(** Accel filter 0 -> 2, then gyro filter 0 -> 3: 0x52 := 0x20, then 0x23. *)
Lemma filter_updates_compose_witness :
  let w := sample_world 3 3 false false in
  let w1 := snd (@inv_icm42600_set_accel_conf sample_header quiet
                   (mk_sensor_conf (-1) (-1) (-1) 2) None w) in
  let w2 := snd (@inv_icm42600_set_gyro_conf sample_header quiet
                   (mk_sensor_conf (-1) (-1) (-1) 3) None w1) in
  bus_writes (events_since w w2) = [RegWrite 0x52 0x20; RegWrite 0x52 0x23].
Proof.
  exact (proj1
    (@filter_updates_compose sample_header quiet
       (sample_world 3 3 false false) 2 3 None
       (fun _ _ => eq_refl) ltac:(lia) ltac:(lia)
       ltac:(vm_compute; discriminate) ltac:(vm_compute; discriminate))).
Defined.

(** Full scale and filter are requested and the filter write fails with -5:
    the full scale is stored, the filter is not. *)
Lemma set_accel_conf_keeps_what_landed_witness :
  let res := @inv_icm42600_set_accel_conf sample_header (write_fails_at 0x52)
               (mk_sensor_conf (-1) 1 (-1) 2) None
               (sample_world 3 3 false false) in
  ret_code (fst res) = -5 /\
  fs (accel (conf (st (snd res)))) = 1 /\
  filter (accel (conf (st (snd res)))) = 0.
Proof.
  destruct (@set_accel_conf_keeps_what_landed sample_header
              (write_fails_at 0x52) (sample_world 3 3 false false)
              (mk_sensor_conf (-1) 1 (-1) 2) None (-5)
              eq_refl ltac:(vm_compute; discriminate) eq_refl eq_refl
              ltac:(lia))
    as (A & _ & _ & B & _ & C & _).
  split; [exact A | split; [exact B | exact C]].
Defined.

(** Temperature switched on with both sensors in low noise: 14 ms. *)
Lemma set_temp_conf_touches_only_the_flag_witness :
  fst (@inv_icm42600_set_temp_conf sample_header quiet true (Some 0%N)
         (sample_world 3 3 false false))
  = (0, Some 14%N).
Proof.
  exact (f_equal fst
    (@set_temp_conf_touches_only_the_flag sample_header quiet
       (sample_world 3 3 false false) true 0%N
       ltac:(vm_compute; discriminate) eq_refl)).
Defined.

(** System suspend of a device that is already runtime suspended. *)
Lemma suspend_after_runtime_suspend_is_bookkeeping_witness :
  trace (snd (@inv_icm42600_suspend sample_header
                (healthy (fun _ => 0) [] false true)
                (sample_world 3 3 false false)))
  = [MutexLock; MutexUnlock].
Proof.
  exact (f_equal (fun r => trace (snd r))
    (@suspend_after_runtime_suspend_is_bookkeeping sample_header
       (healthy (fun _ => 0) [] false true) (sample_world 3 3 false false)
       eq_refl)).
Defined.

(** System resume when the I/O supply answers -5. *)
Lemma resume_stops_when_the_rail_fails_witness :
  @inv_icm42600_resume sample_header rail_fails (sample_world 0 0 false false)
  = (-5, mk_world (sample_state 0 0 false false)
                  [MutexLock; RegulatorEnable Vddio; MutexUnlock]).
Proof.
  exact (proj1
    (@resume_stops_when_the_rail_fails sample_header rail_fails
       (sample_world 0 0 false false) ltac:(vm_compute; discriminate))).
Defined.

(** Runtime suspend and resume of a device with both sensors in low noise. *)
Lemma runtime_resume_leaves_sensors_off_witness :
  let r1 := @inv_icm42600_runtime_suspend sample_header quiet
              (sample_world 3 3 true false) in
  let r2 := @inv_icm42600_runtime_resume quiet (snd r1) in
  conf (st (snd r2))
  = mk_conf (mk_sensor_conf 0 0 8 0) (mk_sensor_conf 0 0 8 0) false.
Proof.
  exact (proj2 (proj2 (proj2 (proj2
    (@runtime_resume_leaves_sensors_off sample_header quiet
       (sample_world 3 3 true false) (fun _ _ => eq_refl)))))).
Defined.

(** The extremes of the range among the six samples. *)
Lemma burst_decode_round_trip_witness :
  List.map (sample16 (List.map to_u8
                        (flat_map le16 [-1; 2; -32768; 32767; 0; 100])))
           [0; 2; 4; 6; 8; 10]%nat
  = [-1; 2; -32768; 32767; 0; 100].
Proof.
  apply (burst_decode_round_trip (-1) 2 (-32768) 32767 0 100).
  repeat (apply Forall_cons; [lia|]). apply Forall_nil.
Defined.

(** Bring-up of an ICM-42670 that reports reset done. *)
Lemma setup_on_a_healthy_chip_witness :
  @inv_icm42600_setup sample_header (icm42670_chip 0x10)
    (sample_world 0 0 false false)
  = (0,
     mk_world (sample_state 3 3 false false)
              [RegRead 0x75; RegWrite 0x02 0x10; MSleep 1; RegRead 0x3A;
               RegUpdateBits 0x35 0x10 0;
               RegWrite 0x1F 15; RegWrite 0x20 8; RegWrite 0x21 8]).
Proof.
  exact (@setup_on_a_healthy_chip sample_header (icm42670_chip 0x10)
           (sample_world 0 0 false false)
           (fun _ _ => eq_refl) eq_refl ltac:(vm_compute; discriminate)).
Defined.

(** Bring-up of an ICM-42670 whose status register reads 0. *)
Lemma setup_reset_not_done_witness :
  @inv_icm42600_setup sample_header (icm42670_chip 0)
    (sample_world 0 0 false false)
  = (-19,
     mk_world (sample_state 0 0 false false)
              [RegRead 0x75; RegWrite 0x02 0x10; MSleep 1; RegRead 0x3A;
               DevErr]).
Proof.
  exact (@setup_reset_not_done sample_header (icm42670_chip 0)
           (sample_world 0 0 false false)
           eq_refl eq_refl eq_refl eq_refl eq_refl).
Defined.

(** A request with every field unset, on a failing bus. *)
Lemma configuration_stays_valid_witness :
  conf_valid (st (snd (@inv_icm42600_set_accel_conf sample_header
                         (write_fails_at 0x52)
                         (mk_sensor_conf (-1) (-1) (-1) (-1)) None
                         (sample_world 3 3 false false)))).
Proof.
  apply (@configuration_stays_valid sample_header (write_fails_at 0x52)
           (sample_world 3 3 false false)
           (mk_sensor_conf (-1) (-1) (-1) (-1)) false 0 0 false None).
  unfold conf_valid, no_sentinel. simpl. lia.
Defined.

(** 50 Hz: 20 ms. *)
Lemma odr_to_period_table_witness :
  0 < inv_icm42600_odr_to_period 9 < inv_icm42600_odr_to_period 10.
Proof.
  destruct (odr_to_period_table 9 ltac:(lia)) as (A & _ & B).
  split; [apply A; lia | apply B; lia].
Defined.

(** Probe of an ICM-42670 on line 17, everything succeeding. *)
Lemma probe_requests_irq_after_bring_up_witness :
  let res := @inv_icm42600_core_probe sample_header sample_probe_header
               (icm42670_chip 0x10) friendly 6 17 fresh_device in
  exists ev,
    plog (snd res) = ev /\
    (irq_requests ev = [] \/ irq_requests ev = [(17, 2)]).
Proof.
  destruct (@probe_requests_irq_after_bring_up sample_header
              sample_probe_header (icm42670_chip 0x10) friendly 6 17
              fresh_device ltac:(vm_compute; discriminate))
    as (ev & A & [B | (B & _)]).
  - exists ev. split; [exact A | left; exact B].
  - exists ev. split; [exact A | right; exact B].
Defined.

(** The same probe with the buffer initialisation failing: not a success,
    and the teardown of runtime power management is not registered. *)
Lemma probe_success_is_complete_witness :
  let res := @inv_icm42600_core_probe sample_header sample_probe_header
               (icm42670_chip 0x10)
               (kernel_fails_at (fun e => match e with
                                          | BufferInit => true
                                          | _ => false
                                          end))
               6 17 fresh_device in
  fst res = 0 <-> devres (snd res) = teardown_order.
Proof.
  exact (proj1
    (@probe_success_is_complete sample_header sample_probe_header
       (icm42670_chip 0x10)
       (kernel_fails_at (fun e => match e with
                                  | BufferInit => true
                                  | _ => false
                                  end))
       6 17 fresh_device
       ltac:(vm_compute; discriminate) ltac:(vm_compute; discriminate)
       ltac:(vm_compute; discriminate)
       (fun h e c E => ltac:(discriminate E)))).
Defined.

(** A debug read that fails with -5 while the caller's variable holds 123:
    the variable still holds 123 on return. *)
Example debugfs_reg_failed_read :
  fst (inv_icm42600_debugfs_reg
         (P := scripted (fun e => match e with
                                  | RegRead _ => -5
                                  | _ => 0
                                  end)
                        (fun _ => 171) [] false false)
         0x75 0 (Some 123) (sample_world 0 0 false false))
  = (-5, Some 123).
Proof. vm_compute. reflexivity. Qed.

(** The same read succeeding: the variable holds the register value. *)
Example debugfs_reg_read :
  fst (inv_icm42600_debugfs_reg (P := healthy (fun _ => 171) [] false false)
         0x75 0 (Some 123) (sample_world 0 0 false false))
  = (0, Some 171).
Proof. vm_compute. reflexivity. Qed.
